(** * Jim-G FiveM map collision finder: the scan-hash-classify pipeline

    A shallow embedding of [find_collisions] and of the report summary of
    the three program variants

    - [Gui]       : v3 [jim_g_collision_gui.py]     (progress callback),
    - [CheckerV3] : v3 [jim_g_collision_checker.py] (single-shot GUI),
    - [CheckerV2] : v2 [jim_g_collision_checker.py] (interactive CLI),

    together with the properties of the pipeline stated in the specification,
    and with further properties of the code around it: the Lua report
    ([LuaReport]), the check boxes, the output file name and the Lua run of
    [ConflictCheckerApp] ([App]), and the questions of the v2 file ([Cli]).

    Python values are modelled as follows.  Strings are [string] (sequences
    of 8-bit characters; [str.lower] and [str.upper] act on the ASCII
    letters).  A [dict] or [defaultdict] is an insertion-ordered association
    list with unique keys, as Python iterates a dict in insertion order and
    the reports do iterate them.  The operating system (directory walk, file
    reads, [os.path.normpath], MD5, path separator, float rounding) is a
    [World] record. *)

From Stdlib Require Import List String Ascii Bool Arith ZArith QArith Qround Lia.
From Stdlib Require Import Strings.Byte DecimalString Sorted Permutation.
Import ListNotations.

Local Open Scope string_scope.
Local Open Scope list_scope.

(** ** Python built-ins on strings *)

Module Py.

Definition lower_char (c : ascii) : ascii :=
  let n := nat_of_ascii c in
  if (65 <=? n)%nat && (n <=? 90)%nat then ascii_of_nat (n + 32) else c.

Definition upper_char (c : ascii) : ascii :=
  let n := nat_of_ascii c in
  if (97 <=? n)%nat && (n <=? 122)%nat then ascii_of_nat (n - 32) else c.

Fixpoint map_chars (f : ascii -> ascii) (s : string) : string :=
  match s with
  | EmptyString => EmptyString
  | String c s' => String (f c) (map_chars f s')
  end.

(** [s.lower()] and [s.upper()] *)
Definition lower (s : string) : string := map_chars lower_char s.
Definition upper (s : string) : string := map_chars upper_char s.

(** [s.startswith(p)] *)
Definition startswith (s p : string) : bool := String.prefix p s.

(** [s.endswith(p)] *)
Definition endswith (s p : string) : bool :=
  let ls := String.length s in
  let lp := String.length p in
  (lp <=? ls)%nat && String.eqb (substring (ls - lp) lp s) p.

(** [s.split(sep)] for a one-character separator: never the empty list. *)
Fixpoint split (sep : ascii) (s : string) : list string :=
  match s with
  | EmptyString => [EmptyString]
  | String c s' =>
      if Ascii.eqb c sep then EmptyString :: split sep s'
      else match split sep s' with
           | [] => [String c EmptyString]
           | part :: parts => String c part :: parts
           end
  end.

(** [sep.join(parts)] *)
Definition join (sep : string) (parts : list string) : string :=
  String.concat sep parts.

(** [x in xs] for a list of strings *)
Definition contains (xs : list string) (x : string) : bool :=
  existsb (String.eqb x) xs.

(** [str(n)] for a non-negative integer *)
Definition str_of_nat (n : nat) : string :=
  NilZero.string_of_uint (Nat.to_uint n).

Fixpoint spaces (n : nat) : string :=
  match n with
  | O => EmptyString
  | S k => String " " (spaces k)
  end.

(** the format spec [{s:<w}]: left-justified in a field of width [w] *)
Definition ljust (s : string) (w : nat) : string :=
  s ++ spaces (w - String.length s).

(** truth value of an optional string, as tested by [if file_hash:] *)
Definition truthy (o : option string) : bool :=
  match o with
  | Some s => negb (String.eqb s EmptyString)
  | None => false
  end.

(** [len(set(xs))]: the number of distinct strings of a list *)
Fixpoint distinct (xs : list string) : list string :=
  match xs with
  | [] => []
  | x :: xs' => if contains xs' x then distinct xs' else x :: distinct xs'
  end.

End Py.

(** ** The platform *)

Inductive os_name := Posix | Windows.

Definition sep_of (o : os_name) : ascii :=
  match o with Posix => "/"%char | Windows => "\"%char end.

(** [os.path.altsep] *)
Definition altsep_of (o : os_name) : option ascii :=
  match o with Posix => None | Windows => Some "/"%char end.

(** ** [fnmatch]: shell-style patterns *)

Module Fnmatch.

Inductive glob_token :=
| Star
| AnyChar
| Lit (c : ascii)
| CharSet (negated : bool) (ranges : list (ascii * ascii)).

(** the members of a bracket expression: [a-b] is a range, anything else
    stands for itself *)
Fixpoint set_items (stuff : list ascii) : list (ascii * ascii) :=
  match stuff with
  | [] => []
  | a :: rest =>
      match rest with
      | "-"%char :: b :: rest' => (a, b) :: set_items rest'
      | _ => (a, a) :: set_items rest
      end
  end.

Fixpoint until_bracket (l : list ascii) : option (list ascii) :=
  match l with
  | [] => None
  | c :: l' =>
      if Ascii.eqb c "]" then Some []
      else option_map (cons c) (until_bracket l')
  end.

(** the text between [[] and the closing []]; a leading [!] and a []]
    right after it belong to the text *)
Definition bracket_body (rest : list ascii) : option (list ascii) :=
  let '(bang, r1) :=
    match rest with
    | "!"%char :: r => (["!"%char], r)
    | _ => ([], rest)
    end in
  let '(first, r2) :=
    match r1 with
    | "]"%char :: r => (["]"%char], r)
    | _ => ([], r1)
    end in
  option_map (fun body => bang ++ first ++ body) (until_bracket r2).

Definition set_token (stuff : list ascii) : glob_token :=
  match stuff with
  | "!"%char :: items => CharSet true (set_items items)
  | _ => CharSet false (set_items stuff)
  end.

(** [fnmatch.translate]: [skip] counts the characters of a bracket
    expression that were already consumed *)
Fixpoint translate (skip : nat) (pat : list ascii) : list glob_token :=
  match pat with
  | [] => []
  | c :: rest =>
      match skip with
      | S k => translate k rest
      | O =>
          if Ascii.eqb c "*" then Star :: translate 0 rest
          else if Ascii.eqb c "?" then AnyChar :: translate 0 rest
          else if Ascii.eqb c "[" then
            match bracket_body rest with
            | Some stuff => set_token stuff :: translate (S (List.length stuff)) rest
            | None => Lit "[" :: translate 0 rest
            end
          else Lit c :: translate 0 rest
      end
  end.

Definition in_range (c : ascii) (r : ascii * ascii) : bool :=
  (nat_of_ascii (fst r) <=? nat_of_ascii c)%nat
  && (nat_of_ascii c <=? nat_of_ascii (snd r))%nat.

Fixpoint glob_match (p : list glob_token) (s : list ascii) {struct p} : bool :=
  match p with
  | [] => match s with [] => true | _ :: _ => false end
  | Star :: p' =>
      (fix star (s : list ascii) : bool :=
         glob_match p' s
         || match s with [] => false | _ :: s' => star s' end) s
  | AnyChar :: p' =>
      match s with [] => false | _ :: s' => glob_match p' s' end
  | Lit c :: p' =>
      match s with
      | [] => false
      | d :: s' => Ascii.eqb c d && glob_match p' s'
      end
  | CharSet neg rs :: p' =>
      match s with
      | [] => false
      | d :: s' => xorb neg (existsb (in_range d) rs) && glob_match p' s'
      end
  end.

(** [fnmatch.fnmatchcase(name, pat)] *)
Definition fnmatchcase (name pat : string) : bool :=
  glob_match (translate 0 (list_ascii_of_string pat)) (list_ascii_of_string name).

Definition normcase_char (o : os_name) (c : ascii) : ascii :=
  match o with
  | Posix => c
  | Windows => if Ascii.eqb c "/" then "\"%char else Py.lower_char c
  end.

(** [os.path.normcase] *)
Definition normcase (o : os_name) (s : string) : string :=
  Py.map_chars (normcase_char o) s.

(** [fnmatch.fnmatch(name, pat)] *)
Definition fnmatch (o : os_name) (name pat : string) : bool :=
  fnmatchcase (normcase o name) (normcase o pat).

End Fnmatch.

(** ** [os.path] *)

Module OsPath.

(** [s.rfind(c)]: the index of the last occurrence of [c], or -1 *)
Fixpoint rfind_from (c : ascii) (s : string) (i acc : Z) : Z :=
  match s with
  | EmptyString => acc
  | String d s' => rfind_from c s' (i + 1)%Z (if Ascii.eqb d c then i else acc)
  end.

Definition rfind (c : ascii) (s : string) : Z := rfind_from c s 0%Z (-1)%Z.

(** the slice [p[i:j]] *)
Definition slice (p : string) (i j : Z) : string :=
  substring (Z.to_nat i) (Z.to_nat (j - i)) p.

(** [os.path.splitext(p)]: the extension starts at the last dot of the
    last path component, leading dots of that component apart *)
Definition splitext (o : os_name) (p : string) : string * string :=
  let sepIndex :=
    match altsep_of o with
    | Some altsep => Z.max (rfind (sep_of o) p) (rfind altsep p)
    | None => rfind (sep_of o) p
    end in
  let dotIndex := rfind "."%char p in
  let n := Z.of_nat (String.length p) in
  if (sepIndex <? dotIndex)%Z
     && existsb (fun ch => negb (Ascii.eqb ch "."))
          (list_ascii_of_string (slice p (sepIndex + 1) dotIndex))
  then (slice p 0 dotIndex, slice p dotIndex n)
  else (p, EmptyString).

(** A path below the scanned directory is kept in structured form: the
    [directory] argument and the names leading from it to the file or
    folder.  [os.path.join(root, filename)] adds a name. *)
Record t := mk { top : string; names : list string }.

Definition join (root : t) (name : string) : t :=
  {| top := top root; names := names root ++ [name] |}.

(** [os.path.relpath(p, directory)] for a path below [directory] *)
Definition relpath (o : os_name) (p : t) : string :=
  match names p with
  | [] => "."
  | _ :: _ => Py.join (String (sep_of o) EmptyString) (names p)
  end.

(** the path as text *)
Definition render (o : os_name) (p : t) : string :=
  fold_left (fun acc name => (acc ++ String (sep_of o) EmptyString ++ name)%string)
            (names p) (top p).

(** A path that went through [os.path.normpath]: the file it leads to,
    in structured form, and the text of the path.  Normalising changes
    how a path is written, not where it leads. *)
Record normal := { file : t; text : string }.

End OsPath.

(** ** Dictionaries *)

Section Dict.
Context {V : Type}.

(** an insertion-ordered dictionary with string keys *)
Definition dict := list (string * V).

(** [d.get(k)] *)
Fixpoint dget (k : string) (d : dict) : option V :=
  match d with
  | [] => None
  | (k', v) :: d' => if String.eqb k k' then Some v else dget k d'
  end.

(** [d[k] = f(d[k])] on a [defaultdict] whose factory yields [dflt]: a
    present key keeps its place, a missing key is added at the end *)
Fixpoint dalter (dflt : V) (f : V -> V) (k : string) (d : dict) : dict :=
  match d with
  | [] => [(k, f dflt)]
  | (k', v) :: d' =>
      if String.eqb k k' then (k', f v) :: d'
      else (k', v) :: dalter dflt f k d'
  end.

(** [d.keys()] *)
Definition keys (d : dict) : list string := map fst d.

End Dict.

Arguments dict V : clear implicits.

(** ** The world outside the program *)

Inductive io_error :=
| PermissionError
| FileNotFoundError
| OtherOSError.

(** What opening and reading a file does: [open] fails, or the successive
    [f.read(4096)] calls return [reads] and then, when [failure] is set,
    the next call raises. After the last chunk a read returns [b""]. *)
Inductive read_outcome :=
| OpenFails (e : io_error)
| Opened (reads : list (list byte)) (failure : option io_error).

Record World := {
  os : os_name;
  (** [os.walk(directory)]: the folders visited, in visiting order, each
      given by the names leading to it from [directory] and by the names of
      its files *)
  os_walk : string -> list (list string * list string);
  file_read : OsPath.t -> read_outcome;
  (** [os.path.normpath] on the text of a path *)
  os_path_normpath : string -> string;
  (** MD5 of a byte sequence, as 32 hexadecimal digits *)
  md5_hexdigest : list byte -> string;
  (** rounding of a real number to a [float] *)
  float_round : Q -> Q;
  (** [datetime.now().strftime("%Y-%m-%d %H:%M:%S")] *)
  now : string
}.

(** ** Records of the pipeline *)

Module FileData.
(** an entry of [file_list] *)
Record t := mk { path : OsPath.t; filename_lower : string; resource : string }.
End FileData.

Module Info.
(** an entry of a filename group *)
Record t := mk { path : string; hash : string; resource : string }.
End Info.

(** a value of [categorized_results] *)
Record bucket := mk_bucket {
  conflicts : dict (list Info.t);
  duplicates : dict (list Info.t)
}.

(** the factory of [categorized_results] *)
Definition empty_bucket : bucket := {| conflicts := []; duplicates := [] |}.

(** Python exceptions the model meets.  [UnboundLocalError] is a subclass
    of [NameError]. *)
Inductive exception :=
| OSError (e : io_error)
| UnboundLocalError (variable : string).

Definition is_NameError (e : exception) : bool :=
  match e with
  | UnboundLocalError _ => true
  | OSError _ => false
  end.

Inductive result (A : Type) :=
| Ok (a : A)
| Raise (e : exception).
Arguments Ok {A} a.
Arguments Raise {A} e.

(** ** Code shared word for word by the program variants *)

Module Core.

(** [hash_md5.update(chunk)]: the digest object is the bytes fed so far *)
Definition md5_update (hash_md5 chunk : list byte) : list byte := hash_md5 ++ chunk.

(** [for chunk in iter(lambda: f.read(4096), b""): hash_md5.update(chunk)] *)
Fixpoint read_chunks (reads : list (list byte)) (failure : option io_error)
         (hash_md5 : list byte) : result (list byte) :=
  match reads with
  | [] => match failure with
          | Some e => Raise (OSError e)
          | None => Ok hash_md5
          end
  | chunk :: rest =>
      match chunk with
      | [] => Ok hash_md5
      | _ :: _ => read_chunks rest failure (md5_update hash_md5 chunk)
      end
  end.

(** the body of the [try] of [get_file_hash] *)
Definition hash_file (w : World) (file_path : OsPath.t) : result string :=
  match file_read w file_path with
  | OpenFails e => Raise (OSError e)
  | Opened reads failure =>
      match read_chunks reads failure [] with
      | Ok hash_md5 => Ok (md5_hexdigest w hash_md5)
      | Raise e => Raise e
      end
  end.

(** [get_file_hash]: [except Exception: return None] (v3), [except
    IOError: return None] (v2); every [io_error] is an [IOError] *)
Definition get_file_hash (w : World) (file_path : OsPath.t) : option string :=
  match hash_file w file_path with
  | Ok digest => Some digest
  | Raise _ => None
  end.

Definition lightmap_patterns : list string := ["lodlights*.ymap"; "vw_*.ymap"].

(** [file_info_dict[file_key].append(...)] *)
Definition add_info (file_key : string) (info : Info.t)
           (file_info_dict : dict (list Info.t)) : dict (list Info.t) :=
  dalter [] (fun infos => infos ++ [info]) file_key file_info_dict.

(** [categorized_results[ext]['conflicts'][filename].extend(infos)] *)
Definition extend_conflicts (file_extension filename : string) (infos : list Info.t)
           (categorized_results : dict bucket) : dict bucket :=
  dalter empty_bucket
    (fun data => {| conflicts := dalter [] (fun l => l ++ infos) filename (conflicts data);
                    duplicates := duplicates data |})
    file_extension categorized_results.

(** [categorized_results[ext]['duplicates'][filename].extend(infos)] *)
Definition extend_duplicates (file_extension filename : string) (infos : list Info.t)
           (categorized_results : dict bucket) : dict bucket :=
  dalter empty_bucket
    (fun data => {| conflicts := conflicts data;
                    duplicates := dalter [] (fun l => l ++ infos) filename (duplicates data) |})
    file_extension categorized_results.

(** [set(info['hash'] for info in infos)] *)
Definition unique_hashes (infos : list Info.t) : list string :=
  Py.distinct (map Info.hash infos).

(** the body of [for filename, infos in file_info_dict.items()] *)
Definition classify_step (o : os_name) (categorized_results : dict bucket)
           (item : string * list Info.t) : dict bucket :=
  let '(filename, infos) := item in
  if (1 <? List.length infos)%nat then
    let file_extension := Py.upper (snd (OsPath.splitext o filename)) in
    if (1 <? List.length (unique_hashes infos))%nat then
      extend_conflicts file_extension filename infos categorized_results
    else
      extend_duplicates file_extension filename infos categorized_results
  else categorized_results.

Definition classify (o : os_name) (file_info_dict : dict (list Info.t)) : dict bucket :=
  fold_left (classify_step o) file_info_dict [].

(** the body of [for file_data in file_list] of the v3 files, progress
    reporting apart *)
Definition hash_step (w : World) (file_info_dict : dict (list Info.t))
           (file_data : FileData.t) : dict (list Info.t) :=
  let file_hash := get_file_hash w (FileData.path file_data) in
  match file_hash with
  | Some digest =>
      if Py.truthy file_hash then
        let file_key := FileData.filename_lower file_data in
        let relative_path := OsPath.relpath (os w) (FileData.path file_data) in
        add_info file_key
          {| Info.path := relative_path;
             Info.hash := digest;
             Info.resource := FileData.resource file_data |}
          file_info_dict
      else file_info_dict
  | None => file_info_dict
  end.

(** [files_to_search_list] and [ignored_patterns_list] of the v3 files *)
Definition pattern_lists (all_map_related_files : dict string)
           (file_patterns : list string) (lightmap_exclusion : bool)
  : list string * list string :=
  let files_to_search_list := file_patterns in
  let ignored_patterns_list :=
    filter (fun p => negb (Py.contains files_to_search_list p)
                     && negb (String.eqb p "light_ymaps"))
           (keys all_map_related_files) in
  if lightmap_exclusion then
    (files_to_search_list, ignored_patterns_list ++ ["light_ymaps_ignored"])
  else if Py.contains files_to_search_list "*.ymap" then
    (files_to_search_list ++ ["light_ymaps"], ignored_patterns_list)
  else (files_to_search_list, ignored_patterns_list).

(** [is_lightmap] of the v3 files *)
Definition is_lightmap (o : os_name) (lightmap_exclusion : bool)
           (filename_lower : string) : bool :=
  lightmap_exclusion
  && Py.endswith filename_lower ".ymap"
  && existsb (Fnmatch.fnmatch o filename_lower) lightmap_patterns.

(** [int(x)] for a float [x]: truncation towards zero *)
Definition int_of_float (x : Q) : Z :=
  if Qle_bool 0 x then Qfloor x else Qceiling x.

End Core.

(** ** v3, [jim_g_collision_gui.py] *)

Module Gui.

Definition ALL_MAP_RELATED_FILES : dict string :=
  [ ("*.ymap", "Map Data (Map Placement/Details)");
    ("light_ymaps", "Light Map Files (lodlights*.ymap / vw_*.ymap)");
    ("*.ybn", "Bounds/Collision Data");
    ("*.ymt", "Meta/Config Files");
    ("*.ytd", "Textures Dictionary");
    ("*.ydr", "Drawable (3D Models)");
    ("*.ydd", "Drawable Dictionary (Model Container)");
    ("*.ytyp", "Types/Manifest (Map/MLO Definitions)");
    ("*.ycd", "Clip Dictionary (Animations)");
    ("*.ynv", "Navigation Mesh (AI Navigation)");
    ("*.ypt", "Particle Effects (FX)") ].

(** [resource_name] of a walked folder *)
Definition resource_name_of (o : os_name) (root : OsPath.t) : string :=
  let resource_path_parts := Py.split (sep_of o) (OsPath.relpath o root) in
  match resource_path_parts with
  | part0 :: _ => if negb (String.eqb part0 ".") then part0 else "ROOT_DIR"
  | [] => "ROOT_DIR"
  end.

(** the walk that fills [file_list] *)
Definition collect (w : World) (directory : string) (file_patterns : list string)
           (lightmap_exclusion : bool) : list FileData.t :=
  flat_map
    (fun entry : list string * list string =>
       let root := OsPath.mk directory (fst entry) in
       let resource_name := resource_name_of (os w) root in
       flat_map
         (fun filename =>
            let filename_lower := Py.lower filename in
            if Core.is_lightmap (os w) lightmap_exclusion filename_lower then []
            else
              let matched :=
                existsb (Fnmatch.fnmatch (os w) filename_lower) file_patterns in
              if matched then
                [ {| FileData.path := OsPath.join root filename;
                     FileData.filename_lower := filename_lower;
                     FileData.resource := resource_name |} ]
              else [])
         (snd entry))
    (os_walk w directory).

(** [(current_progress / total_files) * 80]: a division and a
    multiplication of floats, each rounded by [r] *)
Definition scaled (r : Q -> Q) (current_progress total_files : nat) : Q :=
  r (r (inject_Z (Z.of_nat current_progress) / inject_Z (Z.of_nat total_files))
     * 80).

(** [10 + int((current_progress / total_files) * 80)] *)
Definition percentage_of (w : World) (current_progress total_files : nat) : Z :=
  (10 + Core.int_of_float (scaled (float_round w) current_progress total_files))%Z.

(** [f"Hashing files: {current_progress}/{total_files}"] *)
Definition hashing_message (current_progress total_files : nat) : string :=
  "Hashing files: " ++ Py.str_of_nat current_progress
    ++ "/" ++ Py.str_of_nat total_files.

Section Observer.
(** The state of whoever listens to the progress reports. *)
Context {S : Type}.

Definition callback := Z -> string -> S -> S.

(** [if progress_callback: progress_callback(percentage, message)] *)
Definition report (progress_callback : option callback)
           (percentage : Z) (message : string) (s : S) : S :=
  match progress_callback with
  | Some f => f percentage message s
  | None => s
  end.

(** the body of [for file_data in file_list] *)
Definition hash_loop_step (w : World) (total_files : nat)
           (progress_callback : option callback)
           (st : dict (list Info.t) * nat * S) (file_data : FileData.t)
  : dict (list Info.t) * nat * S :=
  let '(file_info_dict, current_progress, s) := st in
  let file_info_dict := Core.hash_step w file_info_dict file_data in
  let current_progress := (current_progress + 1)%nat in
  let percentage := percentage_of w current_progress total_files in
  let s := report progress_callback percentage
             (hashing_message current_progress total_files) s in
  (file_info_dict, current_progress, s).

Definition find_collisions (w : World) (directory : string)
           (file_patterns : list string) (lightmap_exclusion : bool)
           (progress_callback : option callback) (s : S)
  : (dict bucket * list string * list string) * S :=
  let '(files_to_search_list, ignored_patterns_list) :=
    Core.pattern_lists ALL_MAP_RELATED_FILES file_patterns lightmap_exclusion in
  let s := report progress_callback 5 "Collecting file paths..." s in
  let file_list := collect w directory file_patterns lightmap_exclusion in
  let total_files := List.length file_list in
  if (total_files =? 0)%nat then
    let s := report progress_callback 100 "No relevant files found." s in
    (([], files_to_search_list, ignored_patterns_list), s)
  else
    let '(file_info_dict, _, s) :=
      fold_left (hash_loop_step w total_files progress_callback)
                file_list ([], 0%nat, s) in
    let s := report progress_callback 95 "Analyzing results..." s in
    let categorized_results := Core.classify (os w) file_info_dict in
    ((categorized_results, files_to_search_list, ignored_patterns_list), s).

End Observer.

(** [total_conflicts] and [total_duplicates] of [run_checker] *)
Definition total_conflicts (categorized_results : dict bucket) : nat :=
  list_sum (map (fun item => List.length (conflicts (snd item))) categorized_results).

Definition total_duplicates (categorized_results : dict bucket) : nat :=
  list_sum (map (fun item => List.length (duplicates (snd item))) categorized_results).

End Gui.

(** ** v3, [jim_g_collision_checker.py] *)

Module CheckerV3.

Definition ALL_MAP_RELATED_FILES : dict string := Gui.ALL_MAP_RELATED_FILES.

(** [resource_name] of a walked folder *)
Definition resource_name_of (o : os_name) (root : OsPath.t) : string :=
  let resource_path_parts := Py.split (sep_of o) (OsPath.relpath o root) in
  match resource_path_parts with
  | part0 :: _ => part0
  | [] => "ROOT_DIR"
  end.

(** the walk that fills [file_list] *)
Definition collect (w : World) (directory : string) (file_patterns : list string)
           (lightmap_exclusion : bool) : list FileData.t :=
  flat_map
    (fun entry : list string * list string =>
       let root := OsPath.mk directory (fst entry) in
       let resource_name := resource_name_of (os w) root in
       flat_map
         (fun filename =>
            let filename_lower := Py.lower filename in
            let file_path := OsPath.join root filename in
            if Core.is_lightmap (os w) lightmap_exclusion filename_lower then []
            else
              let matched :=
                existsb (Fnmatch.fnmatch (os w) filename_lower) file_patterns in
              if matched then
                [ {| FileData.path := file_path;
                     FileData.filename_lower := filename_lower;
                     FileData.resource := resource_name |} ]
              else [])
         (snd entry))
    (os_walk w directory).

Definition find_collisions (w : World) (directory : string)
           (file_patterns : list string) (lightmap_exclusion : bool)
  : dict bucket * list string * list string :=
  let '(files_to_search_list, ignored_patterns_list) :=
    Core.pattern_lists ALL_MAP_RELATED_FILES file_patterns lightmap_exclusion in
  let file_list := collect w directory file_patterns lightmap_exclusion in
  let file_info_dict := fold_left (Core.hash_step w) file_list [] in
  let categorized_results := Core.classify (os w) file_info_dict in
  (categorized_results, files_to_search_list, ignored_patterns_list).

(** [sorted(categorized_results.items())]: the keys of a dict differ, so
    the order of the pairs is the order of their keys *)
Fixpoint insert_sorted (x : string * bucket) (l : list (string * bucket))
  : list (string * bucket) :=
  match l with
  | [] => [x]
  | y :: l' => if String.leb (fst x) (fst y) then x :: l else y :: insert_sorted x l'
  end.

Definition sorted (l : list (string * bucket)) : list (string * bucket) :=
  fold_right insert_sorted [] l.

Definition separator : string :=
  "--############################################################################################################################################################################################################################################################--".

Definition is_empty {V} (d : dict V) : bool :=
  match d with [] => true | _ :: _ => false end.

(** the lines of [for filename, items in data[...].items()] *)
Definition group_lines (groups : dict (list Info.t)) : list string :=
  flat_map
    (fun group : string * list Info.t =>
       ("  -- - File: " ++ fst group)%string
         :: map (fun item =>
                   ("    - Resource: " ++ Py.ljust (Info.resource item) 25
                      ++ " Path: " ++ Info.path item)%string)
                (snd group))
    groups.

(** The body of [for ext, data in sorted(...)].  The state is
    [lua_output_lines], [is_first_category] and the loop variable [data],
    which is unbound until the first round. *)
Definition report_step (st : list string * bool * option bucket)
           (entry : string * bucket) : list string * bool * option bucket :=
  let '(lua_output_lines, is_first_category, _) := st in
  let '(ext, data) := entry in
  if is_empty (conflicts data) && is_empty (duplicates data) then
    (lua_output_lines, is_first_category, Some data)
  else
    let lines1 :=
      if negb is_first_category then lua_output_lines ++ [separator]
      else lua_output_lines in
    let lines2 := lines1 ++ [("-- --- " ++ ext ++ " Collisions ---")%string] in
    let lines3 :=
      if negb (is_empty (conflicts data)) then
        lines2 ++ [" -- [CRITICAL CONFLICTS] (Same Name, Different Content)"]
               ++ group_lines (conflicts data)
      else lines2 in
    let lines4 :=
      if negb (is_empty (duplicates data)) then
        lines3 ++ [" -- [Redundant Duplicates] (Same Name, Identical Content)"]
               ++ group_lines (duplicates data)
      else lines3 in
    (lines4, false, Some data).

Definition newline : string := String (ascii_of_nat 10) EmptyString.

Definition header_lines (w : World) (directory : string)
           (files_to_search ignored_patterns : list string) : list string :=
  let patterns_searched_for_report :=
    filter (fun p => negb (String.eqb p "light_ymaps")) files_to_search in
  let patterns_searched_for_report :=
    if negb (Py.contains ignored_patterns "light_ymaps_ignored")
    then patterns_searched_for_report ++ ["*.ymap (including lights)"]
    else patterns_searched_for_report in
  let patterns_ignored_for_report :=
    filter (fun p => negb (String.eqb p "light_ymaps_ignored")) ignored_patterns in
  let patterns_ignored_for_report :=
    if Py.contains ignored_patterns "light_ymaps_ignored"
    then patterns_ignored_for_report ++ ["lodlights*.ymap/vw_*.ymap"]
    else patterns_ignored_for_report in
  [ "-- ###################################################";
    "-- #       JIM-G FIVEM MAP COLLISION REPORT (LUA)    #";
    "-- ###################################################";
    ("-- Scan Time: " ++ now w)%string;
    ("-- Target Directory: " ++ directory)%string;
    ("-- File Patterns Searched: "
       ++ match patterns_searched_for_report with
          | [] => "NONE"
          | _ :: _ => Py.join ", " patterns_searched_for_report
          end)%string;
    ("-- File Patterns Ignored: "
       ++ match patterns_ignored_for_report with
          | [] => "NONE"
          | _ :: _ => Py.join ", " patterns_ignored_for_report
          end)%string;
    newline ].

(** the lines of the final summary, from the two counts it prints *)
Definition summary_lines (n_conflicts n_duplicates : nat) : list string :=
  [ newline;
    "-- --- Final Summary ---";
    ("-- Total Critical Conflicts Found: " ++ Py.str_of_nat n_conflicts)%string;
    ("-- Total Redundant Duplicates Found: " ++ Py.str_of_nat n_duplicates)%string;
    "-- ###################################################" ].

Definition _generate_lua_report (w : World) (directory : string)
           (categorized_results : dict bucket)
           (total_conflicts total_duplicates : nat)
           (files_to_search ignored_patterns : list string) : result string :=
  let lua_output_lines := header_lines w directory files_to_search ignored_patterns in
  let '(lua_output_lines, _, data) :=
    fold_left report_step (sorted categorized_results)
              (lua_output_lines, true, None) in
  match data with
  | None => Raise (UnboundLocalError "data")
  | Some data =>
      Ok (Py.join newline
            (lua_output_lines
               ++ summary_lines (List.length (conflicts data))
                                (List.length (duplicates data))))
  end.

End CheckerV3.

(** ** v2, [jim_g_collision_checker.py] *)

Module CheckerV2.

Definition ALL_MAP_RELATED_FILES : dict string :=
  [ ("*.ymap", "Map Data (Map Placement/Details) (Highly Recommended)");
    ("light_ymaps", "Light Map Files (lodlights*.ymap / vw_*.ymap) (Recommended)");
    ("*.ybn", "Bounds/Collision Data (Highly Recommended)");
    ("*.ymt", "Meta/Config Files (Recommended)");
    ("*.ytd", "Textures Dictionary (Recommended)");
    ("*.ydr", "Drawable (3D Models)");
    ("*.ydd", "Drawable Dictionary (Model Container)");
    ("*.ytyp", "Types/Manifest (Map/MLO Definitions)");
    ("*.ycd", "Clip Dictionary (Animations)");
    ("*.ynv", "Navigation Mesh (AI Navigation)");
    ("*.ypt", "Particle Effects (FX)") ].

(** [x if x else []] for an optional list *)
Definition or_empty (x : option (list string)) : list string :=
  match x with Some l => l | None => [] end.

(** [os.path.normpath(p)] *)
Definition normpath (w : World) (p : OsPath.t) : OsPath.normal :=
  {| OsPath.file := p;
     OsPath.text := os_path_normpath w (OsPath.render (os w) p) |}.

(** the walk that fills [files_to_process] *)
Definition collect (w : World) (directory : string)
           (files_to_search : option (list string)) (ignore_light_ymaps : bool)
  : list OsPath.normal :=
  flat_map
    (fun entry : list string * list string =>
       let foldername := OsPath.mk directory (fst entry) in
       flat_map
         (fun filename =>
            let filename_lower := Py.lower filename in
            if existsb (Fnmatch.fnmatch (os w) filename_lower) (or_empty files_to_search)
            then
              let is_light_ymap :=
                ignore_light_ymaps
                && Py.endswith filename_lower ".ymap"
                && (Py.startswith filename_lower "lodlights"
                    || Py.startswith filename_lower "vw_") in
              if is_light_ymap then []
              else
                let file_path := normpath w (OsPath.join foldername filename) in
                [file_path]
            else [])
         (snd entry))
    (os_walk w directory).

(** [os.path.basename] of a normalised path: its last name *)
Definition basename (p : OsPath.normal) : string :=
  last (OsPath.names (OsPath.file p)) EmptyString.

(** the body of [for file_path in tqdm(files_to_process, ...)] *)
Definition hash_step (w : World) (file_info_dict : dict (list Info.t))
           (file_path : OsPath.normal) : dict (list Info.t) :=
  let filename := basename file_path in
  (* [open(file_path)] reads the file that the normalised path leads to *)
  let file_hash := Core.get_file_hash w (OsPath.file file_path) in
  let relative_path := OsPath.relpath (os w) (OsPath.file file_path) in
  let resource_parts := Py.split (sep_of (os w)) relative_path in
  let resource_name :=
    match resource_parts with
    | part0 :: _ => part0
    | [] => "UNKNOWN_RESOURCE"
    end in
  match file_hash with
  | Some digest =>
      if Py.truthy file_hash then
        let file_key := Py.lower filename in
        Core.add_info file_key
          {| Info.path := OsPath.text file_path;
             Info.hash := digest;
             Info.resource := resource_name |}
          file_info_dict
      else file_info_dict
  | None => file_info_dict
  end.

(** the body of [for filename, infos in file_info_dict.items()], with the
    two counters *)
Definition classify_step (o : os_name) (st : dict bucket * nat * nat)
           (item : string * list Info.t) : dict bucket * nat * nat :=
  let '(categorized_results, total_conflicts, total_duplicates) := st in
  let '(filename, infos) := item in
  if (1 <? List.length infos)%nat then
    let file_extension := Py.upper (snd (OsPath.splitext o filename)) in
    let unique_hashes := Core.unique_hashes infos in
    if (1 <? List.length unique_hashes)%nat then
      (Core.extend_conflicts file_extension filename infos categorized_results,
       (total_conflicts + List.length unique_hashes)%nat,
       total_duplicates)
    else
      (Core.extend_duplicates file_extension filename infos categorized_results,
       total_conflicts,
       (total_duplicates + 1)%nat)
  else st.

(** [find_collisions] up to the summary: the classification and the two
    totals that the console summary and the report print *)
Definition find_collisions (w : World) (directory : string)
           (files_to_search ignored_patterns : option (list string))
  : dict bucket * nat * nat :=
  let ignore_light_ymaps :=
    Py.contains (or_empty ignored_patterns) "light_ymaps_ignored" in
  let files_to_process := collect w directory files_to_search ignore_light_ymaps in
  let file_info_dict := fold_left (hash_step w) files_to_process [] in
  fold_left (classify_step (os w)) file_info_dict ([], 0%nat, 0%nat).

End CheckerV2.

(** ** Vocabulary of the statements *)

Module Notions.

(** the group reported for [filename] under [conflicts] in bucket [ext] *)
Definition conflicts_at (categorized_results : dict bucket)
           (ext filename : string) : option (list Info.t) :=
  match dget ext categorized_results with
  | Some data => dget filename (conflicts data)
  | None => None
  end.

(** the group reported for [filename] under [duplicates] in bucket [ext] *)
Definition duplicates_at (categorized_results : dict bucket)
           (ext filename : string) : option (list Info.t) :=
  match dget ext categorized_results with
  | Some data => dget filename (duplicates data)
  | None => None
  end.

(** the bucket key of a filename *)
Definition extension_of (o : os_name) (filename : string) : string :=
  Py.upper (snd (OsPath.splitext o filename)).

(** The record that a file of [file_list] contributes to its filename
    group in the v3 files, with the key of the group; nothing when its
    hash is absent. *)
Definition record_of (w : World) (file_data : FileData.t) : option (string * Info.t) :=
  match Core.get_file_hash w (FileData.path file_data) with
  | Some digest =>
      if Py.truthy (Some digest) then
        Some (FileData.filename_lower file_data,
              {| Info.path := OsPath.relpath (os w) (FileData.path file_data);
                 Info.hash := digest;
                 Info.resource := FileData.resource file_data |})
      else None
  | None => None
  end.

(** the same for a path of [files_to_process] in the v2 file *)
Definition record_of_v2 (w : World) (file_path : OsPath.normal)
  : option (string * Info.t) :=
  match Core.get_file_hash w (OsPath.file file_path) with
  | Some digest =>
      if Py.truthy (Some digest) then
        Some (Py.lower (CheckerV2.basename file_path),
              {| Info.path := OsPath.text file_path;
                 Info.hash := digest;
                 Info.resource :=
                   match Py.split (sep_of (os w))
                                  (OsPath.relpath (os w) (OsPath.file file_path)) with
                   | part0 :: _ => part0
                   | [] => "UNKNOWN_RESOURCE"
                   end |})
      else None
  | None => None
  end.

Definition option_list {A} (o : option A) : list A :=
  match o with Some a => [a] | None => [] end.

(** the records of the hashed files of [file_list], in its order *)
Definition records (w : World) (file_list : list FileData.t)
  : list (string * Info.t) :=
  flat_map (fun file_data => option_list (record_of w file_data)) file_list.

Definition records_v2 (w : World) (files_to_process : list OsPath.normal)
  : list (string * Info.t) :=
  flat_map (fun file_path => option_list (record_of_v2 w file_path)) files_to_process.

(** the filename group of [filename]: its records, in their order *)
Definition group_of (recs : list (string * Info.t)) (filename : string)
  : list Info.t :=
  map snd (filter (fun r => String.eqb (fst r) filename) recs).

(** [file_info_dict] once the records [recs] were added to [d] *)
Definition add_records (recs : list (string * Info.t)) (d : dict (list Info.t))
  : dict (list Info.t) :=
  fold_left (fun d r => Core.add_info (fst r) (snd r) d) recs d.

(** [file_info_dict] at the end of the hashing loop *)
Definition file_info_dict (recs : list (string * Info.t)) : dict (list Info.t) :=
  add_records recs [].

(** the two outcomes of the tests of the classification loop *)
Definition conflict_verdict (infos : list Info.t) : bool :=
  (1 <? List.length infos)%nat && (1 <? List.length (Core.unique_hashes infos))%nat.

Definition duplicate_verdict (infos : list Info.t) : bool :=
  (1 <? List.length infos)%nat && negb (1 <? List.length (Core.unique_hashes infos))%nat.

(** a group with two or more distinct hashes *)
Definition is_conflict_group (infos : list Info.t) : bool :=
  (2 <=? List.length (Core.unique_hashes infos))%nat.

(** a group of two or more records with one hash *)
Definition is_duplicate_group (infos : list Info.t) : bool :=
  (2 <=? List.length infos)%nat
  && (List.length (Core.unique_hashes infos) =? 1)%nat.

(** the number of filename groups that satisfy [p] *)
Definition count_groups (p : list Info.t -> bool)
           (file_info_dict : dict (list Info.t)) : nat :=
  List.length (filter (fun group => p (snd group)) file_info_dict).

(** the progress reports of a scan that found [file_list], in order *)
Definition progress_reports (w : World) (file_list : list FileData.t)
  : list (Z * string) :=
  let total_files := List.length file_list in
  (5%Z, "Collecting file paths...")
    :: (if (total_files =? 0)%nat then [(100%Z, "No relevant files found.")]
        else map (fun k => (Gui.percentage_of w k total_files,
                            Gui.hashing_message k total_files))
                 (seq 1 total_files)
             ++ [(95%Z, "Analyzing results...")]).

(** a callback told a sequence of reports *)
Definition tell {S} (f : @Gui.callback S) (reports : list (Z * string)) (s : S) : S :=
  fold_left (fun s r => f (fst r) (snd r) s) reports s.

Fixpoint has_char (c : ascii) (s : string) : bool :=
  match s with
  | EmptyString => false
  | String d s' => Ascii.eqb d c || has_char c s'
  end.

(** a folder name as a walk yields it: no separator inside, and not the
    name [.] of the current folder *)
Definition plain_name (o : os_name) (name : string) : bool :=
  negb (has_char (sep_of o) name) && negb (String.eqb name ".").

(** The resource rule as claimed: a file right in the scanned folder has
    the resource [ROOT_DIR]; a file further down has the first name of
    its relative path, which is not [ROOT_DIR]. *)
Definition claimed_resource_rule (file_data : FileData.t) : Prop :=
  match OsPath.names (FileData.path file_data) with
  | [] => False
  | [_] => FileData.resource file_data = "ROOT_DIR"
  | first :: _ :: _ =>
      FileData.resource file_data = first /\ FileData.resource file_data <> "ROOT_DIR"
  end.

(** The resource rule of the progress-reporting variant. *)
Definition resource_rule (file_data : FileData.t) : Prop :=
  match OsPath.names (FileData.path file_data) with
  | [] => False
  | [_] => FileData.resource file_data = "ROOT_DIR"
  | first :: _ :: _ => FileData.resource file_data = first
  end.

(** The part of the resource rule that the three variants share: a file
    below a subfolder, whose path has the names [names] from the scanned
    folder on, has the first of these names as its resource. *)
Definition below_subfolder_rule (names : list string) (resource : string) : Prop :=
  match names with
  | first :: _ :: _ => resource = first
  | _ => True
  end.

(** the light-map rule on a lower-cased filename *)
Definition light_map (o : os_name) (filename_lower : string) : bool :=
  Py.endswith filename_lower ".ymap"
  && (Fnmatch.fnmatch o filename_lower "lodlights*.ymap"
      || Fnmatch.fnmatch o filename_lower "vw_*.ymap").

(** the order of [sorted] on the items of [categorized_results] *)
Definition key_le (a b : string * bucket) : Prop :=
  String.leb (fst a) (fst b) = true.

(** the callback that keeps the percentages it is told *)
Definition record_percentage : @Gui.callback (list Z) :=
  fun percentage _ log => log ++ [percentage].

(** What the arithmetic of floats grants of the rounding: it keeps the
    order and it is exact on 0, 1 and 80. *)
Record rounds_like_ieee (r : Q -> Q) : Prop := {
  round_monotone : forall x y, x <= y -> r x <= r y;
  round_0 : r 0 == 0;
  round_1 : r 1 == 1;
  round_80 : r 80 == 80
}.

(** the messages that do not depend on the files *)
Definition fixed_messages : list string :=
  [ "Collecting file paths..."; "No relevant files found."; "Analyzing results..." ].

(** a list of integers that never decreases *)
Fixpoint non_decreasing (l : list Z) : Prop :=
  match l with
  | [] => True
  | x :: l' =>
      match l' with
      | [] => True
      | y :: _ => (x <= y)%Z /\ non_decreasing l'
      end
  end.

(** The groups that the counters are to count, said without the code's
    set of hashes: a group in which two records differ in their hashes, *)
Definition has_distinct_hashes (infos : list Info.t) : bool :=
  existsb (fun info1 =>
             existsb (fun info2 =>
                        negb (String.eqb (Info.hash info1) (Info.hash info2)))
                     infos)
          infos.

(** and a group of two or more records that all have one hash. *)
Definition repeats_one_hash (infos : list Info.t) : bool :=
  (2 <=? List.length infos)%nat
  && forallb (fun info1 =>
                forallb (fun info2 => String.eqb (Info.hash info1) (Info.hash info2))
                        infos)
             infos.

(** the sum, over the conflict groups, of their numbers of distinct hashes *)
Definition conflict_hash_total (file_info_dict : dict (list Info.t)) : nat :=
  list_sum (map (fun group => List.length (Core.unique_hashes (snd group)))
                (filter (fun group => is_conflict_group (snd group)) file_info_dict)).

(** [scan w recs res]: a run of [find_collisions], in one of the three
    variants, hashed the records [recs], in the order in which the walk
    found their files, and returned the classification [res]. *)
Inductive scan (w : World) : list (string * Info.t) -> dict bucket -> Prop :=
| scan_gui {St : Type} directory file_patterns lightmap_exclusion
           (progress_callback : option (@Gui.callback St)) (s : St) :
    scan w
      (records w (Gui.collect w directory file_patterns lightmap_exclusion))
      (fst (fst (fst (Gui.find_collisions w directory file_patterns
                        lightmap_exclusion progress_callback s))))
| scan_v3 directory file_patterns lightmap_exclusion :
    scan w
      (records w (CheckerV3.collect w directory file_patterns lightmap_exclusion))
      (fst (fst (CheckerV3.find_collisions w directory file_patterns
                   lightmap_exclusion)))
| scan_v2 directory files_to_search ignored_patterns :
    scan w
      (records_v2 w
         (CheckerV2.collect w directory files_to_search
            (Py.contains (CheckerV2.or_empty ignored_patterns) "light_ymaps_ignored")))
      (fst (fst (CheckerV2.find_collisions w directory files_to_search
                   ignored_patterns))).

End Notions.

(** ** Concrete worlds *)

Module Scenario.

Definition hex_digit (n : nat) : ascii :=
  if (n <? 10)%nat then ascii_of_nat (48 + n) else ascii_of_nat (87 + n).

Fixpoint hex (data : list byte) : string :=
  match data with
  | [] => EmptyString
  | b :: rest =>
      let n := Byte.to_nat b in
      String (hex_digit (n / 16)) (String (hex_digit (n mod 16)) (hex rest))
  end.

(** A stand-in for MD5 with the shape of its output: 32 hexadecimal
    digits, different for the different short contents used below. *)
Definition toy_md5 (data : list byte) : string :=
  substring 0 32 (hex data ++ "00000000000000000000000000000000").

Definition names_are (p : OsPath.t) (names : list string) : bool :=
  if list_eq_dec string_dec (OsPath.names p) names then true else false.

Definition content (text : string) : read_outcome :=
  Opened [list_byte_of_string text] None.

(** [os.path.normpath] on the paths of the worlds below: they are
    written in normal form, which it leaves as it is *)
Definition in_normal_form (text : string) : string := text.

(** exact arithmetic in place of rounding *)
Definition exact (x : Q) : Q := x.

(** [resA/building.ymap] and [resB/building.ymap] with the same content,
    [resC/building.ymap] with another one *)
Definition buildings : World :=
  {| os := Posix;
     os_walk := fun _ =>
       [ ([], []);
         (["resA"], ["building.ymap"]);
         (["resB"], ["building.ymap"]);
         (["resC"], ["building.ymap"]) ];
     file_read := fun p =>
       if names_are p ["resC"; "building.ymap"] then content "two"
       else content "one";
     os_path_normpath := in_normal_form;
     md5_hexdigest := toy_md5;
     float_round := exact;
     now := "2025-01-01 12:00:00" |}.

(** two copies of one file *)
Definition twins : World :=
  {| os := Posix;
     os_walk := fun _ =>
       [ ([], []);
         (["resA"], ["Prop.YDR"]);
         (["resB"], ["prop.ydr"]) ];
     file_read := fun _ => content "one";
     os_path_normpath := in_normal_form;
     md5_hexdigest := toy_md5;
     float_round := exact;
     now := "2025-01-01 12:00:00" |}.

(** light maps next to an ordinary map *)
Definition lights : World :=
  {| os := Windows;
     os_walk := fun _ =>
       [ ([], []);
         (["maps"], ["lodlights_01.ymap"; "vw_lights.ymap"; "normal.ymap"]) ];
     file_read := fun _ => content "one";
     os_path_normpath := in_normal_form;
     md5_hexdigest := toy_md5;
     float_round := exact;
     now := "2025-01-01 12:00:00" |}.

(** a file right in the scanned folder, and a subfolder that happens to
    be called [ROOT_DIR] *)
Definition rootdir : World :=
  {| os := Posix;
     os_walk := fun _ =>
       [ ([], ["a.ymap"]);
         (["ROOT_DIR"], ["b.ymap"]) ];
     file_read := fun _ => content "one";
     os_path_normpath := in_normal_form;
     md5_hexdigest := toy_md5;
     float_round := exact;
     now := "2025-01-01 12:00:00" |}.

(** [resB/building.ymap] cannot be opened *)
Definition locked : World :=
  {| os := Posix;
     os_walk := os_walk buildings;
     file_read := fun p =>
       if names_are p ["resB"; "building.ymap"] then OpenFails PermissionError
       else file_read buildings p;
     os_path_normpath := in_normal_form;
     md5_hexdigest := toy_md5;
     float_round := exact;
     now := "2025-01-01 12:00:00" |}.

(** an empty folder *)
Definition empty : World :=
  {| os := Posix;
     os_walk := fun _ => [ ([], []) ];
     file_read := fun _ => OpenFails FileNotFoundError;
     os_path_normpath := in_normal_form;
     md5_hexdigest := toy_md5;
     float_round := exact;
     now := "2025-01-01 12:00:00" |}.

End Scenario.

(** ** The Lua report of the v2 file and of the progress-reporting variant *)

Module LuaReport.

(** what a call of [_generate_lua_report] comes to *)
Inductive outcome :=
| Returns (text : string)
| TypeError.

(** [lua_output_lines] at the [return] *)
Definition lua_output_lines (w : World) (directory : string)
           (categorized_results : dict bucket)
           (total_conflicts total_duplicates : nat)
           (files_to_search ignored_patterns : list string) : list string :=
  let lines := CheckerV3.header_lines w directory files_to_search ignored_patterns in
  let '(lines, _, _) :=
    fold_left CheckerV3.report_step (CheckerV3.sorted categorized_results)
              (lines, true, None) in
  lines ++ CheckerV3.summary_lines total_conflicts total_duplicates.

(** [_generate_lua_report] of the v2 file and of [jim_g_collision_gui.py]:
    the two comprehensions over [files_to_search] and [ignored_patterns]
    raise on [None] *)
Definition _generate_lua_report (w : World) (directory : string)
           (categorized_results : dict bucket)
           (total_conflicts total_duplicates : nat)
           (files_to_search ignored_patterns : option (list string)) : outcome :=
  match files_to_search with
  | None => TypeError
  | Some files_to_search =>
      match ignored_patterns with
      | None => TypeError
      | Some ignored_patterns =>
          Returns (Py.join CheckerV3.newline
                     (lua_output_lines w directory categorized_results
                        total_conflicts total_duplicates
                        files_to_search ignored_patterns))
      end
  end.

End LuaReport.

(** ** [ConflictCheckerApp] of the two v3 files *)

Module App.

(** [self.file_vars] after [__init__]: the state of the check boxes *)
Definition initial_file_vars : dict bool :=
  map (fun item => (fst item, negb (String.eqb (fst item) "light_ymaps")))
      Gui.ALL_MAP_RELATED_FILES.

(** [set_all_checkboxes(value)] *)
Definition set_all_checkboxes (value : bool) (file_vars : dict bool) : dict bool :=
  map (fun item =>
         if String.eqb (fst item) "light_ymaps" then (fst item, negb value)
         else (fst item, value))
      file_vars.

(** [selected_patterns] of [run_checker] in [jim_g_collision_gui.py] *)
Definition selected_patterns (file_vars : dict bool) : list string :=
  map fst (filter (fun item => negb (String.eqb (fst item) "light_ymaps") && snd item)
                  file_vars).

(** [lightmap_exclusion] of [run_checker] in [jim_g_collision_gui.py];
    [None] stands for the [KeyError] of a missing key *)
Definition lightmap_exclusion (file_vars : dict bool) : option bool :=
  dget "light_ymaps" file_vars.

(** the loop of [run_checker] in the v3 [jim_g_collision_checker.py] that
    fills [selected_patterns] and [lightmap_exclusion] *)
Definition selection_step (st : list string * bool) (item : string * bool)
  : list string * bool :=
  let '(selected_patterns, lightmap_exclusion) := st in
  if String.eqb (fst item) "light_ymaps" then (selected_patterns, snd item)
  else if snd item then (selected_patterns ++ [fst item], lightmap_exclusion)
  else st.

Definition selection_v3 (file_vars : dict bool) : list string * bool :=
  fold_left selection_step file_vars ([], false).

(** [update_output_file_name]: the value of [self.output_file] after the
    call, from the chosen format and the value before *)
Definition update_output_file_name (o : os_name) (format_var current_path : string)
  : string :=
  let '(base, ext) := OsPath.splitext o current_path in
  let new_ext := ("." ++ format_var)%string in
  if Py.contains [".html"; ".lua"] (Py.lower ext)
     || Py.endswith base "collision_report"
  then (base ++ new_ext)%string
  else if String.eqb ext EmptyString then (current_path ++ new_ext)%string
  else current_path.

(** the test of the warning of [run_checker] in the v3
    [jim_g_collision_checker.py] *)
Definition warns_nothing_selected (selection : list string * bool) : bool :=
  let '(selected_patterns, lightmap_exclusion) := selection in
  match selected_patterns with [] => true | _ :: _ => false end
  && negb lightmap_exclusion.

(** the [try] of [run_checker] in the v3 [jim_g_collision_checker.py] for
    the format [lua], up to [report_content] *)
Definition lua_report_content_v3 (w : World) (target_dir : string)
           (file_vars : dict bool) : result string :=
  let '(selected_patterns, lightmap_exclusion) := selection_v3 file_vars in
  let '(categorized_results, files_to_search_list, ignored_patterns_list) :=
    CheckerV3.find_collisions w target_dir selected_patterns lightmap_exclusion in
  let total_conflicts := Gui.total_conflicts categorized_results in
  let total_duplicates := Gui.total_duplicates categorized_results in
  CheckerV3._generate_lua_report w target_dir categorized_results
    total_conflicts total_duplicates files_to_search_list ignored_patterns_list.

(** [run_checker] in [jim_g_collision_gui.py] for the format [lua], up to
    [report_content]: the report and the state of the listener of
    [update_progress]; [None] stands for the [KeyError] of a missing
    check box *)
Definition lua_report_content_gui {St} (w : World) (target_dir : string)
           (file_vars : dict bool) (update_progress : @Gui.callback St) (s : St)
  : option (LuaReport.outcome * St) :=
  match lightmap_exclusion file_vars with
  | None => None
  | Some exclusion =>
      let '((categorized_results, files_to_search_list, ignored_patterns_list), s) :=
        Gui.find_collisions w target_dir (selected_patterns file_vars) exclusion
          (Some update_progress) s in
      let total_conflicts := Gui.total_conflicts categorized_results in
      let total_duplicates := Gui.total_duplicates categorized_results in
      let s := update_progress 98%Z "Generating report file..." s in
      Some (LuaReport._generate_lua_report w target_dir categorized_results
              total_conflicts total_duplicates
              (Some files_to_search_list) (Some ignored_patterns_list),
            s)
  end.

End App.

(** ** The questions of the v2 file *)

Module Cli.

Definition is_space (c : ascii) : bool :=
  let n := nat_of_ascii c in
  ((9 <=? n)%nat && (n <=? 13)%nat) || ((28 <=? n)%nat && (n <=? 32)%nat).

Fixpoint lstrip (s : string) : string :=
  match s with
  | EmptyString => EmptyString
  | String c s' => if is_space c then lstrip s' else s
  end.

Fixpoint rstrip (s : string) : string :=
  match s with
  | EmptyString => EmptyString
  | String c s' =>
      match rstrip s' with
      | EmptyString => if is_space c then EmptyString else String c EmptyString
      | rest => String c rest
      end
  end.

(** [s.strip()], on the ASCII white space *)
Definition strip (s : string) : string := rstrip (lstrip s).

(** [sub in s] for two strings *)
Definition is_substring (sub s : string) : bool :=
  match String.index 0 sub s with
  | Some _ => true
  | None => false
  end.

(** The [while True] loop of one question.  [inputs] are the lines that
    [input] will return; when they run out [input] raises [EOFError],
    which is [None] here.  The loop returns whether the answer was [1],
    and the lines left. *)
Fixpoint ask (default_choice : string) (inputs : list string)
  : option (bool * list string) :=
  match inputs with
  | [] => None
  | line :: rest =>
      let choice := strip line in
      let choice := if String.eqb choice EmptyString then default_choice else choice in
      if String.eqb choice "1" then Some (true, rest)
      else if String.eqb choice "2" then Some (false, rest)
      else ask default_choice rest
  end.

(** the body of [for pattern, description in ALL_MAP_RELATED_FILES.items()] *)
Definition question (st : option (list string * bool * list string))
           (item : string * string) : option (list string * bool * list string) :=
  match st with
  | None => None
  | Some (search_patterns, light_map_ignored, inputs) =>
      let '(pattern, description) := item in
      let is_recommended :=
        is_substring "Highly Recommended" description
        || is_substring "Recommended" description in
      let default_choice := if is_recommended then "1" else "2" in
      match ask default_choice inputs with
      | None => None
      | Some (yes, rest) =>
          if yes then
            if negb (String.eqb pattern "light_ymaps")
            then Some (search_patterns ++ [pattern], light_map_ignored, rest)
            else Some (search_patterns, light_map_ignored, rest)
          else
            if negb (String.eqb pattern "light_ymaps")
            then Some (search_patterns, light_map_ignored, rest)
            else Some (search_patterns, true, rest)
      end
  end.

(** [get_files_to_search_interactively], given the lines typed:
    [(search_patterns, ignored_patterns)], or [None] for [EOFError] *)
Definition get_files_to_search_interactively (inputs : list string)
  : option (list string * list string) :=
  match fold_left question CheckerV2.ALL_MAP_RELATED_FILES (Some ([], false, inputs)) with
  | None => None
  | Some (search_patterns, light_map_ignored, inputs) =>
      let ignored_patterns :=
        filter (fun p => negb (Py.contains search_patterns p)
                         && negb (String.eqb p "light_ymaps"))
               (keys CheckerV2.ALL_MAP_RELATED_FILES) in
      let ignored_patterns :=
        if light_map_ignored then ignored_patterns ++ ["light_ymaps_ignored"]
        else ignored_patterns in
      match inputs with
      | [] => None
      | _ :: _ => Some (search_patterns, ignored_patterns)
      end
  end.

End Cli.

(** ** More vocabulary *)

Module More.

(** the glob patterns of the vocabulary, [light_ymaps] apart *)
Definition glob_patterns (all_map_related_files : dict string) : list string :=
  filter (fun p => negb (String.eqb p "light_ymaps")) (keys all_map_related_files).

(** the verdict on a filename group: conflict, duplicate or not reported *)
Inductive verdict := Conflict | Duplicate | Unreported.

Definition verdict_of (infos : list Info.t) : verdict :=
  if Notions.is_conflict_group infos then Conflict
  else if Notions.is_duplicate_group infos then Duplicate
  else Unreported.

(** what holds of every bucket while the classification loop runs *)
Definition bucket_ok (o : os_name) (ext : string) (data : bucket) : Prop :=
  NoDup (keys (conflicts data))
  /\ NoDup (keys (duplicates data))
  /\ (conflicts data <> [] \/ duplicates data <> [])
  /\ Forall (fun group => ext = Notions.extension_of o (fst group))
            (conflicts data ++ duplicates data).

(** a line of plain ASCII text, on which [Cli.strip] is [str.strip] *)
Definition is_ascii (s : string) : bool :=
  forallb (fun c => (nat_of_ascii c <? 128)%nat) (list_ascii_of_string s).

(** [inputs'] is [inputs], or [inputs] with the line [line] put in
    somewhere *)
Definition with_line_inserted (line : string) (inputs inputs' : list string) : Prop :=
  inputs' = inputs
  \/ exists before after,
       inputs = before ++ after /\ inputs' = before ++ line :: after.

(** [resA/a.ymap] read in two chunks, [resB/a.ymap] with the same bytes
    read in one, and [resC/a.ymap] whose second [read] fails *)
Definition chunked : World :=
  {| os := Posix;
     os_walk := fun _ =>
       [ ([], []);
         (["resA"], ["a.ymap"]);
         (["resB"], ["a.ymap"]);
         (["resC"], ["a.ymap"]) ];
     file_read := fun p =>
       if Scenario.names_are p ["resA"; "a.ymap"]
       then Opened [list_byte_of_string "on"; list_byte_of_string "e"] None
       else if Scenario.names_are p ["resB"; "a.ymap"]
       then Opened [list_byte_of_string "one"] None
       else Opened [list_byte_of_string "on"] (Some OtherOSError);
     os_path_normpath := Scenario.in_normal_form;
     md5_hexdigest := Scenario.toy_md5;
     float_round := Scenario.exact;
     now := "2025-01-01 12:00:00" |}.

(** the folders of [Scenario.buildings], walked the other way round *)
Definition buildings_reversed : World :=
  {| os := Posix;
     os_walk := fun directory => rev (os_walk Scenario.buildings directory);
     file_read := file_read Scenario.buildings;
     os_path_normpath := Scenario.in_normal_form;
     md5_hexdigest := Scenario.toy_md5;
     float_round := Scenario.exact;
     now := "2025-01-01 12:00:00" |}.

End More.

(** * Properties *)

(** ** The built-ins on examples *)

Example split_examples :
  Py.split "/" "a/b//c" = ["a"; "b"; ""; "c"]
  /\ Py.split "/" "." = ["."]
  /\ Py.split "/" "" = [""].
Proof. repeat split. Qed.

Example splitext_examples :
  OsPath.splitext Posix "building.ymap" = ("building", ".ymap")
  /\ OsPath.splitext Posix ".ymap" = (".ymap", "")
  /\ OsPath.splitext Posix "x..ymap" = ("x.", ".ymap")
  /\ OsPath.splitext Posix "noext" = ("noext", "")
  /\ OsPath.splitext Windows "a.b/c" = ("a.b/c", "").
Proof. repeat split. Qed.

Example fnmatch_examples :
  Fnmatch.fnmatch Posix "building.ymap" "*.ymap" = true
  /\ Fnmatch.fnmatch Posix "building.YMAP" "*.ymap" = false
  /\ Fnmatch.fnmatch Windows "building.YMAP" "*.ymap" = true
  /\ Fnmatch.fnmatch Posix "lodlights.ymap" "lodlights*.ymap" = true
  /\ Fnmatch.fnmatch Posix "a.ymap" "[!b]*.y?ap" = true
  /\ Fnmatch.fnmatch Posix "b.ymap" "[!b]*.y?ap" = false
  /\ Fnmatch.fnmatch Posix "-" "[a-]" = true
  /\ Fnmatch.fnmatch Posix "a[]" "a[]" = true.
Proof. repeat split. Qed.

Example formatting_examples :
  Py.str_of_nat 0 = "0"
  /\ Py.str_of_nat 120 = "120"
  /\ Py.ljust "resA" 6 = "resA  "
  /\ Py.ljust "resource" 6 = "resource"
  /\ Py.upper ".ymap" = ".YMAP"
  /\ Py.lower "LodLights_01.YMAP" = "lodlights_01.ymap".
Proof. repeat split. Qed.

(** ** Dictionaries *)

Section DictFacts.
Context {V : Type}.
Implicit Types (d : dict V) (k : string).

Lemma dget_dalter_same dflt f k d :
  dget k (dalter dflt f k d)
  = Some (f (match dget k d with Some v => v | None => dflt end)).
Proof.
  induction d as [|[k' v] d IH]; simpl.
  - now rewrite String.eqb_refl.
  - destruct (String.eqb k k') eqn:E; simpl; rewrite E; auto.
Qed.

Lemma dget_dalter_other dflt f k k' d :
  k <> k' -> dget k' (dalter dflt f k d) = dget k' d.
Proof.
  intros Hne. induction d as [|[k0 v] d IH]; simpl.
  - destruct (String.eqb_spec k' k); congruence.
  - destruct (String.eqb_spec k k0) as [->|Hk]; simpl.
    + destruct (String.eqb_spec k' k0); congruence.
    + now rewrite IH.
Qed.

Lemma dget_None_keys k d : dget k d = None <-> ~ In k (keys d).
Proof.
  induction d as [|[k' v] d IH]; simpl.
  - tauto.
  - destruct (String.eqb_spec k k') as [->|Hk].
    + split; [discriminate | intros H; exfalso; apply H; now left].
    + rewrite IH. split; [intros H [E|E]; congruence || auto | tauto].
Qed.

Lemma dget_Some_In k d v : dget k d = Some v -> In (k, v) d.
Proof.
  induction d as [|[k' v'] d IH]; simpl; [discriminate|].
  destruct (String.eqb_spec k k') as [->|Hk].
  - intros [= ->]. now left.
  - intros H. right. auto.
Qed.

Lemma In_dget k d v : NoDup (keys d) -> In (k, v) d -> dget k d = Some v.
Proof.
  induction d as [|[k' v'] d IH]; simpl; [tauto|].
  intros Hnd [E|Hin]; inversion Hnd as [|? ? Hk' Hnd']; subst.
  - inversion E; subst. now rewrite String.eqb_refl.
  - destruct (String.eqb_spec k k') as [->|Hk]; auto.
    exfalso. apply Hk'. change (In (fst (k', v)) (map fst d)). now apply in_map.
Qed.

Lemma keys_dalter dflt f k d :
  keys (dalter dflt f k d)
  = if in_dec string_dec k (keys d) then keys d else keys d ++ [k].
Proof.
  induction d as [|[k' v] d IH]; simpl; [reflexivity|].
  destruct (String.eqb_spec k k') as [->|Hk]; simpl.
  - destruct (string_dec k' k'); [reflexivity | congruence].
  - rewrite IH. destruct (string_dec k' k) as [E|E0]; [congruence|].
    now destruct (in_dec string_dec k (keys d)).
Qed.

Lemma NoDup_keys_dalter dflt f k d :
  NoDup (keys d) -> NoDup (keys (dalter dflt f k d)).
Proof.
  intros Hnd. rewrite keys_dalter.
  destruct (in_dec string_dec k (keys d)) as [Hin|Hnin]; [assumption|].
  apply NoDup_app; [assumption | repeat constructor; auto | ].
  intros x Hx [<-|[]]. contradiction.
Qed.

Lemma length_dalter dflt f k d :
  List.length (dalter dflt f k d)
  = match dget k d with
    | Some _ => List.length d
    | None => S (List.length d)
    end.
Proof.
  induction d as [|[k' v] d IH]; simpl; [reflexivity|].
  destruct (String.eqb_spec k k'); simpl; [reflexivity|].
  rewrite IH. now destruct (dget k d).
Qed.

End DictFacts.

(** ** Grouping by filename *)

Section Grouping.
Import Notions.

Lemma dget_add_records recs : forall d key,
  dget key (add_records recs d)
  = match group_of recs key with
    | [] => dget key d
    | _ :: _ =>
        Some ((match dget key d with Some l => l | None => [] end)
                ++ group_of recs key)
    end.
Proof.
  unfold add_records, group_of.
  induction recs as [|[k i] recs IH]; intros d key; cbn [fold_left filter fst snd];
    [reflexivity|].
  rewrite IH. unfold Core.add_info.
  destruct (String.eqb_spec k key) as [->|Hk]; cbn [map snd].
  - rewrite dget_dalter_same.
    destruct (map snd (filter _ recs)); simpl.
    + reflexivity.
    + now rewrite <- app_assoc.
  - now rewrite dget_dalter_other.
Qed.

Lemma NoDup_keys_add_records recs : forall d,
  NoDup (keys d) -> NoDup (keys (add_records recs d)).
Proof.
  unfold add_records.
  induction recs as [|r recs IH]; intros d Hd; simpl; [assumption|].
  apply IH. now apply NoDup_keys_dalter.
Qed.

Lemma NoDup_keys_file_info_dict recs : NoDup (keys (file_info_dict recs)).
Proof. apply NoDup_keys_add_records. constructor. Qed.

Lemma dget_file_info_dict recs key :
  dget key (file_info_dict recs)
  = match group_of recs key with
    | [] => None
    | _ :: _ => Some (group_of recs key)
    end.
Proof. unfold file_info_dict. now rewrite dget_add_records. Qed.

Lemma dget_file_info_dict_Some recs key infos :
  dget key (file_info_dict recs) = Some infos ->
  infos = group_of recs key.
Proof.
  rewrite dget_file_info_dict.
  destruct (group_of recs key); [discriminate|]. now intros [= <-].
Qed.

Lemma hash_step_record w d file_data :
  Core.hash_step w d file_data
  = add_records (option_list (record_of w file_data)) d.
Proof.
  unfold Core.hash_step, record_of.
  destruct (Core.get_file_hash w (FileData.path file_data)); [|reflexivity].
  destruct (Py.truthy (Some s)); reflexivity.
Qed.

Lemma hash_step_v2_record w d file_path :
  CheckerV2.hash_step w d file_path
  = add_records (option_list (record_of_v2 w file_path)) d.
Proof.
  unfold CheckerV2.hash_step, record_of_v2.
  destruct (Core.get_file_hash w (OsPath.file file_path)); [|reflexivity].
  destruct (Py.truthy (Some s)); reflexivity.
Qed.

Lemma add_records_app r1 r2 d :
  add_records (r1 ++ r2) d = add_records r2 (add_records r1 d).
Proof. unfold add_records. apply fold_left_app. Qed.

(** the hashing loop of the v3 files builds [file_info_dict] *)
Lemma fold_hash_step w file_list : forall d,
  fold_left (Core.hash_step w) file_list d = add_records (records w file_list) d.
Proof.
  induction file_list as [|fd fl IH]; intros d; [reflexivity|].
  cbn [fold_left]. rewrite IH, hash_step_record.
  unfold records. cbn [flat_map]. now rewrite add_records_app.
Qed.

(** the hashing loop of the v2 file builds [file_info_dict] *)
Lemma fold_hash_step_v2 w files_to_process : forall d,
  fold_left (CheckerV2.hash_step w) files_to_process d
  = add_records (records_v2 w files_to_process) d.
Proof.
  induction files_to_process as [|p fl IH]; intros d; [reflexivity|].
  cbn [fold_left]. rewrite IH, hash_step_v2_record.
  unfold records_v2. cbn [flat_map]. now rewrite add_records_app.
Qed.

End Grouping.

(** ** Classification *)

Section Classification.
Import Notions.

Lemma conflicts_at_extend_conflicts ext0 f0 infos res ext f :
  conflicts_at (Core.extend_conflicts ext0 f0 infos res) ext f
  = if String.eqb ext ext0 && String.eqb f f0
    then Some ((match conflicts_at res ext0 f0 with Some l => l | None => [] end) ++ infos)
    else conflicts_at res ext f.
Proof.
  unfold conflicts_at, Core.extend_conflicts.
  destruct (String.eqb_spec ext ext0) as [->|He]; simpl.
  - rewrite dget_dalter_same. simpl.
    destruct (String.eqb_spec f f0) as [->|Hf].
    + rewrite dget_dalter_same. now destruct (dget ext0 res).
    + rewrite dget_dalter_other by congruence. now destruct (dget ext0 res).
  - now rewrite dget_dalter_other by congruence.
Qed.

Lemma duplicates_at_extend_conflicts ext0 f0 infos res ext f :
  duplicates_at (Core.extend_conflicts ext0 f0 infos res) ext f
  = duplicates_at res ext f.
Proof.
  unfold duplicates_at, Core.extend_conflicts.
  destruct (String.eqb_spec ext ext0) as [->|He].
  - rewrite dget_dalter_same. simpl. now destruct (dget ext0 res).
  - now rewrite dget_dalter_other by congruence.
Qed.

Lemma duplicates_at_extend_duplicates ext0 f0 infos res ext f :
  duplicates_at (Core.extend_duplicates ext0 f0 infos res) ext f
  = if String.eqb ext ext0 && String.eqb f f0
    then Some ((match duplicates_at res ext0 f0 with Some l => l | None => [] end) ++ infos)
    else duplicates_at res ext f.
Proof.
  unfold duplicates_at, Core.extend_duplicates.
  destruct (String.eqb_spec ext ext0) as [->|He]; simpl.
  - rewrite dget_dalter_same. simpl.
    destruct (String.eqb_spec f f0) as [->|Hf].
    + rewrite dget_dalter_same. now destruct (dget ext0 res).
    + rewrite dget_dalter_other by congruence. now destruct (dget ext0 res).
  - now rewrite dget_dalter_other by congruence.
Qed.

Lemma conflicts_at_extend_duplicates ext0 f0 infos res ext f :
  conflicts_at (Core.extend_duplicates ext0 f0 infos res) ext f
  = conflicts_at res ext f.
Proof.
  unfold conflicts_at, Core.extend_duplicates.
  destruct (String.eqb_spec ext ext0) as [->|He].
  - rewrite dget_dalter_same. simpl. now destruct (dget ext0 res).
  - now rewrite dget_dalter_other by congruence.
Qed.

End Classification.

Section ClassifyLoop.
Import Notions.
Variable o : os_name.

Lemma conflicts_at_classify_step acc f0 infos0 ext f :
  conflicts_at (Core.classify_step o acc (f0, infos0)) ext f
  = if String.eqb ext (extension_of o f0) && String.eqb f f0 && conflict_verdict infos0
    then Some ((match conflicts_at acc (extension_of o f0) f0 with
                | Some l => l | None => [] end) ++ infos0)
    else conflicts_at acc ext f.
Proof.
  unfold Core.classify_step, conflict_verdict. fold (extension_of o f0).
  destruct (1 <? List.length infos0)%nat; simpl.
  - destruct (1 <? List.length (Core.unique_hashes infos0))%nat; simpl.
    + rewrite conflicts_at_extend_conflicts. now rewrite andb_true_r.
    + rewrite conflicts_at_extend_duplicates. now rewrite andb_false_r.
  - now rewrite andb_false_r.
Qed.

Lemma duplicates_at_classify_step acc f0 infos0 ext f :
  duplicates_at (Core.classify_step o acc (f0, infos0)) ext f
  = if String.eqb ext (extension_of o f0) && String.eqb f f0 && duplicate_verdict infos0
    then Some ((match duplicates_at acc (extension_of o f0) f0 with
                | Some l => l | None => [] end) ++ infos0)
    else duplicates_at acc ext f.
Proof.
  unfold Core.classify_step, duplicate_verdict. fold (extension_of o f0).
  destruct (1 <? List.length infos0)%nat; simpl.
  - destruct (1 <? List.length (Core.unique_hashes infos0))%nat; simpl.
    + rewrite duplicates_at_extend_conflicts. now rewrite andb_false_r.
    + rewrite duplicates_at_extend_duplicates. now rewrite andb_true_r.
  - now rewrite andb_false_r.
Qed.

Lemma conflicts_at_classify_from fid : forall acc ext f,
  NoDup (keys fid) ->
  (forall f' ext', In f' (keys fid) -> conflicts_at acc ext' f' = None) ->
  conflicts_at (fold_left (Core.classify_step o) fid acc) ext f
  = match dget f fid with
    | Some infos =>
        if String.eqb ext (extension_of o f) && conflict_verdict infos
        then Some infos else None
    | None => conflicts_at acc ext f
    end.
Proof.
  induction fid as [|[f0 infos0] fid IH]; intros acc ext f Hnd Hfresh;
    cbn [fold_left dget].
  - reflexivity.
  - inversion Hnd as [|? ? Hf0 Hnd']; subst.
    rewrite IH; [|assumption|].
    + destruct (String.eqb_spec f f0) as [->|Hf].
      * destruct (dget f0 fid) eqn:E.
        { apply dget_Some_In in E. exfalso. apply Hf0.
          change (In (fst (f0, l)) (map fst fid)). now apply in_map. }
        rewrite conflicts_at_classify_step.
        rewrite String.eqb_refl, andb_true_r.
        destruct (String.eqb ext (extension_of o f0) && conflict_verdict infos0) eqn:C.
        -- rewrite (Hfresh f0 (extension_of o f0)) by (now left). reflexivity.
        -- apply Hfresh. now left.
      * destruct (dget f fid); [reflexivity|].
        rewrite conflicts_at_classify_step.
        destruct (String.eqb_spec f f0); [congruence|].
        now rewrite andb_false_r.
    + intros f' ext' Hin. rewrite conflicts_at_classify_step.
      destruct (String.eqb_spec f' f0) as [->|Hf'].
      * contradiction.
      * rewrite andb_false_r. simpl. apply Hfresh. now right.
Qed.

Lemma duplicates_at_classify_from fid : forall acc ext f,
  NoDup (keys fid) ->
  (forall f' ext', In f' (keys fid) -> duplicates_at acc ext' f' = None) ->
  duplicates_at (fold_left (Core.classify_step o) fid acc) ext f
  = match dget f fid with
    | Some infos =>
        if String.eqb ext (extension_of o f) && duplicate_verdict infos
        then Some infos else None
    | None => duplicates_at acc ext f
    end.
Proof.
  induction fid as [|[f0 infos0] fid IH]; intros acc ext f Hnd Hfresh;
    cbn [fold_left dget].
  - reflexivity.
  - inversion Hnd as [|? ? Hf0 Hnd']; subst.
    rewrite IH; [|assumption|].
    + destruct (String.eqb_spec f f0) as [->|Hf].
      * destruct (dget f0 fid) eqn:E.
        { apply dget_Some_In in E. exfalso. apply Hf0.
          change (In (fst (f0, l)) (map fst fid)). now apply in_map. }
        rewrite duplicates_at_classify_step.
        rewrite String.eqb_refl, andb_true_r.
        destruct (String.eqb ext (extension_of o f0) && duplicate_verdict infos0) eqn:C.
        -- rewrite (Hfresh f0 (extension_of o f0)) by (now left). reflexivity.
        -- apply Hfresh. now left.
      * destruct (dget f fid); [reflexivity|].
        rewrite duplicates_at_classify_step.
        destruct (String.eqb_spec f f0); [congruence|].
        now rewrite andb_false_r.
    + intros f' ext' Hin. rewrite duplicates_at_classify_step.
      destruct (String.eqb_spec f' f0) as [->|Hf'].
      * contradiction.
      * rewrite andb_false_r. simpl. apply Hfresh. now right.
Qed.

Lemma conflicts_at_classify fid ext f :
  NoDup (keys fid) ->
  conflicts_at (Core.classify o fid) ext f
  = match dget f fid with
    | Some infos =>
        if String.eqb ext (extension_of o f) && conflict_verdict infos
        then Some infos else None
    | None => None
    end.
Proof.
  intros Hnd. unfold Core.classify.
  rewrite conflicts_at_classify_from by (assumption || reflexivity).
  reflexivity.
Qed.

Lemma duplicates_at_classify fid ext f :
  NoDup (keys fid) ->
  duplicates_at (Core.classify o fid) ext f
  = match dget f fid with
    | Some infos =>
        if String.eqb ext (extension_of o f) && duplicate_verdict infos
        then Some infos else None
    | None => None
    end.
Proof.
  intros Hnd. unfold Core.classify.
  rewrite duplicates_at_classify_from by (assumption || reflexivity).
  reflexivity.
Qed.

End ClassifyLoop.

(** ** The scan of the progress-reporting variant *)

Section GuiScan.
Import Notions.
Context {St : Type}.

Lemma fold_hash_loop_step w total (cb : option (@Gui.callback St)) file_list :
  forall d n s,
    fold_left (Gui.hash_loop_step w total cb) file_list (d, n, s)
    = (fold_left (Core.hash_step w) file_list d,
       (n + List.length file_list)%nat,
       fold_left (fun s k => Gui.report cb (Gui.percentage_of w k total)
                               (Gui.hashing_message k total) s)
                 (seq (Datatypes.S n) (List.length file_list)) s).
Proof.
  induction file_list as [|fd fl IH]; intros d n s; cbn [fold_left List.length seq].
  - now rewrite Nat.add_0_r.
  - unfold Gui.hash_loop_step at 2. rewrite IH.
    replace (n + 1)%nat with (Datatypes.S n) by lia.
    f_equal. f_equal. lia.
Qed.

Lemma tell_app (f : @Gui.callback St) l1 l2 s :
  tell f (l1 ++ l2) s = tell f l2 (tell f l1 s).
Proof. unfold tell. apply fold_left_app. Qed.

Lemma tell_map (f : @Gui.callback St) (g : nat -> Z * string) l s :
  tell f (map g l) s = fold_left (fun s k => f (fst (g k)) (snd (g k)) s) l s.
Proof.
  unfold tell. revert s. induction l as [|k l IH]; intros s; simpl; auto.
Qed.

(** What [find_collisions] returns and what it tells its callback. *)
Lemma find_collisions_unfold w directory file_patterns lightmap_exclusion
      (cb : option (@Gui.callback St)) (s : St) :
  let file_list := Gui.collect w directory file_patterns lightmap_exclusion in
  let lists := Core.pattern_lists Gui.ALL_MAP_RELATED_FILES file_patterns
                                  lightmap_exclusion in
  Gui.find_collisions w directory file_patterns lightmap_exclusion cb s
  = ((Core.classify (os w) (file_info_dict (records w file_list)), fst lists, snd lists),
     match cb with
     | Some f => tell f (progress_reports w file_list) s
     | None => s
     end).
Proof.
  intros file_list lists. unfold Gui.find_collisions.
  fold file_list. fold lists. destruct lists as [searched ignored]. cbn [fst snd].
  unfold progress_reports.
  destruct (List.length file_list =? 0)%nat eqn:E.
  - apply Nat.eqb_eq in E. apply length_zero_iff_nil in E. rewrite E.
    destruct cb; reflexivity.
  - rewrite fold_hash_loop_step, fold_hash_step. unfold file_info_dict.
    f_equal. destruct cb as [f|]; cbn [Gui.report].
    + change ((5%Z, "Collecting file paths...") :: ?l) with
        ([(5%Z, "Collecting file paths...")] ++ l).
      rewrite !tell_app, tell_map. reflexivity.
    + clear. generalize (seq 1 (List.length file_list)).
      intros l. revert s. induction l; intros s; simpl; auto.
Qed.

End GuiScan.

(** ** The three variants classify alike *)

Section Variants.
Import Notions.

Lemma length_distinct_le xs : (List.length (Py.distinct xs) <= List.length xs)%nat.
Proof.
  induction xs as [|x xs IH]; simpl; [lia|].
  destruct (Py.contains xs x); simpl; lia.
Qed.

Lemma length_distinct_pos xs : xs <> [] -> (1 <= List.length (Py.distinct xs))%nat.
Proof.
  induction xs as [|x xs IH]; [congruence|]. intros _. simpl.
  destruct (Py.contains xs x) eqn:E; simpl; [|lia].
  apply IH. intros ->. discriminate.
Qed.

Lemma length_unique_hashes_le infos :
  (List.length (Core.unique_hashes infos) <= List.length infos)%nat.
Proof.
  unfold Core.unique_hashes.
  etransitivity; [apply length_distinct_le | now rewrite length_map].
Qed.

Lemma contains_In xs x : Py.contains xs x = true <-> In x xs.
Proof.
  unfold Py.contains. rewrite existsb_exists. split.
  - intros [y [Hy E]]. apply String.eqb_eq in E. now subst.
  - intros H. exists x. split; [assumption | apply String.eqb_refl].
Qed.

Lemma In_distinct xs x : In x (Py.distinct xs) <-> In x xs.
Proof.
  induction xs as [|y xs IH]; cbn [Py.distinct]; [reflexivity|].
  destruct (Py.contains xs y) eqn:E.
  - rewrite IH. apply contains_In in E. split; [now right|].
    intros [<-|H]; assumption.
  - cbn [In]. now rewrite IH.
Qed.

Lemma NoDup_distinct xs : NoDup (Py.distinct xs).
Proof.
  induction xs as [|y xs IH]; cbn [Py.distinct]; [constructor|].
  destruct (Py.contains xs y) eqn:E; [assumption|].
  constructor; [|assumption]. rewrite In_distinct, <- contains_In.
  now rewrite E.
Qed.

Lemma length_distinct_constant xs :
  (forall x y, In x xs -> In y xs -> x = y) ->
  (List.length (Py.distinct xs) <= 1)%nat.
Proof.
  intros H. pose proof (NoDup_distinct xs) as Hnd.
  assert (Hin : forall x y, In x (Py.distinct xs) -> In y (Py.distinct xs) -> x = y).
  { intros x y Hx Hy. apply H; now apply In_distinct. }
  destruct (Py.distinct xs) as [|a [|b l]]; simpl; try lia.
  inversion Hnd as [|? ? Ha _]; subst. exfalso. apply Ha.
  rewrite (Hin a b); simpl; auto.
Qed.

Lemma two_members_length {A} (l : list A) x y :
  In x l -> In y l -> x <> y -> (2 <= List.length l)%nat.
Proof.
  destruct l as [|a [|b l]]; simpl; try lia; try tauto.
  intros [<-|[]] [<-|[]]. congruence.
Qed.

(** a group has two or more distinct hashes exactly when two of its
    records differ in their hashes *)
Lemma conflict_group_differs infos :
  is_conflict_group infos = true
  <-> exists info1 info2,
        In info1 infos /\ In info2 infos /\ Info.hash info1 <> Info.hash info2.
Proof.
  unfold is_conflict_group, Core.unique_hashes. split.
  - intros H. apply Nat.leb_le in H.
    pose proof (NoDup_distinct (map Info.hash infos)) as Hnd.
    assert (Hin : forall h, In h (Py.distinct (map Info.hash infos)) ->
                            exists info, In info infos /\ Info.hash info = h).
    { intros h Hh. apply In_distinct, in_map_iff in Hh.
      destruct Hh as [info [E Hi]]. now exists info. }
    destruct (Py.distinct (map Info.hash infos)) as [|a [|b l]];
      simpl in H; try lia.
    destruct (Hin a) as [info1 [H1 E1]]; [now left|].
    destruct (Hin b) as [info2 [H2 E2]]; [right; now left|].
    exists info1, info2. split; [assumption|]. split; [assumption|].
    rewrite E1, E2. intros ->. inversion Hnd as [|? ? Ha _]; subst.
    apply Ha. now left.
  - intros [info1 [info2 [H1 [H2 Hne]]]]. apply Nat.leb_le.
    apply (two_members_length _ (Info.hash info1) (Info.hash info2));
      [| | assumption];
      apply In_distinct, in_map; assumption.
Qed.

(** a group has at most one hash exactly when its records agree on it *)
Lemma no_conflict_group_agrees infos :
  is_conflict_group infos = false
  <-> forall info1 info2,
        In info1 infos -> In info2 infos -> Info.hash info1 = Info.hash info2.
Proof.
  split.
  - intros H info1 info2 H1 H2.
    destruct (string_dec (Info.hash info1) (Info.hash info2)) as [E|Hne];
      [assumption|].
    assert (Hc : is_conflict_group infos = true).
    { apply conflict_group_differs. now exists info1, info2. }
    congruence.
  - intros H. destruct (is_conflict_group infos) eqn:Hc; [|reflexivity].
    apply conflict_group_differs in Hc.
    destruct Hc as [info1 [info2 [H1 [H2 Hne]]]].
    exfalso. apply Hne. now apply H.
Qed.

Lemma has_distinct_hashes_spec infos :
  has_distinct_hashes infos = is_conflict_group infos.
Proof.
  apply eq_true_iff_eq. rewrite conflict_group_differs.
  unfold has_distinct_hashes. rewrite existsb_exists. split.
  - intros [info1 [H1 H]]. apply existsb_exists in H.
    destruct H as [info2 [H2 H]]. exists info1, info2.
    apply negb_true_iff, String.eqb_neq in H. auto.
  - intros [info1 [info2 [H1 [H2 Hne]]]]. exists info1. split; [assumption|].
    apply existsb_exists. exists info2. split; [assumption|].
    now apply negb_true_iff, String.eqb_neq.
Qed.

Lemma repeats_one_hash_spec infos :
  repeats_one_hash infos = is_duplicate_group infos.
Proof.
  unfold repeats_one_hash, is_duplicate_group.
  destruct (Nat.leb_spec 2 (List.length infos)) as [Hlen|Hlen];
    [|reflexivity].
  cbn [andb]. apply eq_true_iff_eq.
  rewrite forallb_forall, Nat.eqb_eq.
  assert (Hpos : (1 <= List.length (Core.unique_hashes infos))%nat).
  { apply length_distinct_pos.
    destruct infos; simpl in *; [lia | discriminate]. }
  split.
  - intros H.
    assert (Hc : is_conflict_group infos = false).
    { apply no_conflict_group_agrees. intros info1 info2 H1 H2.
      specialize (H info1 H1). rewrite forallb_forall in H.
      now apply String.eqb_eq, H. }
    unfold is_conflict_group in Hc. apply Nat.leb_gt in Hc. lia.
  - intros Hone info1 H1. apply forallb_forall. intros info2 H2.
    apply String.eqb_eq.
    assert (Hc : is_conflict_group infos = false).
    { unfold is_conflict_group. apply Nat.leb_gt. lia. }
    now apply (proj1 (no_conflict_group_agrees infos) Hc).
Qed.

Lemma conflict_verdict_spec infos :
  conflict_verdict infos = is_conflict_group infos.
Proof.
  unfold conflict_verdict, is_conflict_group.
  pose proof (length_unique_hashes_le infos).
  destruct (Nat.ltb_spec 1 (List.length infos));
    destruct (Nat.ltb_spec 1 (List.length (Core.unique_hashes infos)));
    destruct (Nat.leb_spec 2 (List.length (Core.unique_hashes infos)));
    simpl; try reflexivity; lia.
Qed.

Lemma duplicate_verdict_spec infos :
  duplicate_verdict infos = is_duplicate_group infos.
Proof.
  unfold duplicate_verdict, is_duplicate_group.
  assert (Hpos : (2 <= List.length infos ->
                  1 <= List.length (Core.unique_hashes infos))%nat).
  { intros H. apply length_distinct_pos.
    destruct infos; simpl in *; [lia | discriminate]. }
  destruct (Nat.ltb_spec 1 (List.length infos));
    destruct (Nat.leb_spec 2 (List.length infos));
    destruct (Nat.ltb_spec 1 (List.length (Core.unique_hashes infos)));
    destruct (Nat.eqb_spec (List.length (Core.unique_hashes infos)) 1);
    simpl; try reflexivity; lia.
Qed.

Lemma classify_step_v2 o acc c d f infos :
  CheckerV2.classify_step o (acc, c, d) (f, infos)
  = (Core.classify_step o acc (f, infos),
     (c + if conflict_verdict infos
          then List.length (Core.unique_hashes infos) else 0)%nat,
     (d + if duplicate_verdict infos then 1 else 0)%nat).
Proof.
  unfold CheckerV2.classify_step, Core.classify_step, conflict_verdict,
    duplicate_verdict.
  destruct (1 <? List.length infos)%nat; simpl.
  - destruct (1 <? List.length (Core.unique_hashes infos))%nat; simpl;
      f_equal; try f_equal; lia.
  - f_equal; try f_equal; lia.
Qed.

(** the classification loop of the v2 file: the loop of the v3 files,
    and two counters *)
Lemma fold_classify_step_v2 o fid : forall acc c d,
  fold_left (CheckerV2.classify_step o) fid (acc, c, d)
  = (fold_left (Core.classify_step o) fid acc,
     (c + conflict_hash_total fid)%nat,
     (d + count_groups is_duplicate_group fid)%nat).
Proof.
  unfold conflict_hash_total, count_groups.
  induction fid as [|[f infos] fid IH]; intros acc c d.
  - simpl. now rewrite !Nat.add_0_r.
  - cbn [fold_left filter snd].
    rewrite classify_step_v2, IH.
    rewrite <- conflict_verdict_spec, <- duplicate_verdict_spec.
    destruct (conflict_verdict infos), (duplicate_verdict infos);
      (f_equal; [f_equal|]); simpl; lia.
Qed.

Lemma scan_classify w recs res :
  scan w recs res -> res = Core.classify (os w) (file_info_dict recs).
Proof.
  intros [St directory pats lx cb s | directory pats lx | directory fs ign].
  - now rewrite find_collisions_unfold.
  - unfold CheckerV3.find_collisions.
    destruct (Core.pattern_lists _ _ _). cbn [fst].
    now rewrite fold_hash_step.
  - unfold CheckerV2.find_collisions.
    rewrite fold_hash_step_v2, fold_classify_step_v2. reflexivity.
Qed.

Lemma scan_conflicts_at w recs res ext f :
  scan w recs res ->
  conflicts_at res ext f
  = if String.eqb ext (extension_of (os w) f) && is_conflict_group (group_of recs f)
    then Some (group_of recs f) else None.
Proof.
  intros H. rewrite (scan_classify _ _ _ H).
  rewrite conflicts_at_classify by apply NoDup_keys_file_info_dict.
  rewrite dget_file_info_dict.
  destruct (group_of recs f) eqn:E.
  - now rewrite andb_false_r.
  - now rewrite conflict_verdict_spec.
Qed.

Lemma scan_duplicates_at w recs res ext f :
  scan w recs res ->
  duplicates_at res ext f
  = if String.eqb ext (extension_of (os w) f) && is_duplicate_group (group_of recs f)
    then Some (group_of recs f) else None.
Proof.
  intros H. rewrite (scan_classify _ _ _ H).
  rewrite duplicates_at_classify by apply NoDup_keys_file_info_dict.
  rewrite dget_file_info_dict.
  destruct (group_of recs f) eqn:E.
  - now rewrite andb_false_r.
  - now rewrite duplicate_verdict_spec.
Qed.

Lemma scan_reported_group w recs res ext filename infos :
  scan w recs res ->
  conflicts_at res ext filename = Some infos
  \/ duplicates_at res ext filename = Some infos ->
  infos = group_of recs filename.
Proof.
  intros Hscan Hin.
  rewrite (scan_conflicts_at _ _ _ _ _ Hscan) in Hin.
  rewrite (scan_duplicates_at _ _ _ _ _ Hscan) in Hin.
  destruct Hin as [Hin|Hin];
    match type of Hin with (if ?c then _ else _) = _ => destruct c end;
    congruence.
Qed.

Lemma conflict_not_duplicate infos :
  is_conflict_group infos = true -> is_duplicate_group infos = false.
Proof.
  unfold is_conflict_group, is_duplicate_group. intros H.
  apply Nat.leb_le in H.
  destruct (Nat.eqb_spec (List.length (Core.unique_hashes infos)) 1);
    [lia | apply andb_false_r].
Qed.

End Variants.

(** ** Claims on the classification *)

Section ClassificationClaims.
Import Notions.

(** C1.  A filename group of two or more hashed records is classified as
    a whole.  When two of its records differ in their hashes, the group is
    reported under [conflicts], in the bucket of its extension, and
    nowhere under [duplicates]; when all its records have the same hash,
    it is reported under [duplicates] and nowhere under [conflicts].
    What is reported is the whole group. *)
Theorem C1_group_classified_as_a_whole w recs res filename :
  scan w recs res ->
  (2 <= List.length (group_of recs filename))%nat ->
  let infos := group_of recs filename in
  let ext := extension_of (os w) filename in
  ((exists info1 info2,
       In info1 infos /\ In info2 infos /\ Info.hash info1 <> Info.hash info2)
   /\ conflicts_at res ext filename = Some infos
   /\ (forall e, e <> ext -> conflicts_at res e filename = None)
   /\ (forall e, duplicates_at res e filename = None))
  \/
  ((forall info1 info2,
       In info1 infos -> In info2 infos -> Info.hash info1 = Info.hash info2)
   /\ duplicates_at res ext filename = Some infos
   /\ (forall e, e <> ext -> duplicates_at res e filename = None)
   /\ (forall e, conflicts_at res e filename = None)).
Proof.
  intros Hscan Hsize infos ext.
  destruct (is_conflict_group infos) eqn:Hc.
  - left. pose proof (conflict_not_duplicate _ Hc) as Hd.
    split; [now apply conflict_group_differs|].
    split; [|split].
    + rewrite (scan_conflicts_at _ _ _ _ _ Hscan).
      fold infos. fold ext. now rewrite String.eqb_refl, Hc.
    + intros e He. rewrite (scan_conflicts_at _ _ _ _ _ Hscan). fold ext.
      destruct (String.eqb_spec e ext); [congruence | reflexivity].
    + intros e. rewrite (scan_duplicates_at _ _ _ _ _ Hscan).
      fold infos. now rewrite Hd, andb_false_r.
  - right.
    assert (Hone : List.length (Core.unique_hashes infos) = 1%nat).
    { unfold is_conflict_group in Hc. apply Nat.leb_gt in Hc.
      assert (1 <= List.length (Core.unique_hashes infos))%nat; [|lia].
      apply length_distinct_pos. subst infos.
      destruct (group_of recs filename); simpl in *; [lia | discriminate]. }
    assert (Hd : is_duplicate_group infos = true).
    { unfold is_duplicate_group. rewrite Hone.
      apply andb_true_intro. split; [now apply Nat.leb_le | reflexivity]. }
    split; [now apply no_conflict_group_agrees|]. split; [|split].
    + rewrite (scan_duplicates_at _ _ _ _ _ Hscan).
      fold infos. fold ext. now rewrite String.eqb_refl, Hd.
    + intros e He. rewrite (scan_duplicates_at _ _ _ _ _ Hscan). fold ext.
      destruct (String.eqb_spec e ext); [congruence | reflexivity].
    + intros e. rewrite (scan_conflicts_at _ _ _ _ _ Hscan).
      fold infos. now rewrite Hc, andb_false_r.
Qed.

(** C2.  A filename that is reported, in any bucket, has a filename group
    of two or more hashed records, and no filename is reported both under
    [conflicts] and under [duplicates], be it in one bucket or in two. *)
Theorem C2_reported_groups_disjoint_and_backed w recs res ext filename infos :
  scan w recs res ->
  conflicts_at res ext filename = Some infos
  \/ duplicates_at res ext filename = Some infos ->
  (2 <= List.length (group_of recs filename))%nat
  /\ forall e1 e2,
       conflicts_at res e1 filename = None
       \/ duplicates_at res e2 filename = None.
Proof.
  intros Hscan Hin.
  rewrite (scan_conflicts_at _ _ _ _ _ Hscan) in Hin.
  rewrite (scan_duplicates_at _ _ _ _ _ Hscan) in Hin.
  split.
  - pose proof (length_unique_hashes_le (group_of recs filename)).
    destruct Hin as [Hin|Hin].
    + destruct (is_conflict_group (group_of recs filename)) eqn:Hc;
        [|now rewrite andb_false_r in Hin].
      apply Nat.leb_le in Hc. lia.
    + destruct (is_duplicate_group (group_of recs filename)) eqn:Hd;
        [|now rewrite andb_false_r in Hin].
      apply andb_prop in Hd. destruct Hd as [Hd _]. now apply Nat.leb_le in Hd.
  - intros e1 e2.
    rewrite (scan_conflicts_at _ _ _ _ _ Hscan).
    rewrite (scan_duplicates_at _ _ _ _ _ Hscan).
    destruct (is_conflict_group (group_of recs filename)) eqn:Hc.
    + right. now rewrite (conflict_not_duplicate _ Hc), andb_false_r.
    + left. now rewrite andb_false_r.
Qed.

Lemma hd_error_group_of recs filename :
  hd_error (group_of recs filename)
  = option_map snd (find (fun r => String.eqb (fst r) filename) recs).
Proof.
  unfold group_of. induction recs as [|r recs IH]; simpl; [reflexivity|].
  destruct (String.eqb (fst r) filename); simpl; auto.
Qed.

(** C9.  The list reported for a filename, under [conflicts] or under
    [duplicates], holds the records of the files of that name in the
    order in which the walk found them; its first element is the record
    of the first such file. *)
Theorem C9_group_in_discovery_order w recs res ext filename infos :
  scan w recs res ->
  conflicts_at res ext filename = Some infos
  \/ duplicates_at res ext filename = Some infos ->
  infos = map snd (filter (fun r => String.eqb (fst r) filename) recs)
  /\ hd_error infos
     = option_map snd (find (fun r => String.eqb (fst r) filename) recs).
Proof.
  intros Hscan Hin.
  rewrite (scan_reported_group _ _ _ _ _ _ Hscan Hin).
  split; [reflexivity | apply hd_error_group_of].
Qed.

End ClassificationClaims.

(** ** Claims on the progress reports and on unreadable files *)

Section ProgressClaims.
Import Notions.

(** C8.  Without a callback [find_collisions] returns the triple that it
    returns with any callback, and leaves the listener untouched.  A
    callback is a function of the percentage, the message and the state of
    its listener: it returns, and it reaches neither the arguments of the
    scan nor the files. *)
Theorem C8_callback_does_not_alter_result
        {St St' : Type} w directory file_patterns lightmap_exclusion
        (f : @Gui.callback St) (s : St) (s' : St') :
  fst (Gui.find_collisions w directory file_patterns lightmap_exclusion None s')
  = fst (Gui.find_collisions w directory file_patterns lightmap_exclusion (Some f) s)
  /\ snd (Gui.find_collisions w directory file_patterns lightmap_exclusion None s')
     = s'.
Proof.
  rewrite !find_collisions_unfold. split; reflexivity.
Qed.

Lemma tell_record_percentage reports : forall log,
  tell record_percentage reports log = log ++ map fst reports.
Proof.
  unfold tell, record_percentage.
  induction reports as [|r reports IH]; intros log; simpl.
  - now rewrite app_nil_r.
  - rewrite IH. now rewrite <- app_assoc.
Qed.

(** the percentages that a scan reports *)
Lemma recorded_percentages w directory file_patterns lightmap_exclusion :
  snd (Gui.find_collisions w directory file_patterns lightmap_exclusion
         (Some record_percentage) [])
  = map fst (progress_reports w
               (Gui.collect w directory file_patterns lightmap_exclusion)).
Proof.
  rewrite find_collisions_unfold. cbn [snd].
  now rewrite tell_record_percentage.
Qed.

Section Rounding.
Variable r : Q -> Q.
Hypothesis Hr : rounds_like_ieee r.

Lemma round_proper x y : x == y -> r x == r y.
Proof.
  intros E. apply Qle_antisym; apply (round_monotone r Hr);
    rewrite E; apply Qle_refl.
Qed.

Local Abbreviation scaled := (Gui.scaled r).

Lemma ratio_monotone k k' n :
  (k <= k')%nat -> (0 < n)%nat ->
  inject_Z (Z.of_nat k) / inject_Z (Z.of_nat n)
  <= inject_Z (Z.of_nat k') / inject_Z (Z.of_nat n).
Proof.
  intros Hk Hn. unfold Qdiv. apply Qmult_le_compat_r.
  - rewrite <- Zle_Qle. lia.
  - apply Qlt_le_weak, Qinv_lt_0_compat.
    change 0 with (inject_Z 0). rewrite <- Zlt_Qlt. lia.
Qed.

Lemma ratio_0 n : inject_Z (Z.of_nat 0) / inject_Z (Z.of_nat n) == 0.
Proof. unfold Qdiv. simpl. apply Qmult_0_l. Qed.

Lemma ratio_1 n :
  (0 < n)%nat -> inject_Z (Z.of_nat n) / inject_Z (Z.of_nat n) == 1.
Proof.
  intros Hn. apply Qmult_inv_r. intros E.
  assert (H : ~ inject_Z (Z.of_nat n) == inject_Z 0).
  { rewrite inject_Z_injective. lia. }
  now apply H.
Qed.

Lemma scaled_monotone k k' n :
  (k <= k')%nat -> (0 < n)%nat -> scaled k n <= scaled k' n.
Proof.
  intros Hk Hn. unfold Gui.scaled.
  apply (round_monotone r Hr). apply Qmult_le_compat_r; [|discriminate].
  apply (round_monotone r Hr). now apply ratio_monotone.
Qed.

Lemma scaled_0 n : scaled 0 n == 0.
Proof.
  unfold Gui.scaled.
  rewrite (round_proper _ 0); [apply (round_0 r Hr)|].
  rewrite (round_proper _ 0) by apply ratio_0.
  rewrite (round_0 r Hr). reflexivity.
Qed.

Lemma scaled_full n : (0 < n)%nat -> scaled n n == 80.
Proof.
  intros Hn. unfold Gui.scaled.
  rewrite (round_proper _ 80); [apply (round_80 r Hr)|].
  rewrite (round_proper _ 1) by now apply ratio_1.
  rewrite (round_1 r Hr). reflexivity.
Qed.

Lemma int_of_float_nonneg x : 0 <= x -> Core.int_of_float x = Qfloor x.
Proof.
  intros H. unfold Core.int_of_float.
  apply Qle_bool_iff in H. now rewrite H.
Qed.

Lemma int_of_scaled_bounds k n :
  (k <= n)%nat -> (0 < n)%nat ->
  (0 <= Core.int_of_float (scaled k n) <= 80)%Z.
Proof.
  intros Hk Hn.
  assert (H0 : 0 <= scaled k n).
  { rewrite <- (scaled_0 n). apply scaled_monotone; [lia | assumption]. }
  assert (H80 : scaled k n <= 80).
  { rewrite <- (scaled_full n Hn). now apply scaled_monotone. }
  rewrite int_of_float_nonneg by assumption. split.
  - change 0%Z with (Qfloor 0). now apply Qfloor_resp_le.
  - change 80%Z with (Qfloor 80). now apply Qfloor_resp_le.
Qed.

Lemma int_of_scaled_monotone k k' n :
  (k <= k')%nat -> (0 < n)%nat ->
  (Core.int_of_float (scaled k n) <= Core.int_of_float (scaled k' n))%Z.
Proof.
  intros Hk Hn.
  assert (H0 : 0 <= scaled k n).
  { rewrite <- (scaled_0 n). apply scaled_monotone; [lia | assumption]. }
  assert (H1 : scaled k n <= scaled k' n) by now apply scaled_monotone.
  rewrite !int_of_float_nonneg; [now apply Qfloor_resp_le | | assumption].
  now apply Qle_trans with (scaled k n).
Qed.

End Rounding.

Lemma non_decreasing_cons x l :
  non_decreasing l -> Forall (fun y => (x <= y)%Z) l -> non_decreasing (x :: l).
Proof.
  intros Hl Hx. destruct l as [|y l]; simpl; [exact I|].
  inversion Hx; subst. split; assumption.
Qed.

Lemma non_decreasing_snoc l : forall x,
  non_decreasing l -> Forall (fun y => (y <= x)%Z) l -> non_decreasing (l ++ [x]).
Proof.
  induction l as [|a l IH]; intros x Hl Hx; [exact I|].
  inversion Hx as [|? ? Ha Hx']; subst.
  destruct l as [|b l].
  - simpl. auto.
  - destruct Hl as [Hab Hl]. cbn [app]. split; [assumption|].
    now apply (IH x).
Qed.

Lemma non_decreasing_map_seq (f : nat -> Z) n : forall a,
  (forall i j, (a <= i)%nat -> (i <= j)%nat -> (j < a + n)%nat -> (f i <= f j)%Z) ->
  non_decreasing (map f (seq a n)).
Proof.
  induction n as [|n IH]; intros a Hf; [exact I|].
  cbn [seq map]. apply non_decreasing_cons.
  - apply IH. intros i j Hi Hij Hj. apply Hf; lia.
  - apply Forall_forall. intros y Hy. apply in_map_iff in Hy.
    destruct Hy as [j [<- Hj]]. apply in_seq in Hj. apply Hf; lia.
Qed.

(** C7, as the code has it.  The percentages told to the callback in the
    course of one scan never decrease; the last one is 100 when the walk
    found no file to hash, and 95 otherwise. *)
Theorem C7_percentages_never_decrease w directory file_patterns lightmap_exclusion :
  rounds_like_ieee (float_round w) ->
  let percentages :=
    snd (Gui.find_collisions w directory file_patterns lightmap_exclusion
           (Some record_percentage) []) in
  non_decreasing percentages
  /\ last percentages 0%Z
     = match Gui.collect w directory file_patterns lightmap_exclusion with
       | [] => 100%Z
       | _ :: _ => 95%Z
       end.
Proof.
  intros Hr percentages. subst percentages. rewrite recorded_percentages.
  set (file_list := Gui.collect w directory file_patterns lightmap_exclusion).
  unfold progress_reports.
  destruct file_list as [|fd fl] eqn:E.
  - simpl. split; [split; [lia | exact I] | reflexivity].
  - set (n := List.length (fd :: fl)).
    assert (Hn : (0 < n)%nat) by (subst n; simpl; lia).
    replace (n =? 0)%nat with false by (symmetry; apply Nat.eqb_neq; lia).
    cbn [map fst]. rewrite map_app, map_map. cbn [map fst].
    split.
    + apply non_decreasing_cons.
      * apply non_decreasing_snoc.
        -- apply non_decreasing_map_seq. intros i j Hi Hij Hj.
           unfold Gui.percentage_of.
           pose proof (int_of_scaled_monotone _ Hr i j n Hij Hn). lia.
        -- apply Forall_forall. intros y Hy. apply in_map_iff in Hy.
           destruct Hy as [k [<- Hk]]. apply in_seq in Hk.
           unfold Gui.percentage_of.
           assert (Hkn : (k <= n)%nat) by lia.
           pose proof (int_of_scaled_bounds _ Hr k n Hkn Hn). lia.
      * apply Forall_app. split.
        -- apply Forall_forall. intros y Hy. apply in_map_iff in Hy.
           destruct Hy as [k [<- Hk]]. apply in_seq in Hk.
           unfold Gui.percentage_of.
           assert (Hkn : (k <= n)%nat) by lia.
           pose proof (int_of_scaled_bounds _ Hr k n Hkn Hn). lia.
        -- constructor; [lia | constructor].
    + change (5%Z :: ?l ++ [95%Z]) with ((5%Z :: l) ++ [95%Z]).
      apply last_last.
Qed.

Lemma records_app w l1 l2 : records w (l1 ++ l2) = records w l1 ++ records w l2.
Proof. unfold records. apply flat_map_app. Qed.

Lemma In_group_of recs filename info :
  In info (group_of recs filename) -> In (filename, info) recs.
Proof.
  unfold group_of. intros H. apply in_map_iff in H.
  destruct H as [[k i] [<- H]]. apply filter_In in H. destruct H as [H E].
  apply String.eqb_eq in E. simpl in *. now subst k.
Qed.

Lemma In_records w file_list filename info :
  In (filename, info) (records w file_list) ->
  exists file_data,
    In file_data file_list /\ record_of w file_data = Some (filename, info).
Proof.
  unfold records. intros H. apply in_flat_map in H.
  destruct H as [fd [Hfd H]]. exists fd. split; [assumption|].
  destruct (record_of w fd); simpl in H; [|contradiction].
  destruct H as [->|[]]. reflexivity.
Qed.

Lemma progress_messages w file_list :
  Forall (fun report =>
            In (snd report) fixed_messages
            \/ exists k, snd report = Gui.hashing_message k (List.length file_list))
         (progress_reports w file_list).
Proof.
  unfold progress_reports, fixed_messages.
  constructor; [left; simpl; auto|].
  destruct (List.length file_list =? 0)%nat.
  - constructor; [left; simpl; auto | constructor].
  - apply Forall_app. split.
    + apply Forall_forall. intros r Hr. apply in_map_iff in Hr.
      destruct Hr as [k [<- _]]. right. now exists k.
    + constructor; [left; simpl; auto | constructor].
Qed.

(** C6.  A file whose reading fails gets no hash: [get_file_hash] returns
    [None] and raises nothing.  The file contributes no record; the scan
    goes on, and its result is the classification of the records of the
    other files, so that every reported record is the record of another
    file.  The callback is told the usual progress reports, whose
    messages name no file. *)
Theorem C6_unreadable_file_is_skipped
        {St : Type} w directory file_patterns lightmap_exclusion
        (progress_callback : option (@Gui.callback St)) (s : St)
        l1 file_data l2 e :
  Gui.collect w directory file_patterns lightmap_exclusion = l1 ++ file_data :: l2 ->
  Core.hash_file w (FileData.path file_data) = Raise e ->
  let out := Gui.find_collisions w directory file_patterns lightmap_exclusion
               progress_callback s in
  let res := fst (fst (fst out)) in
  Core.get_file_hash w (FileData.path file_data) = None
  /\ record_of w file_data = None
  /\ res = Core.classify (os w) (file_info_dict (records w (l1 ++ l2)))
  /\ (forall ext filename infos info,
        conflicts_at res ext filename = Some infos
        \/ duplicates_at res ext filename = Some infos ->
        In info infos ->
        exists other,
          In other (l1 ++ l2) /\ record_of w other = Some (filename, info))
  /\ snd out = match progress_callback with
               | Some f => tell f (progress_reports w (l1 ++ file_data :: l2)) s
               | None => s
               end
  /\ Forall (fun report =>
               In (snd report) fixed_messages
               \/ exists k,
                    snd report
                    = Gui.hashing_message k (List.length (l1 ++ file_data :: l2)))
            (progress_reports w (l1 ++ file_data :: l2)).
Proof.
  intros Hlist Hfail out res.
  assert (Hhash : Core.get_file_hash w (FileData.path file_data) = None).
  { unfold Core.get_file_hash. now rewrite Hfail. }
  assert (Hrec : record_of w file_data = None).
  { unfold record_of. now rewrite Hhash. }
  assert (Hrecs : records w (l1 ++ file_data :: l2) = records w (l1 ++ l2)).
  { rewrite !records_app. f_equal. unfold records at 1. cbn [flat_map].
    now rewrite Hrec. }
  assert (Hscan : scan w (records w (l1 ++ l2)) res).
  { rewrite <- Hrecs, <- Hlist. subst res out. apply scan_gui. }
  split; [assumption|]. split; [assumption|].
  split; [now apply scan_classify|].
  split; [|split].
  - intros ext filename infos info Hin Hinfo.
    rewrite (scan_reported_group _ _ _ _ _ _ Hscan Hin) in Hinfo.
    apply In_records. now apply In_group_of.
  - subst out. rewrite find_collisions_unfold. cbn [snd]. now rewrite Hlist.
  - apply progress_messages.
Qed.

End ProgressClaims.

(** ** Claims on the counters *)

Section CounterClaims.
Import Notions.

Lemma list_sum_dalter {V} (g : V -> nat) dflt h k (d : dict V) :
  g dflt = 0%nat ->
  let v := match dget k d with Some v => v | None => dflt end in
  (list_sum (map (fun item => g (snd item)) (dalter dflt h k d)) + g v
   = list_sum (map (fun item => g (snd item)) d) + g (h v))%nat.
Proof.
  intros Hg. cbv zeta. induction d as [|[k' v'] d IH]; cbn [dalter dget].
  - simpl. lia.
  - destruct (String.eqb k k'); simpl; lia.
Qed.

Lemma total_conflicts_extend_conflicts ext0 f0 infos acc :
  conflicts_at acc ext0 f0 = None ->
  Gui.total_conflicts (Core.extend_conflicts ext0 f0 infos acc)
  = S (Gui.total_conflicts acc).
Proof.
  intros Hfresh. unfold Gui.total_conflicts, Core.extend_conflicts.
  pose proof (list_sum_dalter (fun b => List.length (conflicts b)) empty_bucket
                (fun data =>
                   {| conflicts := dalter [] (fun l => l ++ infos) f0 (conflicts data);
                      duplicates := duplicates data |})
                ext0 acc eq_refl) as H.
  cbn beta zeta in H. cbn [conflicts] in H. rewrite length_dalter in H.
  unfold conflicts_at in Hfresh.
  destruct (dget ext0 acc) as [data|]; cbn [conflicts empty_bucket dget] in H.
  - rewrite Hfresh in H. lia.
  - simpl in H. lia.
Qed.

Lemma total_conflicts_extend_duplicates ext0 f0 infos acc :
  Gui.total_conflicts (Core.extend_duplicates ext0 f0 infos acc)
  = Gui.total_conflicts acc.
Proof.
  unfold Gui.total_conflicts, Core.extend_duplicates.
  pose proof (list_sum_dalter (fun b => List.length (conflicts b)) empty_bucket
                (fun data =>
                   {| conflicts := conflicts data;
                      duplicates := dalter [] (fun l => l ++ infos) f0
                                      (duplicates data) |})
                ext0 acc eq_refl) as H.
  cbn beta zeta in H. cbn [conflicts] in H. lia.
Qed.

Lemma total_duplicates_extend_duplicates ext0 f0 infos acc :
  duplicates_at acc ext0 f0 = None ->
  Gui.total_duplicates (Core.extend_duplicates ext0 f0 infos acc)
  = S (Gui.total_duplicates acc).
Proof.
  intros Hfresh. unfold Gui.total_duplicates, Core.extend_duplicates.
  pose proof (list_sum_dalter (fun b => List.length (duplicates b)) empty_bucket
                (fun data =>
                   {| conflicts := conflicts data;
                      duplicates := dalter [] (fun l => l ++ infos) f0
                                      (duplicates data) |})
                ext0 acc eq_refl) as H.
  cbn beta zeta in H. cbn [duplicates] in H. rewrite length_dalter in H.
  unfold duplicates_at in Hfresh.
  destruct (dget ext0 acc) as [data|]; cbn [duplicates empty_bucket dget] in H.
  - rewrite Hfresh in H. lia.
  - simpl in H. lia.
Qed.

Lemma total_duplicates_extend_conflicts ext0 f0 infos acc :
  Gui.total_duplicates (Core.extend_conflicts ext0 f0 infos acc)
  = Gui.total_duplicates acc.
Proof.
  unfold Gui.total_duplicates, Core.extend_conflicts.
  pose proof (list_sum_dalter (fun b => List.length (duplicates b)) empty_bucket
                (fun data =>
                   {| conflicts := dalter [] (fun l => l ++ infos) f0 (conflicts data);
                      duplicates := duplicates data |})
                ext0 acc eq_refl) as H.
  cbn beta zeta in H. cbn [duplicates] in H. lia.
Qed.

Lemma totals_classify_from o fid : forall acc,
  NoDup (keys fid) ->
  (forall f ext, In f (keys fid) ->
                 conflicts_at acc ext f = None /\ duplicates_at acc ext f = None) ->
  Gui.total_conflicts (fold_left (Core.classify_step o) fid acc)
  = (Gui.total_conflicts acc + count_groups conflict_verdict fid)%nat
  /\ Gui.total_duplicates (fold_left (Core.classify_step o) fid acc)
     = (Gui.total_duplicates acc + count_groups duplicate_verdict fid)%nat.
Proof.
  unfold count_groups.
  induction fid as [|[f0 infos0] fid IH]; intros acc Hnd Hfresh; cbn [fold_left].
  - simpl. lia.
  - inversion Hnd as [|? ? Hf0 Hnd']; subst.
    destruct (IH (Core.classify_step o acc (f0, infos0)) Hnd') as [Hc Hd].
    { intros f ext Hin.
      rewrite conflicts_at_classify_step, duplicates_at_classify_step.
      destruct (String.eqb_spec f f0) as [->|Hf]; [contradiction|].
      rewrite !andb_false_r. cbn [andb]. apply Hfresh. now right. }
    rewrite Hc, Hd. cbn [filter snd].
    destruct (Hfresh f0 (extension_of o f0)) as [Fc Fd]; [now left|].
    unfold Core.classify_step, conflict_verdict, duplicate_verdict.
    fold (extension_of o f0).
    destruct (1 <? List.length infos0)%nat; cbn [andb negb].
    + destruct (1 <? List.length (Core.unique_hashes infos0))%nat; cbn [negb].
      * rewrite total_conflicts_extend_conflicts by assumption.
        rewrite total_duplicates_extend_conflicts. simpl. lia.
      * rewrite total_duplicates_extend_duplicates by assumption.
        rewrite total_conflicts_extend_duplicates. simpl. lia.
    + lia.
Qed.

Lemma count_groups_ext p q fid :
  (forall infos, p infos = q infos) -> count_groups p fid = count_groups q fid.
Proof.
  intros H. unfold count_groups. f_equal. apply filter_ext. intros g. apply H.
Qed.

(** the counter of conflicts of the v2 file adds two or more for every
    group in conflict *)
Lemma conflict_hash_total_twice fid :
  (2 * count_groups is_conflict_group fid <= conflict_hash_total fid)%nat.
Proof.
  unfold count_groups, conflict_hash_total.
  induction fid as [|[f infos] fid IH]; cbn [filter snd]; [simpl; lia|].
  destruct (is_conflict_group infos) eqn:Hc; [|exact IH].
  cbn [map List.length snd].
  match goal with
  | |- context [list_sum (?a :: ?l)] =>
      change (list_sum (a :: l)) with (a + list_sum l)%nat
  end.
  unfold is_conflict_group in Hc. apply Nat.leb_le in Hc. lia.
Qed.

(** C5.  The two totals that [run_checker] of the v3 files derives from
    a classification are numbers of groups: [total_conflicts] is the
    number of filenames in whose group two records differ in their
    hashes, [total_duplicates] the number of filenames whose group of
    two or more records has one hash.  The v2 file counts on its own
    while it classifies: its [total_duplicates] is that number of groups
    too, but its [total_conflicts] is the number of the groups in
    conflict only when there is none, as it adds two or more for each. *)
Theorem C5_counters w recs res :
  scan w recs res ->
  Gui.total_conflicts res = count_groups has_distinct_hashes (file_info_dict recs)
  /\ Gui.total_duplicates res = count_groups repeats_one_hash (file_info_dict recs)
  /\ forall directory files_to_search ignored_patterns,
       let recs2 :=
         records_v2 w
           (CheckerV2.collect w directory files_to_search
              (Py.contains (CheckerV2.or_empty ignored_patterns)
                           "light_ymaps_ignored")) in
       let out := CheckerV2.find_collisions w directory files_to_search
                    ignored_patterns in
       let conflict_groups :=
         count_groups has_distinct_hashes (file_info_dict recs2) in
       snd out = count_groups repeats_one_hash (file_info_dict recs2)
       /\ (2 * conflict_groups <= snd (fst out))%nat
       /\ (snd (fst out) = conflict_groups <-> conflict_groups = 0%nat).
Proof.
  intros Hscan. rewrite (scan_classify _ _ _ Hscan). unfold Core.classify.
  destruct (totals_classify_from (os w) (file_info_dict recs) [])
    as [Hc Hd].
  { apply NoDup_keys_file_info_dict. }
  { intros; split; reflexivity. }
  rewrite Hc, Hd.
  rewrite (count_groups_ext conflict_verdict has_distinct_hashes (file_info_dict recs))
    by (intros infos; now rewrite conflict_verdict_spec, has_distinct_hashes_spec).
  rewrite (count_groups_ext duplicate_verdict repeats_one_hash (file_info_dict recs))
    by (intros infos; now rewrite duplicate_verdict_spec, repeats_one_hash_spec).
  split; [reflexivity|]. split; [reflexivity|].
  intros directory fs ign. cbv zeta.
  unfold CheckerV2.find_collisions.
  rewrite fold_hash_step_v2, fold_classify_step_v2. cbn [fst snd Nat.add].
  change (add_records ?r []) with (file_info_dict r).
  set (fid := file_info_dict _).
  rewrite (count_groups_ext repeats_one_hash is_duplicate_group fid
             repeats_one_hash_spec).
  rewrite (count_groups_ext has_distinct_hashes is_conflict_group fid
             has_distinct_hashes_spec).
  pose proof (conflict_hash_total_twice fid) as Htwice.
  split; [reflexivity|]. split; [exact Htwice|].
  split; [lia|].
  intros Hzero. unfold conflict_hash_total, count_groups in *.
  apply length_zero_iff_nil in Hzero. now rewrite Hzero.
Qed.

End CounterClaims.

(** ** Claims on the Lua report of the v3 checker *)

Section ReportClaims.
Import Notions.

Lemma string_leb_trans s1 : forall s2 s3,
  String.leb s1 s2 = true -> String.leb s2 s3 = true -> String.leb s1 s3 = true.
Proof.
  unfold String.leb.
  induction s1 as [|c1 s1 IH]; intros [|c2 s2] [|c3 s3]; simpl; try congruence.
  unfold Ascii.compare.
  destruct (N.compare_spec (N_of_ascii c1) (N_of_ascii c2)) as [E12|L12|G12];
    destruct (N.compare_spec (N_of_ascii c2) (N_of_ascii c3)) as [E23|L23|G23];
    destruct (N.compare_spec (N_of_ascii c1) (N_of_ascii c3)) as [E13|L13|G13];
    try congruence; try lia.
  apply IH.
Qed.

Lemma In_insert_sorted x l y :
  In y (CheckerV3.insert_sorted x l) <-> y = x \/ In y l.
Proof.
  induction l as [|z l IH]; simpl.
  - intuition.
  - destruct (String.leb (fst x) (fst z)); simpl; [intuition|].
    rewrite IH. intuition.
Qed.

Lemma In_sorted l y : In y (CheckerV3.sorted l) <-> In y l.
Proof.
  induction l as [|x l IH]; simpl; [tauto|].
  rewrite In_insert_sorted, IH. intuition.
Qed.

Lemma insert_sorted_ordered x l :
  StronglySorted key_le l ->
  StronglySorted key_le (CheckerV3.insert_sorted x l).
Proof.
  induction 1 as [|z l Hl IH Hz]; simpl.
  - constructor; constructor.
  - destruct (String.leb (fst x) (fst z)) eqn:E.
    + constructor; [constructor; assumption|].
      constructor; [exact E|].
      eapply Forall_impl; [|exact Hz].
      intros a Ha. unfold key_le in *. eapply string_leb_trans; eassumption.
    + constructor; [assumption|].
      apply Forall_forall. intros a Ha. apply In_insert_sorted in Ha.
      destruct Ha as [->|Ha].
      * unfold key_le. destruct (String.leb_total (fst z) (fst x)); congruence.
      * rewrite Forall_forall in Hz. now apply Hz.
Qed.

Lemma sorted_ordered l : StronglySorted key_le (CheckerV3.sorted l).
Proof.
  induction l as [|x l IH]; simpl; [constructor|].
  now apply insert_sorted_ordered.
Qed.

Lemma last_In {A} (l : list A) d : l <> [] -> In (last l d) l.
Proof.
  intros Hne. destruct (@exists_last _ l Hne) as [l' [z E]].
  rewrite E, last_last. apply in_or_app. right. now left.
Qed.

Lemma last_is_greatest l d :
  StronglySorted key_le l ->
  forall a, In a l -> key_le a (last l d).
Proof.
  induction 1 as [|x l Hl IH Hx]; intros a Ha; [contradiction|].
  destruct l as [|y l].
  - destruct Ha as [->|[]]. simpl. unfold key_le.
    destruct (String.leb_total (fst a) (fst a)); assumption.
  - change (last (x :: y :: l) d) with (last (y :: l) d).
    destruct Ha as [->|Ha].
    + rewrite Forall_forall in Hx. apply Hx. apply last_In. discriminate.
    + now apply IH.
Qed.

Lemma fold_report_step_data l : forall lines first data,
  l <> [] ->
  snd (fold_left CheckerV3.report_step l (lines, first, data))
  = Some (snd (last l ("", empty_bucket))).
Proof.
  induction l as [|[ext b] l IH]; intros lines first data Hne; [congruence|].
  cbn [fold_left].
  assert (Hstep : exists lines' first',
             CheckerV3.report_step (lines, first, data) (ext, b)
             = (lines', first', Some b)).
  { unfold CheckerV3.report_step.
    destruct (CheckerV3.is_empty (conflicts b) && CheckerV3.is_empty (duplicates b));
      eauto. }
  destruct Hstep as [lines' [first' ->]].
  destruct l as [|x l]; [reflexivity|].
  rewrite IH by discriminate. reflexivity.
Qed.

(** C10.  In the v3 checker the summary of [_generate_lua_report] reads
    the loop variable [data].  With an empty [categorized_results] the
    call raises a [NameError] and returns no report.  With any other
    [categorized_results] it returns a report whose summary prints the
    numbers of conflict and duplicate groups of the bucket that comes
    last in the sorted order of the extensions, whatever totals were
    passed in. *)
Theorem C10_lua_summary_reads_loop_variable
        w directory files_to_search ignored_patterns :
  (forall total_conflicts total_duplicates,
      exists e,
        CheckerV3._generate_lua_report w directory [] total_conflicts
          total_duplicates files_to_search ignored_patterns = Raise e
        /\ is_NameError e = true)
  /\ (forall categorized_results,
        categorized_results <> [] ->
        exists ext data lines,
          last (CheckerV3.sorted categorized_results) ("", empty_bucket) = (ext, data)
          /\ In (ext, data) categorized_results
          /\ (forall item, In item categorized_results -> key_le item (ext, data))
          /\ forall total_conflicts total_duplicates,
               CheckerV3._generate_lua_report w directory categorized_results
                 total_conflicts total_duplicates files_to_search ignored_patterns
               = Ok (Py.join CheckerV3.newline
                       (lines
                          ++ [ CheckerV3.newline;
                               "-- --- Final Summary ---";
                               ("-- Total Critical Conflicts Found: "
                                  ++ Py.str_of_nat (List.length (conflicts data)))%string;
                               ("-- Total Redundant Duplicates Found: "
                                  ++ Py.str_of_nat (List.length (duplicates data)))%string;
                               "-- ###################################################"
                             ]))).
Proof.
  split.
  - intros tc td. exists (UnboundLocalError "data"). split; reflexivity.
  - intros cr Hne.
    assert (Hs : CheckerV3.sorted cr <> []).
    { destruct cr as [|x cr]; [congruence|]. intros E.
      assert (In x (CheckerV3.sorted (x :: cr))) by (apply In_sorted; now left).
      rewrite E in H. contradiction. }
    destruct (last (CheckerV3.sorted cr) ("", empty_bucket)) as [ext data] eqn:El.
    pose proof (fold_report_step_data (CheckerV3.sorted cr)
                  (CheckerV3.header_lines w directory files_to_search ignored_patterns)
                  true None Hs) as Hd.
    rewrite El in Hd. cbn [snd] in Hd.
    destruct (fold_left CheckerV3.report_step (CheckerV3.sorted cr)
                (CheckerV3.header_lines w directory files_to_search ignored_patterns,
                 true, None)) as [[lines first] data'] eqn:Ef.
    cbn [snd] in Hd. subst data'.
    exists ext, data, lines.
    assert (Hin : In (ext, data) (CheckerV3.sorted cr)).
    { rewrite <- El. now apply last_In. }
    split; [reflexivity|]. split; [now apply In_sorted|]. split.
    + intros item Hitem.
      pose proof (last_is_greatest _ ("", empty_bucket) (sorted_ordered cr) item)
        as Hmax.
      rewrite El in Hmax. apply Hmax. now apply In_sorted.
    + intros tc td. unfold CheckerV3._generate_lua_report. rewrite Ef. reflexivity.
Qed.

End ReportClaims.

(** ** Claims on the walk *)

Section WalkClaims.
Import Notions.

Lemma split_no_sep sep c :
  has_char sep c = false -> Py.split sep c = [c].
Proof.
  induction c as [|a c IH]; simpl; [reflexivity|].
  intros H. apply orb_false_elim in H. destruct H as [Ha Hc].
  rewrite Ha, IH by assumption. reflexivity.
Qed.

Lemma split_app_sep sep c rest :
  has_char sep c = false ->
  Py.split sep (c ++ String sep rest) = c :: Py.split sep rest.
Proof.
  induction c as [|a c IH]; simpl.
  - now rewrite Ascii.eqb_refl.
  - intros H. apply orb_false_elim in H. destruct H as [Ha Hc].
    rewrite Ha, IH by assumption. reflexivity.
Qed.

Lemma split_join sep names :
  names <> [] ->
  Forall (fun name => has_char sep name = false) names ->
  Py.split sep (Py.join (String sep EmptyString) names) = names.
Proof.
  unfold Py.join.
  induction names as [|c names IH]; intros Hne Hall; [congruence|].
  inversion Hall as [|? ? Hc Hnames]; subst.
  destruct names as [|c' names].
  - simpl. now apply split_no_sep.
  - cbn [String.concat]. cbn [String.append].
    change (String sep (String.concat (String sep "") (c' :: names)))
      with (String sep (String.concat (String sep "") (c' :: names))).
    rewrite split_app_sep by assumption.
    f_equal. apply IH; [discriminate | assumption].
Qed.

Lemma plain_name_spec o name :
  plain_name o name = true -> has_char (sep_of o) name = false /\ name <> ".".
Proof.
  unfold plain_name. intros H. apply andb_prop in H. destruct H as [H1 H2].
  apply negb_true_iff in H1, H2. split; [assumption|].
  now apply String.eqb_neq.
Qed.

(** the resource of a walked folder in the progress-reporting variant *)
Lemma gui_resource_name_of o directory folder :
  Forall (fun name => plain_name o name = true) folder ->
  Gui.resource_name_of o (OsPath.mk directory folder)
  = match folder with
    | [] => "ROOT_DIR"
    | first :: _ => first
    end.
Proof.
  intros Hall. unfold Gui.resource_name_of, OsPath.relpath. cbn [OsPath.names].
  destruct folder as [|first rest]; [now destruct o|].
  rewrite split_join.
  - inversion Hall as [|? ? Hfirst _]; subst.
    apply plain_name_spec in Hfirst. destruct Hfirst as [_ Hne].
    apply String.eqb_neq in Hne. now rewrite Hne.
  - discriminate.
  - eapply Forall_impl; [|exact Hall]. intros name H.
    now apply plain_name_spec in H.
Qed.

Lemma In_gui_collect w directory file_patterns lightmap_exclusion file_data :
  In file_data (Gui.collect w directory file_patterns lightmap_exclusion) <->
  exists entry filename,
    In entry (os_walk w directory) /\ In filename (snd entry)
    /\ Core.is_lightmap (os w) lightmap_exclusion (Py.lower filename) = false
    /\ existsb (Fnmatch.fnmatch (os w) (Py.lower filename)) file_patterns = true
    /\ file_data
       = {| FileData.path := OsPath.join (OsPath.mk directory (fst entry)) filename;
            FileData.filename_lower := Py.lower filename;
            FileData.resource :=
              Gui.resource_name_of (os w) (OsPath.mk directory (fst entry)) |}.
Proof.
  unfold Gui.collect. rewrite in_flat_map. split.
  - intros [entry [Hentry H]]. apply in_flat_map in H.
    destruct H as [filename [Hfile H]]. exists entry, filename.
    destruct (Core.is_lightmap (os w) lightmap_exclusion (Py.lower filename));
      [contradiction|].
    destruct (existsb _ file_patterns); [|contradiction].
    destruct H as [<-|[]]. auto.
  - intros [entry [filename [Hentry [Hfile [Hl [Hm ->]]]]]].
    exists entry. split; [assumption|]. apply in_flat_map.
    exists filename. split; [assumption|]. rewrite Hl, Hm. now left.
Qed.

(** *** Strings as lists of characters *)

Local Abbreviation chars := list_ascii_of_string.

Lemma chars_append s t : chars (s ++ t) = chars s ++ chars t.
Proof. induction s as [|c s IH]; simpl; [reflexivity | now rewrite IH]. Qed.

Lemma chars_map_chars f s : chars (Py.map_chars f s) = map f (chars s).
Proof. induction s as [|c s IH]; simpl; [reflexivity | now rewrite IH]. Qed.

Lemma chars_inj s t : chars s = chars t -> s = t.
Proof.
  intros H. rewrite <- (string_of_list_ascii_of_string s).
  rewrite <- (string_of_list_ascii_of_string t). now rewrite H.
Qed.

Lemma startswith_spec s p :
  Py.startswith s p = true <-> exists t, chars s = chars p ++ t.
Proof.
  unfold Py.startswith. revert s.
  induction p as [|a p IH]; intros s; simpl.
  - split; [intros _; now exists (chars s) | now destruct s].
  - destruct s as [|b s]; simpl.
    + split; [discriminate | intros [t H]; discriminate].
    + destruct (ascii_dec a b) as [->|Hab].
      * rewrite IH. split; intros [t H]; exists t; [now rewrite H | congruence].
      * split; [discriminate | intros [t H]; congruence].
Qed.

Lemma substring_all p : substring 0 (String.length p) p = p.
Proof. induction p as [|c p IH]; simpl; [reflexivity | now rewrite IH]. Qed.

Lemma substring_skip t n p :
  substring (String.length t) n (t ++ p) = substring 0 n p.
Proof. induction t as [|c t IH]; simpl; [reflexivity | apply IH]. Qed.

Lemma substring_split n : forall s,
  (n <= String.length s)%nat ->
  s = (substring 0 n s ++ substring n (String.length s - n) s)%string.
Proof.
  induction n as [|n IH]; intros s Hn.
  - rewrite Nat.sub_0_r, substring_all. now destruct s.
  - destruct s as [|c s]; simpl in *; [lia|].
    f_equal. apply IH. lia.
Qed.

Lemma length_append s t :
  String.length (s ++ t) = (String.length s + String.length t)%nat.
Proof. induction s as [|c s IH]; simpl; [reflexivity | now rewrite IH]. Qed.

Lemma endswith_spec s p :
  Py.endswith s p = true <-> exists t, chars s = t ++ chars p.
Proof.
  unfold Py.endswith. split.
  - intros H. apply andb_prop in H. destruct H as [Hlen Heq].
    apply Nat.leb_le in Hlen. apply String.eqb_eq in Heq.
    exists (chars (substring 0 (String.length s - String.length p) s)).
    pose proof (substring_split (String.length s - String.length p) s) as Hs.
    replace (String.length s - (String.length s - String.length p))%nat
      with (String.length p) in Hs by lia.
    rewrite Heq in Hs. rewrite <- chars_append. f_equal. apply Hs. lia.
  - intros [t H].
    assert (E : s = (string_of_list_ascii t ++ p)%string).
    { apply chars_inj. rewrite chars_append.
      now rewrite list_ascii_of_string_of_list_ascii. }
    rewrite E, length_append.
    replace (String.length (string_of_list_ascii t) + String.length p
             - String.length p)%nat
      with (String.length (string_of_list_ascii t)) by lia.
    rewrite substring_skip, substring_all, String.eqb_refl.
    apply andb_true_intro. split; [apply Nat.leb_le; lia | reflexivity].
Qed.

(** *** Patterns made of a literal head, a star and a literal tail *)

Lemma glob_star_cons p c s :
  Fnmatch.glob_match (Fnmatch.Star :: p) (c :: s)
  = Fnmatch.glob_match p (c :: s) || Fnmatch.glob_match (Fnmatch.Star :: p) s.
Proof. reflexivity. Qed.

Lemma glob_star p s :
  Fnmatch.glob_match (Fnmatch.Star :: p) s = true <->
  exists a b, s = a ++ b /\ Fnmatch.glob_match p b = true.
Proof.
  induction s as [|c s IH].
  - simpl. rewrite orb_false_r. split.
    + intros H. now exists [], [].
    + intros [a [b [E H]]]. symmetry in E. apply app_eq_nil in E.
      destruct E as [-> ->]. exact H.
  - rewrite glob_star_cons, orb_true_iff, IH. split.
    + intros [H|[a [b [-> H]]]].
      * now exists [], (c :: s).
      * now exists (c :: a), b.
    + intros [[|c' a] [b [E H]]]; simpl in E.
      * left. now subst b.
      * right. inversion E; subst. now exists a, b.
Qed.

Lemma glob_lits pre rest : forall s,
  Fnmatch.glob_match (map Fnmatch.Lit pre ++ rest) s = true <->
  exists t, s = pre ++ t /\ Fnmatch.glob_match rest t = true.
Proof.
  induction pre as [|c pre IH]; intros s; cbn [map app].
  - split; [intros H; now exists s | intros [t [-> H]]; exact H].
  - cbn [Fnmatch.glob_match]. destruct s as [|d s].
    + split; [discriminate | intros [t [E _]]; discriminate].
    + rewrite andb_true_iff, Ascii.eqb_eq, IH. split.
      * intros [-> [t [-> H]]]. now exists t.
      * intros [t [E H]]. inversion E; subst. split; [reflexivity | now exists t].
Qed.

Lemma glob_lits_only suf s :
  Fnmatch.glob_match (map Fnmatch.Lit suf) s = true <-> s = suf.
Proof.
  rewrite <- (app_nil_r (map Fnmatch.Lit suf)), glob_lits. split.
  - intros [t [-> H]]. destruct t; [now rewrite app_nil_r | discriminate].
  - intros ->. exists []. now rewrite app_nil_r.
Qed.

Lemma glob_head_star_tail pre suf s :
  Fnmatch.glob_match (map Fnmatch.Lit pre ++ Fnmatch.Star :: map Fnmatch.Lit suf) s
  = true
  <-> exists mid, s = pre ++ mid ++ suf.
Proof.
  rewrite glob_lits. split.
  - intros [t [-> H]]. apply glob_star in H. destruct H as [a [b [-> H]]].
    apply glob_lits_only in H. subst b. now exists a.
  - intros [mid ->]. exists (mid ++ suf). split; [reflexivity|].
    apply glob_star. exists mid, suf. split; [reflexivity|].
    now apply glob_lits_only.
Qed.

(** *** Lower-cased names under [normcase] *)

Lemma lower_char_idem c : Py.lower_char (Py.lower_char c) = Py.lower_char c.
Proof. destruct c as [[] [] [] [] [] [] [] []]; reflexivity. Qed.

Lemma lower_is_lower filename :
  Forall (fun c => Py.lower_char c = c) (chars (Py.lower filename)).
Proof.
  unfold Py.lower. rewrite chars_map_chars. apply Forall_forall.
  intros c Hc. apply in_map_iff in Hc. destruct Hc as [c0 [<- _]].
  apply lower_char_idem.
Qed.

Lemma normcase_stable o c x :
  Py.lower_char c = c -> x <> "\"%char -> Fnmatch.normcase_char o c = x -> c = x.
Proof.
  intros Hc Hx. destruct o; simpl; [auto|].
  destruct (Ascii.eqb c "/"); congruence.
Qed.

Lemma map_normcase_stable o l : forall p,
  Forall (fun c => Py.lower_char c = c) l ->
  ~ In "\"%char p ->
  map (Fnmatch.normcase_char o) l = p -> l = p.
Proof.
  induction l as [|c l IH]; intros p Hl Hp E; simpl in E; [assumption|].
  destruct p as [|x p]; [discriminate|].
  injection E as Ex Ep. inversion Hl as [|? ? Hc Hl']; subst.
  f_equal.
  - apply (normcase_stable o); [assumption | | reflexivity].
    intros Hx. apply Hp. left. now rewrite Hx.
  - apply IH; [assumption | | reflexivity].
    intros Hin. apply Hp. now right.
Qed.

Section LiteralHead.
Variable o : os_name.
Variable pre : list ascii.
Local Abbreviation suf := (list_ascii_of_string ".ymap").
Hypothesis pre_fixed : map (Fnmatch.normcase_char o) pre = pre.
Hypothesis pre_no_backslash : ~ In "\"%char pre.
Hypothesis pre_no_dot : ~ In "."%char pre.

Lemma suf_fixed : map (Fnmatch.normcase_char o) suf = suf.
Proof. now destruct o. Qed.

Lemma suf_no_backslash : ~ In "\"%char suf.
Proof. simpl. intuition discriminate. Qed.

Lemma head_star_tail_lower l :
  Forall (fun c => Py.lower_char c = c) l ->
  (exists mid, map (Fnmatch.normcase_char o) l = pre ++ mid ++ suf)
  <-> (exists t, l = pre ++ t) /\ (exists u, l = u ++ suf).
Proof.
  intros Hl. split.
  - intros [mid E].
    apply map_eq_app in E. destruct E as [l1 [l23 [-> [E1 E23]]]].
    apply map_eq_app in E23. destruct E23 as [l2 [l3 [-> [E2 E3]]]].
    apply Forall_app in Hl. destruct Hl as [Hl1 Hl23].
    apply Forall_app in Hl23. destruct Hl23 as [Hl2 Hl3].
    apply map_normcase_stable in E1; [|assumption|assumption].
    apply map_normcase_stable in E3; [|assumption|apply suf_no_backslash].
    subst l1 l3. split.
    + now exists (l2 ++ suf).
    + exists (pre ++ l2). now rewrite <- app_assoc.
  - intros [[t Et] [u Eu]].
    assert (Hmid : exists mid, t = mid ++ suf).
    { rewrite Et in Eu. apply app_eq_app in Eu.
      destruct Eu as [k [[Epre Esuf]|[Eu Et']]].
      - destruct k as [|x k].
        + exists []. now rewrite Esuf.
        + exfalso. apply pre_no_dot. rewrite Epre.
          apply in_or_app. right. left.
          simpl in Esuf. congruence.
      - now exists k. }
    destruct Hmid as [mid ->]. subst l.
    exists (map (Fnmatch.normcase_char o) mid).
    now rewrite !map_app, pre_fixed, suf_fixed.
Qed.

End LiteralHead.

Lemma fnmatch_head_star_ymap o name head :
  Fnmatch.translate 0 (chars (Fnmatch.normcase o (head ++ "*.ymap")))
  = map Fnmatch.Lit (chars head) ++ Fnmatch.Star :: map Fnmatch.Lit (chars ".ymap") ->
  map (Fnmatch.normcase_char o) (chars head) = chars head ->
  ~ In "\"%char (chars head) ->
  ~ In "."%char (chars head) ->
  Forall (fun c => Py.lower_char c = c) (chars name) ->
  Fnmatch.fnmatch o name (head ++ "*.ymap") = true
  <-> Py.startswith name head = true /\ Py.endswith name ".ymap" = true.
Proof.
  intros Htr Hfix Hbs Hdot Hlow.
  unfold Fnmatch.fnmatch, Fnmatch.fnmatchcase. rewrite Htr.
  rewrite glob_head_star_tail. unfold Fnmatch.normcase.
  rewrite chars_map_chars.
  rewrite (head_star_tail_lower o (chars head) Hfix Hbs Hdot _ Hlow).
  now rewrite startswith_spec, endswith_spec.
Qed.

Lemma fnmatch_lodlights o filename :
  Fnmatch.fnmatch o (Py.lower filename) "lodlights*.ymap" = true
  <-> Py.startswith (Py.lower filename) "lodlights" = true
      /\ Py.endswith (Py.lower filename) ".ymap" = true.
Proof.
  apply (fnmatch_head_star_ymap o (Py.lower filename) "lodlights").
  - now destruct o.
  - now destruct o.
  - simpl. intuition discriminate.
  - simpl. intuition discriminate.
  - apply lower_is_lower.
Qed.

Lemma fnmatch_vw o filename :
  Fnmatch.fnmatch o (Py.lower filename) "vw_*.ymap" = true
  <-> Py.startswith (Py.lower filename) "vw_" = true
      /\ Py.endswith (Py.lower filename) ".ymap" = true.
Proof.
  apply (fnmatch_head_star_ymap o (Py.lower filename) "vw_").
  - now destruct o.
  - now destruct o.
  - simpl. intuition discriminate.
  - simpl. intuition discriminate.
  - apply lower_is_lower.
Qed.

(** the light-map test of the v2 file is the light-map rule *)
Lemma light_map_v2 o filename :
  Py.endswith (Py.lower filename) ".ymap"
  && (Py.startswith (Py.lower filename) "lodlights"
      || Py.startswith (Py.lower filename) "vw_")
  = light_map o (Py.lower filename).
Proof.
  unfold light_map. apply eq_true_iff_eq.
  rewrite !andb_true_iff, !orb_true_iff, fnmatch_lodlights, fnmatch_vw.
  tauto.
Qed.

Lemma is_lightmap_spec o lightmap_exclusion name :
  Core.is_lightmap o lightmap_exclusion name
  = lightmap_exclusion && light_map o name.
Proof.
  unfold Core.is_lightmap, light_map, Core.lightmap_patterns. cbn [existsb].
  now rewrite orb_false_r, andb_assoc.
Qed.

Lemma In_v2_collect w directory files_to_search ignore_light_ymaps file_path :
  In file_path (CheckerV2.collect w directory files_to_search ignore_light_ymaps) <->
  exists entry filename,
    In entry (os_walk w directory) /\ In filename (snd entry)
    /\ existsb (Fnmatch.fnmatch (os w) (Py.lower filename))
               (CheckerV2.or_empty files_to_search) = true
    /\ ignore_light_ymaps && light_map (os w) (Py.lower filename) = false
    /\ file_path
       = CheckerV2.normpath w (OsPath.join (OsPath.mk directory (fst entry)) filename).
Proof.
  unfold CheckerV2.collect. rewrite in_flat_map. split.
  - intros [entry [Hentry H]]. apply in_flat_map in H.
    destruct H as [filename [Hfile H]]. exists entry, filename.
    destruct (existsb _ (CheckerV2.or_empty files_to_search)); [|contradiction].
    rewrite <- andb_assoc, (light_map_v2 (os w)) in H.
    destruct (ignore_light_ymaps && light_map (os w) (Py.lower filename));
      [contradiction|].
    destruct H as [<-|[]]. auto.
  - intros [entry [filename [Hentry [Hfile [Hm [Hl ->]]]]]].
    exists entry. split; [assumption|]. apply in_flat_map.
    exists filename. split; [assumption|].
    rewrite Hm, <- andb_assoc, (light_map_v2 (os w)), Hl. now left.
Qed.

Lemma join_inj directory folder filename folder' filename' :
  OsPath.join (OsPath.mk directory folder) filename
  = OsPath.join (OsPath.mk directory folder') filename' ->
  filename = filename'.
Proof.
  unfold OsPath.join. cbn [OsPath.top OsPath.names]. intros E.
  injection E as E. now apply app_inj_tail in E.
Qed.

Lemma v3_resource_name_of o directory folder :
  Forall (fun name => plain_name o name = true) folder ->
  CheckerV3.resource_name_of o (OsPath.mk directory folder)
  = match folder with
    | [] => "."
    | first :: _ => first
    end.
Proof.
  intros Hall. unfold CheckerV3.resource_name_of, OsPath.relpath.
  cbn [OsPath.names].
  destruct folder as [|first rest]; [now destruct o|].
  rewrite split_join; [reflexivity | discriminate |].
  eapply Forall_impl; [|exact Hall]. intros name H.
  now apply plain_name_spec in H.
Qed.

Lemma In_v3_collect w directory file_patterns lightmap_exclusion file_data :
  In file_data (CheckerV3.collect w directory file_patterns lightmap_exclusion) ->
  exists entry filename,
    In entry (os_walk w directory) /\ In filename (snd entry)
    /\ file_data
       = {| FileData.path := OsPath.join (OsPath.mk directory (fst entry)) filename;
            FileData.filename_lower := Py.lower filename;
            FileData.resource :=
              CheckerV3.resource_name_of (os w) (OsPath.mk directory (fst entry)) |}.
Proof.
  unfold CheckerV3.collect. rewrite in_flat_map.
  intros [entry [Hentry H]]. apply in_flat_map in H.
  destruct H as [filename [Hfile H]]. exists entry, filename.
  destruct (Core.is_lightmap (os w) lightmap_exclusion (Py.lower filename));
    [contradiction|].
  destruct (existsb _ file_patterns); [|contradiction].
  destruct H as [<-|[]]. auto.
Qed.

Lemma split_join_first sep first second rest :
  has_char sep first = false ->
  hd_error (Py.split sep (Py.join (String sep EmptyString) (first :: second :: rest)))
  = Some first.
Proof.
  intros H.
  change (Py.join (String sep EmptyString) (first :: second :: rest))
    with (first ++ String sep
                     (Py.join (String sep EmptyString) (second :: rest)))%string.
  now rewrite split_app_sep.
Qed.

(** C4, as the code has it.  With folder names as a walk yields them,
    the resource of a file below a subfolder is, in each of the three
    variants, the first name of its path relative to the scanned folder.
    In the progress-reporting variant the resource of a file right in
    the scanned folder is [ROOT_DIR]. *)
Theorem C4_resource_name w directory :
  (forall entry, In entry (os_walk w directory) ->
                 Forall (fun name => plain_name (os w) name = true) (fst entry)) ->
  (forall file_patterns lightmap_exclusion file_data,
      In file_data (Gui.collect w directory file_patterns lightmap_exclusion) ->
      resource_rule file_data)
  /\ (forall file_patterns lightmap_exclusion file_data,
        In file_data (CheckerV3.collect w directory file_patterns lightmap_exclusion) ->
        below_subfolder_rule (OsPath.names (FileData.path file_data))
                             (FileData.resource file_data))
  /\ (forall files_to_search ignore_light_ymaps file_path filename info,
        In file_path
           (CheckerV2.collect w directory files_to_search ignore_light_ymaps) ->
        record_of_v2 w file_path = Some (filename, info) ->
        below_subfolder_rule (OsPath.names (OsPath.file file_path))
                             (Info.resource info)).
Proof.
  intros Hwalk. split; [|split].
  - intros file_patterns lightmap_exclusion file_data Hin.
    apply In_gui_collect in Hin.
    destruct Hin as [entry [filename [Hentry [_ [_ [_ ->]]]]]].
    unfold resource_rule.
    cbn [FileData.path FileData.resource OsPath.join OsPath.names OsPath.top].
    rewrite gui_resource_name_of by now apply Hwalk.
    destruct (fst entry) as [|first rest]; [reflexivity|].
    destruct rest; reflexivity.
  - intros file_patterns lightmap_exclusion file_data Hin.
    apply In_v3_collect in Hin.
    destruct Hin as [entry [filename [Hentry [_ ->]]]].
    cbn [FileData.path FileData.resource OsPath.join OsPath.names OsPath.top].
    rewrite v3_resource_name_of by now apply Hwalk.
    destruct (fst entry) as [|first rest]; [exact I|].
    destruct rest; reflexivity.
  - intros files_to_search ignore_light_ymaps file_path filename info Hin Hrec.
    apply In_v2_collect in Hin.
    destruct Hin as [entry [name [Hentry [_ [_ [_ ->]]]]]].
    unfold record_of_v2 in Hrec.
    destruct (Core.get_file_hash w _); [|discriminate].
    destruct (Py.truthy (Some s)); [|discriminate].
    injection Hrec as _ <-.
    cbn [Info.resource CheckerV2.normpath OsPath.file OsPath.join
         OsPath.names OsPath.top].
    specialize (Hwalk entry Hentry).
    destruct (fst entry) as [|first rest]; [exact I|].
    inversion Hwalk as [|? ? Hfirst _]; subst.
    apply plain_name_spec in Hfirst. destruct Hfirst as [Hfirst _].
    unfold OsPath.relpath. cbn [OsPath.names OsPath.join OsPath.top app].
    destruct (rest ++ [name]) as [|second more] eqn:E.
    { now destruct rest. }
    cbn [below_subfolder_rule].
    pose proof (split_join_first (sep_of (os w)) first second more Hfirst) as Hhd.
    destruct (Py.split (sep_of (os w))
                (Py.join (String (sep_of (os w)) EmptyString)
                         (first :: second :: more)));
      cbn [hd_error] in Hhd; congruence.
Qed.

(** C3.  With the light-map exclusion on, a file whose lower-cased name
    ends with [.ymap] and matches [lodlights*.ymap] or [vw_*.ymap] is
    left out of the walk output, whatever the include patterns and their
    order.  A file whose name does not fall under the light-map rule, a
    [.ymap] file that matches neither pattern for one, is in the walk
    output as soon as an include pattern matches it. *)
Theorem C3_light_maps_excluded w directory entry filename :
  In entry (os_walk w directory) ->
  In filename (snd entry) ->
  let root := OsPath.mk directory (fst entry) in
  let file_path := OsPath.join root filename in
  let name := Py.lower filename in
  (light_map (os w) name = true ->
   forall file_patterns,
     (forall file_data,
         In file_data (Gui.collect w directory file_patterns true) ->
         FileData.path file_data <> file_path)
     /\ (forall files_to_search,
            ~ In file_path
                 (map OsPath.file
                      (CheckerV2.collect w directory files_to_search true))))
  /\ (light_map (os w) name = false ->
      forall file_patterns lightmap_exclusion,
        existsb (Fnmatch.fnmatch (os w) name) file_patterns = true ->
        In {| FileData.path := file_path;
              FileData.filename_lower := name;
              FileData.resource := Gui.resource_name_of (os w) root |}
           (Gui.collect w directory file_patterns lightmap_exclusion)
        /\ In (CheckerV2.normpath w file_path)
              (CheckerV2.collect w directory (Some file_patterns)
                 lightmap_exclusion)).
Proof.
  intros Hentry Hfile root file_path name. split.
  - intros Hlight file_patterns. split.
    + intros file_data Hin Epath. apply In_gui_collect in Hin.
      destruct Hin as [entry' [filename' [_ [_ [Hl [_ ->]]]]]].
      cbn [FileData.path] in Epath. apply join_inj in Epath. subst filename'.
      rewrite is_lightmap_spec in Hl. fold name in Hl. now rewrite Hlight in Hl.
    + intros files_to_search Hin. apply in_map_iff in Hin.
      destruct Hin as [normal [Epath Hin]]. apply In_v2_collect in Hin.
      destruct Hin as [entry' [filename' [_ [_ [_ [Hl ->]]]]]].
      cbn [CheckerV2.normpath OsPath.file] in Epath.
      apply join_inj in Epath. subst filename'.
      fold name in Hl. now rewrite Hlight in Hl.
  - intros Hlight file_patterns lightmap_exclusion Hmatch. split.
    + apply In_gui_collect. exists entry, filename.
      rewrite is_lightmap_spec. fold name. rewrite Hlight, andb_false_r.
      repeat split; assumption.
    + apply In_v2_collect. exists entry, filename.
      fold name. rewrite Hlight, andb_false_r.
      repeat split; assumption.
Qed.

End WalkClaims.

(** ** The claims on concrete worlds *)

Section Instances.
Import Notions.

(** The scenario of the specification: three files of one name, two of
    them alike, make one conflict group of three records. *)
Lemma C1_witness :
  let w := Scenario.buildings in
  let recs := records w (Gui.collect w "resources" ["*.ymap"] false) in
  let res := fst (fst (fst (Gui.find_collisions w "resources" ["*.ymap"] false
                              (@None (@Gui.callback unit)) tt))) in
  scan w recs res
  /\ (2 <= List.length (group_of recs "building.ymap"))%nat
  /\ List.length (group_of recs "building.ymap") = 3%nat
  /\ conflicts_at res ".YMAP" "building.ymap" = Some (group_of recs "building.ymap")
  /\ forall e, duplicates_at res e "building.ymap" = None.
Proof.
  intros w recs res.
  assert (Hscan : scan w recs res) by apply scan_gui.
  assert (Hsize : (2 <= List.length (group_of recs "building.ymap"))%nat)
    by (vm_compute; lia).
  split; [exact Hscan|]. split; [exact Hsize|]. split; [reflexivity|].
  destruct (C1_group_classified_as_a_whole w recs res "building.ymap" Hscan Hsize)
    as [[_ [Hc [_ Hd]]] | [Hone _]].
  - split; [exact Hc | exact Hd].
  - exfalso.
    pose (info := fun r text =>
            {| Info.path := ("res" ++ r ++ "/building.ymap")%string;
               Info.hash := Scenario.toy_md5 (list_byte_of_string text);
               Info.resource := ("res" ++ r)%string |}).
    assert (E : Info.hash (info "A" "one") = Info.hash (info "C" "two")).
    { apply Hone; vm_compute; auto. }
    vm_compute in E. discriminate.
Defined.

Lemma C2_witness :
  let w := Scenario.buildings in
  let recs := records w (Gui.collect w "resources" ["*.ymap"] false) in
  let res := fst (fst (fst (Gui.find_collisions w "resources" ["*.ymap"] false
                              (@None (@Gui.callback unit)) tt))) in
  scan w recs res
  /\ conflicts_at res ".YMAP" "building.ymap" = Some (group_of recs "building.ymap")
  /\ (2 <= List.length (group_of recs "building.ymap"))%nat
  /\ forall e1 e2,
       conflicts_at res e1 "building.ymap" = None
       \/ duplicates_at res e2 "building.ymap" = None.
Proof.
  intros w recs res.
  assert (Hscan : scan w recs res) by apply scan_gui.
  assert (Hin : conflicts_at res ".YMAP" "building.ymap"
                = Some (group_of recs "building.ymap")) by reflexivity.
  split; [exact Hscan|]. split; [exact Hin|].
  exact (C2_reported_groups_disjoint_and_backed w recs res ".YMAP" "building.ymap"
           (group_of recs "building.ymap") Hscan (or_introl Hin)).
Defined.

Lemma C9_witness :
  let w := Scenario.twins in
  let recs := records_v2 w (CheckerV2.collect w "resources" (Some ["*.ydr"]) false) in
  let res := fst (fst (CheckerV2.find_collisions w "resources" (Some ["*.ydr"]) None)) in
  let infos :=
    [ {| Info.path := "resources/resA/Prop.YDR";
         Info.hash := "6f6e6500000000000000000000000000";
         Info.resource := "resA" |};
      {| Info.path := "resources/resB/prop.ydr";
         Info.hash := "6f6e6500000000000000000000000000";
         Info.resource := "resB" |} ] in
  scan w recs res
  /\ duplicates_at res ".YDR" "prop.ydr" = Some infos
  /\ infos = map snd (filter (fun r => String.eqb (fst r) "prop.ydr") recs)
  /\ hd_error infos
     = option_map snd (find (fun r => String.eqb (fst r) "prop.ydr") recs).
Proof.
  intros w recs res infos.
  assert (Hscan : scan w recs res) by apply (scan_v2 w "resources" (Some ["*.ydr"]) None).
  assert (Hin : duplicates_at res ".YDR" "prop.ydr" = Some infos) by reflexivity.
  split; [exact Hscan|]. split; [exact Hin|].
  exact (C9_group_in_discovery_order w recs res ".YDR" "prop.ydr" infos Hscan
           (or_intror Hin)).
Defined.

Lemma C3_witness :
  let w := Scenario.lights in
  let entry := (["maps"], ["lodlights_01.ymap"; "vw_lights.ymap"; "normal.ymap"]) in
  let light := OsPath.join (OsPath.mk "resources" ["maps"]) "lodlights_01.ymap" in
  In entry (os_walk w "resources")
  /\ In "lodlights_01.ymap" (snd entry)
  /\ In "normal.ymap" (snd entry)
  /\ (forall file_data,
         In file_data (Gui.collect w "resources" ["*.ymap"] true) ->
         FileData.path file_data <> light)
  /\ ~ In light
          (map OsPath.file (CheckerV2.collect w "resources" (Some ["*.ymap"]) true))
  /\ In (CheckerV2.normpath w
          (OsPath.join (OsPath.mk "resources" ["maps"]) "normal.ymap"))
        (CheckerV2.collect w "resources" (Some ["*.ymap"]) true).
Proof.
  intros w entry light.
  assert (Hentry : In entry (os_walk w "resources")) by (right; left; reflexivity).
  assert (Hlight : In "lodlights_01.ymap" (snd entry)) by (left; reflexivity).
  assert (Hnormal : In "normal.ymap" (snd entry)) by (right; right; left; reflexivity).
  split; [exact Hentry|]. split; [exact Hlight|]. split; [exact Hnormal|].
  destruct (C3_light_maps_excluded w "resources" entry "lodlights_01.ymap"
              Hentry Hlight) as [Hout _].
  destruct (C3_light_maps_excluded w "resources" entry "normal.ymap"
              Hentry Hnormal) as [_ Hkept].
  split; [|split].
  - apply (Hout eq_refl ["*.ymap"]).
  - apply (Hout eq_refl ["*.ymap"]).
  - apply (Hkept eq_refl ["*.ymap"] true eq_refl).
Defined.

(** A file below a subfolder that is called [ROOT_DIR] gets the resource
    of the files right in the scanned folder. *)
Lemma C4_counterexample :
  ~ (forall file_data,
        In file_data (Gui.collect Scenario.rootdir "resources" ["*.ymap"] false) ->
        claimed_resource_rule file_data).
Proof.
  intros H.
  assert (Hin : In {| FileData.path := OsPath.mk "resources" ["ROOT_DIR"; "b.ymap"];
                      FileData.filename_lower := "b.ymap";
                      FileData.resource := "ROOT_DIR" |}
                   (Gui.collect Scenario.rootdir "resources" ["*.ymap"] false))
    by (right; left; reflexivity).
  apply H in Hin. unfold claimed_resource_rule in Hin. simpl in Hin.
  destruct Hin as [_ Hne]. now apply Hne.
Qed.

Lemma C4_witness :
  let w := Scenario.rootdir in
  let in_root := {| FileData.path := OsPath.mk "resources" ["a.ymap"];
                    FileData.filename_lower := "a.ymap";
                    FileData.resource := "ROOT_DIR" |} in
  let below := {| FileData.path := OsPath.mk "resources" ["ROOT_DIR"; "b.ymap"];
                  FileData.filename_lower := "b.ymap";
                  FileData.resource := "ROOT_DIR" |} in
  let below_v2 := CheckerV2.normpath w (FileData.path below) in
  let info := {| Info.path := "resources/ROOT_DIR/b.ymap";
                 Info.hash := Scenario.toy_md5 (list_byte_of_string "one");
                 Info.resource := "ROOT_DIR" |} in
  (forall entry, In entry (os_walk w "resources") ->
                 Forall (fun name => plain_name (os w) name = true) (fst entry))
  /\ In in_root (Gui.collect w "resources" ["*.ymap"] false)
  /\ In below (CheckerV3.collect w "resources" ["*.ymap"] false)
  /\ In below_v2 (CheckerV2.collect w "resources" (Some ["*.ymap"]) false)
  /\ record_of_v2 w below_v2 = Some ("b.ymap", info)
  /\ resource_rule in_root
  /\ below_subfolder_rule (OsPath.names (FileData.path below))
                          (FileData.resource below)
  /\ below_subfolder_rule (OsPath.names (OsPath.file below_v2)) (Info.resource info).
Proof.
  intros w in_root below below_v2 info.
  assert (Hwalk : forall entry, In entry (os_walk w "resources") ->
                    Forall (fun name => plain_name (os w) name = true) (fst entry)).
  { intros entry [<-|[<-|[]]]; repeat constructor. }
  assert (Hin : In in_root (Gui.collect w "resources" ["*.ymap"] false))
    by (left; reflexivity).
  assert (Hin3 : In below (CheckerV3.collect w "resources" ["*.ymap"] false))
    by (right; left; reflexivity).
  assert (Hin2 : In below_v2
                    (CheckerV2.collect w "resources" (Some ["*.ymap"]) false))
    by (right; left; reflexivity).
  assert (Hrec : record_of_v2 w below_v2 = Some ("b.ymap", info)) by reflexivity.
  split; [exact Hwalk|]. split; [exact Hin|]. split; [exact Hin3|].
  split; [exact Hin2|]. split; [exact Hrec|].
  destruct (C4_resource_name w "resources" Hwalk) as [Hgui [Hv3 Hv2]].
  split; [exact (Hgui ["*.ymap"] false in_root Hin)|].
  split; [exact (Hv3 ["*.ymap"] false below Hin3)|].
  exact (Hv2 (Some ["*.ymap"]) false below_v2 "b.ymap" info Hin2 Hrec).
Defined.

(** The other two variants on a file right in the scanned folder: the
    v3 checker yields the name [.], the v2 file the name of the file. *)
Example root_file_resource_other_variants :
  map FileData.resource
      (CheckerV3.collect Scenario.rootdir "resources" ["*.ymap"] false)
  = ["."; "ROOT_DIR"]
  /\ map (fun r => Info.resource (snd r))
         (records_v2 Scenario.rootdir
            (CheckerV2.collect Scenario.rootdir "resources" (Some ["*.ymap"]) false))
     = ["a.ymap"; "ROOT_DIR"].
Proof. split; reflexivity. Qed.

(** The v2 file counts two conflicts for one group of two contents. *)
Lemma C5_counterexample :
  let w := Scenario.buildings in
  let recs := records_v2 w (CheckerV2.collect w "resources" (Some ["*.ymap"]) false) in
  let total_conflicts :=
    snd (fst (CheckerV2.find_collisions w "resources" (Some ["*.ymap"]) None)) in
  count_groups has_distinct_hashes (file_info_dict recs) = 1%nat
  /\ total_conflicts = 2%nat
  /\ total_conflicts <> count_groups has_distinct_hashes (file_info_dict recs).
Proof. vm_compute. repeat split; discriminate. Qed.

Lemma C5_witness :
  let w := Scenario.buildings in
  let recs := records w (Gui.collect w "resources" ["*.ymap"] false) in
  let res := fst (fst (fst (Gui.find_collisions w "resources" ["*.ymap"] false
                              (@None (@Gui.callback unit)) tt))) in
  scan w recs res
  /\ Gui.total_conflicts res = 1%nat
  /\ Gui.total_duplicates res = 0%nat
  /\ Gui.total_conflicts res = count_groups has_distinct_hashes (file_info_dict recs)
  /\ Gui.total_duplicates res = count_groups repeats_one_hash (file_info_dict recs).
Proof.
  intros w recs res.
  assert (Hscan : scan w recs res) by apply scan_gui.
  split; [exact Hscan|]. split; [reflexivity|]. split; [reflexivity|].
  destruct (C5_counters w recs res Hscan) as [Hc [Hd _]].
  split; [exact Hc | exact Hd].
Defined.

Lemma C6_witness :
  let w := Scenario.locked in
  let file r := {| FileData.path := OsPath.mk "resources" [r; "building.ymap"];
                   FileData.filename_lower := "building.ymap";
                   FileData.resource := r |} in
  let out := Gui.find_collisions w "resources" ["*.ymap"] false
               (Some record_percentage) [] in
  Gui.collect w "resources" ["*.ymap"] false = [file "resA"] ++ file "resB" :: [file "resC"]
  /\ Core.hash_file w (FileData.path (file "resB")) = Raise (OSError PermissionError)
  /\ Core.get_file_hash w (FileData.path (file "resB")) = None
  /\ fst (fst (fst out))
     = Core.classify (os w) (file_info_dict (records w [file "resA"; file "resC"]))
  /\ snd out = [5; 36; 63; 90; 95]%Z.
Proof.
  intros w file out.
  assert (Hlist : Gui.collect w "resources" ["*.ymap"] false
                  = [file "resA"] ++ file "resB" :: [file "resC"]) by reflexivity.
  assert (Hfail : Core.hash_file w (FileData.path (file "resB"))
                  = Raise (OSError PermissionError)) by reflexivity.
  split; [exact Hlist|]. split; [exact Hfail|].
  destruct (C6_unreadable_file_is_skipped w "resources" ["*.ymap"] false
              (Some record_percentage) [] [file "resA"] (file "resB") [file "resC"]
              (OSError PermissionError) Hlist Hfail)
    as [Hnone [_ [Hres _]]].
  split; [exact Hnone|]. split; [exact Hres | reflexivity].
Defined.

Lemma C8_witness :
  let w := Scenario.buildings in
  fst (Gui.find_collisions w "resources" ["*.ymap"] false
         (@None (@Gui.callback unit)) tt)
  = fst (Gui.find_collisions w "resources" ["*.ymap"] false
           (Some record_percentage) [])
  /\ snd (Gui.find_collisions w "resources" ["*.ymap"] false
            (@None (@Gui.callback unit)) tt)
     = tt.
Proof.
  exact (C8_callback_does_not_alter_result Scenario.buildings "resources"
           ["*.ymap"] false record_percentage [] tt).
Defined.

(** A scan that finds no file ends on 100. *)
Example empty_scan_ends_on_100 :
  snd (Gui.find_collisions Scenario.empty "resources" ["*.ymap"] true
         (Some record_percentage) [])
  = [5; 100]%Z.
Proof. reflexivity. Qed.

(** A scan that hashes files ends on 95. *)
Lemma C7_counterexample :
  let percentages :=
    snd (Gui.find_collisions Scenario.buildings "resources" ["*.ymap"] false
           (Some record_percentage) []) in
  percentages = [5; 36; 63; 90; 95]%Z
  /\ ~ (non_decreasing percentages /\ last percentages 0%Z = 100%Z).
Proof.
  split; [reflexivity|]. intros [_ H]. vm_compute in H. discriminate.
Qed.

Lemma exact_rounds_like_ieee : rounds_like_ieee Scenario.exact.
Proof.
  constructor; unfold Scenario.exact; [auto | reflexivity ..].
Defined.

Lemma C7_witness :
  let w := Scenario.buildings in
  let percentages :=
    snd (Gui.find_collisions w "resources" ["*.ymap"] false
           (Some record_percentage) []) in
  rounds_like_ieee (float_round w)
  /\ non_decreasing percentages
  /\ last percentages 0%Z = 95%Z.
Proof.
  intros w percentages.
  split; [exact exact_rounds_like_ieee|].
  exact (C7_percentages_never_decrease w "resources" ["*.ymap"] false
           exact_rounds_like_ieee).
Defined.

(** The summary of the v3 checker on two buckets: the totals passed in
    are 2 and 1, the summary prints those of the bucket [.YMAP]. *)
Lemma C10_witness :
  let group := [ {| Info.path := "a"; Info.hash := "1"; Info.resource := "r" |};
                 {| Info.path := "b"; Info.hash := "2"; Info.resource := "s" |} ] in
  let categorized_results :=
    [ (".YMAP", {| conflicts := []; duplicates := [("m.ymap", group)] |});
      (".YBN", {| conflicts := [("x.ybn", group); ("y.ybn", group)];
                  duplicates := [] |}) ] in
  exists lines,
    CheckerV3._generate_lua_report Scenario.buildings "resources"
      categorized_results 2 1 ["*.ymap"; "*.ybn"] []
    = Ok (Py.join CheckerV3.newline
            (lines
               ++ [ CheckerV3.newline;
                    "-- --- Final Summary ---";
                    "-- Total Critical Conflicts Found: 0";
                    "-- Total Redundant Duplicates Found: 1";
                    "-- ###################################################" ])).
Proof.
  intros group categorized_results.
  destruct (proj2 (C10_lua_summary_reads_loop_variable Scenario.buildings "resources"
                     ["*.ymap"; "*.ybn"] [])
                  categorized_results ltac:(discriminate))
    as [ext [data [lines [Elast [_ [_ H]]]]]].
  exists lines. vm_compute in Elast. injection Elast as <- <-. apply H.
Defined.

End Instances.


(** * Further properties of the code *)

(** ** [get_file_hash] *)

Section HashFacts.

Lemma read_chunks_all reads : forall failure hash_md5,
  Forall (fun chunk => chunk <> []) reads ->
  Core.read_chunks reads failure hash_md5
  = match failure with
    | Some e => Raise (OSError e)
    | None => Ok (hash_md5 ++ List.concat reads)
    end.
Proof.
  induction reads as [|chunk reads IH]; intros failure hash_md5 Hall; simpl.
  - destruct failure; [reflexivity | now rewrite app_nil_r].
  - inversion Hall as [|? ? Hchunk Hreads]; subst.
    destruct chunk as [|b chunk]; [congruence|].
    rewrite IH by assumption. unfold Core.md5_update.
    destruct failure; [reflexivity | now rewrite app_assoc].
Qed.

(** X1.  The hash of a file that is read to its end depends on the bytes
    read only, not on how [read] cut them into chunks. *)
Theorem X1_hash_independent_of_chunking w path1 path2 reads1 reads2 :
  file_read w path1 = Opened reads1 None ->
  file_read w path2 = Opened reads2 None ->
  Forall (fun chunk => chunk <> []) reads1 ->
  Forall (fun chunk => chunk <> []) reads2 ->
  List.concat reads1 = List.concat reads2 ->
  Core.get_file_hash w path1 = Some (md5_hexdigest w (List.concat reads1))
  /\ Core.get_file_hash w path2 = Core.get_file_hash w path1.
Proof.
  intros H1 H2 Hall1 Hall2 E.
  unfold Core.get_file_hash, Core.hash_file. rewrite H1, H2.
  rewrite !read_chunks_all by assumption. cbn [app]. now rewrite E.
Qed.

(** X2.  A file whose reading breaks off, at [open] or at any later
    [read], has no hash: the bytes read before the failure are never
    hashed on their own. *)
Theorem X2_no_hash_of_a_partial_read w path :
  (exists e, file_read w path = OpenFails e)
  \/ (exists reads e,
        file_read w path = Opened reads (Some e)
        /\ Forall (fun chunk => chunk <> []) reads) ->
  Core.get_file_hash w path = None.
Proof.
  unfold Core.get_file_hash, Core.hash_file.
  intros [[e ->] | [reads [e [-> Hall]]]]; [reflexivity|].
  now rewrite read_chunks_all.
Qed.

End HashFacts.

(** ** The walk *)

Section WalkFacts.
Import Notions.

Lemma filter_flat_map {A B} (p : B -> bool) (f : A -> list B) l :
  filter p (flat_map f l) = flat_map (fun a => filter p (f a)) l.
Proof.
  induction l as [|a l IH]; simpl; [reflexivity|].
  now rewrite filter_app, IH.
Qed.

Lemma map_flat_map {A B C} (g : B -> C) (f : A -> list B) l :
  map g (flat_map f l) = flat_map (fun a => map g (f a)) l.
Proof.
  induction l as [|a l IH]; simpl; [reflexivity|].
  now rewrite map_app, IH.
Qed.

(** X3.  The light-map exclusion only takes files away: the walk with the
    exclusion on yields the files of the walk with the exclusion off that
    do not fall under the light-map rule, in the same order. *)
Theorem X3_exclusion_filters_the_walk w directory file_patterns :
  Gui.collect w directory file_patterns true
  = filter (fun file_data =>
              negb (light_map (os w) (FileData.filename_lower file_data)))
           (Gui.collect w directory file_patterns false).
Proof.
  unfold Gui.collect. rewrite filter_flat_map.
  apply flat_map_ext. intros entry. rewrite filter_flat_map.
  apply flat_map_ext. intros filename.
  rewrite !is_lightmap_spec. cbn [andb].
  destruct (light_map (os w) (Py.lower filename)) eqn:E.
  - destruct (existsb _ file_patterns); [|reflexivity].
    cbn [filter FileData.filename_lower]. now rewrite E.
  - destruct (existsb _ file_patterns); [|reflexivity].
    cbn [filter FileData.filename_lower]. now rewrite E.
Qed.

Lemma existsb_same_elements {A} (f : A -> bool) l l' :
  (forall x, In x l <-> In x l') -> existsb f l = existsb f l'.
Proof.
  intros H. apply eq_true_iff_eq. rewrite !existsb_exists.
  split; intros [x [Hx Hf]]; exists x; split; try assumption; now apply H.
Qed.

(** X4.  The walk depends on the set of the include patterns only: two
    lists with the same patterns, in any order and with any repetitions,
    yield the same files in the same order. *)
Theorem X4_pattern_order_is_irrelevant
        w directory file_patterns file_patterns' lightmap_exclusion :
  (forall p, In p file_patterns <-> In p file_patterns') ->
  Gui.collect w directory file_patterns lightmap_exclusion
  = Gui.collect w directory file_patterns' lightmap_exclusion.
Proof.
  intros H. unfold Gui.collect.
  apply flat_map_ext. intros entry. apply flat_map_ext. intros filename.
  now rewrite (existsb_same_elements _ file_patterns file_patterns' H).
Qed.

Lemma collect_v2_paths w directory file_patterns lightmap_exclusion :
  CheckerV2.collect w directory (Some file_patterns) lightmap_exclusion
  = map (fun file_data => CheckerV2.normpath w (FileData.path file_data))
        (Gui.collect w directory file_patterns lightmap_exclusion).
Proof.
  unfold CheckerV2.collect, Gui.collect. rewrite !map_flat_map.
  apply flat_map_ext. intros entry. rewrite map_flat_map.
  apply flat_map_ext. intros filename. cbn [CheckerV2.or_empty].
  rewrite is_lightmap_spec, <- andb_assoc, (light_map_v2 (os w)).
  destruct (existsb _ file_patterns);
    destruct (lightmap_exclusion && light_map (os w) (Py.lower filename));
    reflexivity.
Qed.

Lemma collect_v3_same {A} (g : FileData.t -> A)
      w directory file_patterns lightmap_exclusion :
  (forall path filename_lower resource resource',
     g {| FileData.path := path; FileData.filename_lower := filename_lower;
          FileData.resource := resource |}
     = g {| FileData.path := path; FileData.filename_lower := filename_lower;
            FileData.resource := resource' |}) ->
  map g (CheckerV3.collect w directory file_patterns lightmap_exclusion)
  = map g (Gui.collect w directory file_patterns lightmap_exclusion).
Proof.
  intros Hg. unfold CheckerV3.collect, Gui.collect. rewrite !map_flat_map.
  apply flat_map_ext. intros entry. rewrite !map_flat_map.
  apply flat_map_ext. intros filename.
  destruct (Core.is_lightmap _ _ _); [reflexivity|].
  destruct (existsb _ file_patterns); [|reflexivity].
  cbn [map]. f_equal. apply Hg.
Qed.

(** X5.  The three variants find the same files in the same order: the
    paths of the v2 walk are, one by one, the paths of the walk of the
    progress-reporting variant put through [os.path.normpath], which
    changes how they are written and not where they lead; the paths and
    lower-cased names of the v3 checker walk are those of the walk of
    the progress-reporting variant as they stand. *)
Theorem X5_the_variants_walk_alike w directory file_patterns lightmap_exclusion :
  CheckerV2.collect w directory (Some file_patterns) lightmap_exclusion
  = map (fun file_data => CheckerV2.normpath w (FileData.path file_data))
        (Gui.collect w directory file_patterns lightmap_exclusion)
  /\ map OsPath.file
         (CheckerV2.collect w directory (Some file_patterns) lightmap_exclusion)
     = map FileData.path (Gui.collect w directory file_patterns lightmap_exclusion)
  /\ map FileData.path
         (CheckerV3.collect w directory file_patterns lightmap_exclusion)
     = map FileData.path (Gui.collect w directory file_patterns lightmap_exclusion)
  /\ map FileData.filename_lower
         (CheckerV3.collect w directory file_patterns lightmap_exclusion)
     = map FileData.filename_lower
           (Gui.collect w directory file_patterns lightmap_exclusion).
Proof.
  split; [apply collect_v2_paths|]. split.
  - rewrite collect_v2_paths, map_map. reflexivity.
  - split; apply collect_v3_same; reflexivity.
Qed.

End WalkFacts.

(** ** The progress reports *)

Section ProgressFacts.
Import Notions.

(** X6.  The callback is called once for every file that the walk found,
    hashed or not, and twice more: the number of reports of a scan is
    the number of files found plus two. *)
Theorem X6_number_of_progress_reports w directory file_patterns lightmap_exclusion :
  List.length
    (snd (Gui.find_collisions w directory file_patterns lightmap_exclusion
            (Some record_percentage) []))
  = (List.length (Gui.collect w directory file_patterns lightmap_exclusion) + 2)%nat.
Proof.
  rewrite recorded_percentages, length_map. unfold progress_reports.
  destruct (Nat.eqb_spec
              (List.length (Gui.collect w directory file_patterns lightmap_exclusion))
              0) as [E|E].
  - rewrite E. reflexivity.
  - cbn [List.length]. rewrite length_app, length_map, length_seq.
    cbn [List.length]. lia.
Qed.

(** X7.  When the rounding of floats keeps the order and is exact on 0, 1
    and 80, every percentage that a scan reports lies between 5 and 100. *)
Theorem X7_percentages_within_bounds w directory file_patterns lightmap_exclusion :
  rounds_like_ieee (float_round w) ->
  Forall (fun percentage => (5 <= percentage <= 100)%Z)
    (snd (Gui.find_collisions w directory file_patterns lightmap_exclusion
            (Some record_percentage) [])).
Proof.
  intros Hr. rewrite recorded_percentages. unfold progress_reports.
  set (n := List.length (Gui.collect w directory file_patterns lightmap_exclusion)).
  cbn [map fst]. constructor; [lia|].
  destruct (Nat.eqb_spec n 0) as [E|E].
  - cbn [map fst]. constructor; [lia | constructor].
  - rewrite map_app, map_map. cbn [map fst]. apply Forall_app. split.
    + apply Forall_forall. intros percentage Hin.
      apply in_map_iff in Hin. destruct Hin as [k [<- Hk]].
      apply in_seq in Hk. unfold Gui.percentage_of.
      pose proof (int_of_scaled_bounds (float_round w) Hr k n).
      lia.
    + constructor; [lia | constructor].
Qed.

End ProgressFacts.

(** ** The classification *)

Section ScanFacts.
Import Notions.

Lemma Forall_dalter {V} (P : string -> V -> Prop) dflt f k (d : dict V) :
  Forall (fun item => P (fst item) (snd item)) d ->
  P k (f dflt) ->
  (forall v, P k v -> P k (f v)) ->
  Forall (fun item => P (fst item) (snd item)) (dalter dflt f k d).
Proof.
  intros Hd Hnew Hupd.
  induction d as [|[k' v] d IH]; cbn [dalter].
  - constructor; [assumption | constructor].
  - inversion Hd as [|? ? Hv Hd']; subst. cbn [fst snd] in Hv.
    destruct (String.eqb_spec k k') as [->|Hk].
    + constructor; [now apply Hupd | assumption].
    + constructor; [assumption | now apply IH].
Qed.

Lemma dalter_not_nil {V} dflt f k (d : dict V) : dalter dflt f k d <> [].
Proof.
  destruct d as [|[k' v] d]; cbn [dalter]; [discriminate|].
  destruct (String.eqb k k'); discriminate.
Qed.

Lemma bucket_ok_classify_step o acc item :
  NoDup (keys acc) ->
  Forall (fun entry => More.bucket_ok o (fst entry) (snd entry)) acc ->
  NoDup (keys (Core.classify_step o acc item))
  /\ Forall (fun entry => More.bucket_ok o (fst entry) (snd entry))
            (Core.classify_step o acc item).
Proof.
  intros Hnd Hok. destruct item as [filename infos]. unfold Core.classify_step.
  fold (extension_of o filename).
  destruct (1 <? List.length infos)%nat; [|auto].
  destruct (1 <? List.length (Core.unique_hashes infos))%nat.
  - unfold Core.extend_conflicts. split; [now apply NoDup_keys_dalter|].
    apply Forall_dalter; [assumption| |].
    + unfold More.bucket_ok. cbn.
      repeat split; try (repeat constructor; simpl; tauto).
      left. discriminate.
    + intros data [Hc [Hd [Hne Hext]]]. unfold More.bucket_ok.
      cbn [conflicts duplicates].
      split; [now apply NoDup_keys_dalter|]. split; [assumption|].
      split; [left; apply dalter_not_nil|].
      apply Forall_app in Hext. destruct Hext as [Hec Hed].
      apply Forall_app. split; [|assumption].
      apply (Forall_dalter
               (fun k (_ : list Info.t) =>
                  extension_of o filename = extension_of o k));
        auto.
  - unfold Core.extend_duplicates. split; [now apply NoDup_keys_dalter|].
    apply Forall_dalter; [assumption| |].
    + unfold More.bucket_ok. cbn.
      repeat split; try (repeat constructor; simpl; tauto).
      right. discriminate.
    + intros data [Hc [Hd [Hne Hext]]]. unfold More.bucket_ok.
      cbn [conflicts duplicates].
      split; [assumption|]. split; [now apply NoDup_keys_dalter|].
      split; [right; apply dalter_not_nil|].
      apply Forall_app in Hext. destruct Hext as [Hec Hed].
      apply Forall_app. split; [assumption|].
      apply (Forall_dalter
               (fun k (_ : list Info.t) =>
                  extension_of o filename = extension_of o k));
        auto.
Qed.

Lemma bucket_ok_classify o fid : forall acc,
  NoDup (keys acc) ->
  Forall (fun entry => More.bucket_ok o (fst entry) (snd entry)) acc ->
  NoDup (keys (fold_left (Core.classify_step o) fid acc))
  /\ Forall (fun entry => More.bucket_ok o (fst entry) (snd entry))
            (fold_left (Core.classify_step o) fid acc).
Proof.
  induction fid as [|item fid IH]; intros acc Hnd Hok; cbn [fold_left]; [auto|].
  destruct (bucket_ok_classify_step o acc item Hnd Hok) as [Hnd' Hok'].
  now apply IH.
Qed.

(** X8.  The classification that a scan returns is well formed: no
    extension has two buckets, no bucket is empty, no filename occurs
    twice in a list of a bucket, and every group lies in the bucket of
    the upper-cased extension of its own filename and is the whole
    filename group. *)
Theorem X8_buckets_are_well_formed w recs res :
  scan w recs res ->
  NoDup (keys res)
  /\ forall ext data,
       In (ext, data) res ->
       (conflicts data <> [] \/ duplicates data <> [])
       /\ NoDup (keys (conflicts data))
       /\ NoDup (keys (duplicates data))
       /\ forall filename infos,
            In (filename, infos) (conflicts data ++ duplicates data) ->
            ext = extension_of (os w) filename
            /\ infos = group_of recs filename.
Proof.
  intros Hscan. pose proof (scan_classify _ _ _ Hscan) as Hres.
  destruct (bucket_ok_classify (os w) (file_info_dict recs) [])
    as [Hnd Hok]; [constructor | constructor |].
  fold (Core.classify (os w) (file_info_dict recs)) in Hnd, Hok.
  rewrite <- Hres in Hnd, Hok.
  split; [assumption|]. intros ext data Hin.
  rewrite Forall_forall in Hok. destruct (Hok _ Hin) as [Hc [Hd [Hne Hext]]].
  cbn [fst snd] in *.
  repeat split; try assumption.
  - rewrite Forall_forall in Hext. apply (Hext _ H).
  - apply (scan_reported_group w recs res ext filename infos Hscan).
    unfold conflicts_at, duplicates_at.
    rewrite (In_dget _ _ _ Hnd Hin).
    apply in_app_or in H. destruct H as [H|H]; [left | right];
      now apply In_dget.
Qed.

Lemma length_filter_split {A} (p q r : A -> bool) l :
  (forall x, (p x = true /\ q x = false /\ r x = true)
             \/ (p x = false /\ q x = true /\ r x = true)
             \/ (p x = false /\ q x = false /\ r x = false)) ->
  (List.length (filter p l) + List.length (filter q l))%nat
  = List.length (filter r l).
Proof.
  intros H. induction l as [|x l IH]; [reflexivity|]. cbn [filter].
  destruct (H x) as [[-> [-> ->]] | [[-> [-> ->]] | [-> [-> ->]]]];
    simpl; lia.
Qed.

(** X9.  The two totals of [run_checker] count every filename that has
    two or more hashed files exactly once between them. *)
Theorem X9_every_repeated_name_is_counted_once w recs res :
  scan w recs res ->
  (Gui.total_conflicts res + Gui.total_duplicates res)%nat
  = count_groups (fun infos => (2 <=? List.length infos)%nat) (file_info_dict recs).
Proof.
  intros Hscan. rewrite (scan_classify _ _ _ Hscan). unfold Core.classify.
  destruct (totals_classify_from (os w) (file_info_dict recs) [])
    as [Hc Hd].
  { apply NoDup_keys_file_info_dict. }
  { intros; split; reflexivity. }
  rewrite Hc, Hd. cbn [Gui.total_conflicts Gui.total_duplicates map list_sum].
  unfold count_groups. cbn [Nat.add]. apply length_filter_split.
  intros [f infos]. cbn [snd]. unfold conflict_verdict, duplicate_verdict.
  change (1 <? List.length infos)%nat with (2 <=? List.length infos)%nat.
  destruct (2 <=? List.length infos)%nat; cbn [andb];
    [destruct (1 <? List.length (Core.unique_hashes infos))%nat|]; auto.
Qed.

End ScanFacts.

(** ** The verdicts *)

Section VerdictFacts.
Import Notions.

Lemma record_of_hash w file_data filename info :
  record_of w file_data = Some (filename, info) ->
  filename = FileData.filename_lower file_data
  /\ Core.get_file_hash w (FileData.path file_data) = Some (Info.hash info).
Proof.
  unfold record_of.
  destruct (Core.get_file_hash w (FileData.path file_data)); [|discriminate].
  destruct (Py.truthy (Some s)); [|discriminate].
  intros [= <- <-]. auto.
Qed.

Lemma get_file_hash_same_read w path1 path2 :
  file_read w path1 = file_read w path2 ->
  Core.get_file_hash w path1 = Core.get_file_hash w path2.
Proof.
  intros E. unfold Core.get_file_hash, Core.hash_file. now rewrite E.
Qed.

(** X10.  Files of one name that read alike never make a conflict: when
    all the files found under a name yield the same chunks on reading,
    the name is reported under no extension as a conflict, and it is
    reported as a duplicate as soon as two of the files were hashed. *)
Theorem X10_same_content_is_never_a_conflict
        {St} w directory file_patterns lightmap_exclusion
        (progress_callback : option (@Gui.callback St)) (s : St) filename :
  let file_list := Gui.collect w directory file_patterns lightmap_exclusion in
  let res := fst (fst (fst (Gui.find_collisions w directory file_patterns
                              lightmap_exclusion progress_callback s))) in
  (forall file_data1 file_data2,
     In file_data1 file_list -> In file_data2 file_list ->
     FileData.filename_lower file_data1 = filename ->
     FileData.filename_lower file_data2 = filename ->
     file_read w (FileData.path file_data1) = file_read w (FileData.path file_data2)) ->
  (forall ext, conflicts_at res ext filename = None)
  /\ ((2 <= List.length (group_of (records w file_list) filename))%nat ->
      duplicates_at res (extension_of (os w) filename) filename
      = Some (group_of (records w file_list) filename)).
Proof.
  intros file_list res Hsame.
  assert (Hscan : scan w (records w file_list) res) by apply scan_gui.
  assert (Hone : (List.length
                    (Core.unique_hashes (group_of (records w file_list) filename))
                  <= 1)%nat).
  { apply length_distinct_constant. intros x y Hx Hy.
    apply in_map_iff in Hx. destruct Hx as [i1 [<- Hi1]].
    apply in_map_iff in Hy. destruct Hy as [i2 [<- Hi2]].
    apply In_group_of, In_records in Hi1. destruct Hi1 as [fd1 [Hfd1 Hr1]].
    apply In_group_of, In_records in Hi2. destruct Hi2 as [fd2 [Hfd2 Hr2]].
    apply record_of_hash in Hr1. destruct Hr1 as [Hk1 Hh1].
    apply record_of_hash in Hr2. destruct Hr2 as [Hk2 Hh2].
    rewrite (get_file_hash_same_read w _ _
               (Hsame fd1 fd2 Hfd1 Hfd2 (eq_sym Hk1) (eq_sym Hk2))) in Hh1.
    congruence. }
  split.
  - intros ext. rewrite (scan_conflicts_at _ _ _ ext filename Hscan).
    unfold is_conflict_group.
    destruct (Nat.leb_spec 2
                (List.length
                   (Core.unique_hashes (group_of (records w file_list) filename))));
      [lia|]. now rewrite andb_false_r.
  - intros Htwo. rewrite (scan_duplicates_at _ _ _ _ filename Hscan).
    rewrite String.eqb_refl. unfold is_duplicate_group.
    assert (Hpos : (1 <= List.length
                           (Core.unique_hashes
                              (group_of (records w file_list) filename)))%nat).
    { apply length_distinct_pos.
      destruct (group_of (records w file_list) filename);
        simpl in *; [lia | discriminate]. }
    destruct (Nat.leb_spec 2
                (List.length (group_of (records w file_list) filename))); [|lia].
    destruct (Nat.eqb_spec
                (List.length
                   (Core.unique_hashes (group_of (records w file_list) filename)))
                1); [reflexivity | lia].
Qed.

(** X11.  Two records of one filename with different digests make the
    whole filename group a conflict: it is reported under the extension
    of the filename as a conflict, and nowhere as a duplicate. *)
Theorem X11_two_digests_make_a_conflict w recs res filename info1 info2 :
  scan w recs res ->
  In info1 (group_of recs filename) ->
  In info2 (group_of recs filename) ->
  Info.hash info1 <> Info.hash info2 ->
  conflicts_at res (extension_of (os w) filename) filename
  = Some (group_of recs filename)
  /\ forall ext, duplicates_at res ext filename = None.
Proof.
  intros Hscan H1 H2 Hne.
  assert (Hc : is_conflict_group (group_of recs filename) = true).
  { unfold is_conflict_group. apply Nat.leb_le.
    apply (two_members_length _ (Info.hash info1) (Info.hash info2));
      [| | assumption];
      apply In_distinct, in_map; assumption. }
  split.
  - rewrite (scan_conflicts_at _ _ _ _ filename Hscan).
    now rewrite String.eqb_refl, Hc.
  - intros ext. rewrite (scan_duplicates_at _ _ _ ext filename Hscan).
    rewrite (conflict_not_duplicate _ Hc). now rewrite andb_false_r.
Qed.

Lemma Permutation_filter' {A} (p : A -> bool) l l' :
  Permutation l l' -> Permutation (filter p l) (filter p l').
Proof.
  induction 1 as [|x l l' _ IH|x y l|l l' l'' _ IH1 _ IH2]; cbn [filter].
  - constructor.
  - destruct (p x); [now constructor | assumption].
  - destruct (p x), (p y); try apply Permutation_refl. apply perm_swap.
  - now apply Permutation_trans with (filter p l').
Qed.

Lemma Permutation_group_of recs recs' filename :
  Permutation recs recs' ->
  Permutation (group_of recs filename) (group_of recs' filename).
Proof.
  intros H. unfold group_of. now apply Permutation_map, Permutation_filter'.
Qed.

Lemma length_distinct_Permutation xs ys :
  Permutation xs ys ->
  List.length (Py.distinct xs) = List.length (Py.distinct ys).
Proof.
  intros H. apply Permutation_length.
  apply NoDup_Permutation; try apply NoDup_distinct.
  intros x. rewrite !In_distinct.
  split; apply Permutation_in; [assumption | now apply Permutation_sym].
Qed.

Lemma verdicts_Permutation infos infos' :
  Permutation infos infos' ->
  is_conflict_group infos = is_conflict_group infos'
  /\ is_duplicate_group infos = is_duplicate_group infos'.
Proof.
  intros H. unfold is_conflict_group, is_duplicate_group, Core.unique_hashes.
  rewrite (length_distinct_Permutation (map Info.hash infos) (map Info.hash infos'))
    by now apply Permutation_map.
  now rewrite (Permutation_length H).
Qed.

(** X12.  The order in which the walk finds the files changes no
    verdict: two scans on one platform whose records are a permutation
    of each other report the same filenames under the same extensions,
    as conflicts or as duplicates alike, and the groups they report for
    a filename are permutations of each other. *)
Theorem X12_walk_order_changes_no_verdict w w' recs recs' res res' :
  scan w recs res -> scan w' recs' res' ->
  os w = os w' -> Permutation recs recs' ->
  forall ext filename,
    (conflicts_at res ext filename = None <-> conflicts_at res' ext filename = None)
    /\ (duplicates_at res ext filename = None
        <-> duplicates_at res' ext filename = None)
    /\ forall infos infos',
         conflicts_at res ext filename = Some infos
         \/ duplicates_at res ext filename = Some infos ->
         conflicts_at res' ext filename = Some infos'
         \/ duplicates_at res' ext filename = Some infos' ->
         Permutation infos infos'.
Proof.
  intros Hscan Hscan' Hos Hperm ext filename.
  pose proof (Permutation_group_of _ _ filename Hperm) as Hg.
  destruct (verdicts_Permutation _ _ Hg) as [Hc Hd].
  rewrite (scan_conflicts_at _ _ _ ext filename Hscan),
          (scan_conflicts_at _ _ _ ext filename Hscan'),
          (scan_duplicates_at _ _ _ ext filename Hscan),
          (scan_duplicates_at _ _ _ ext filename Hscan').
  rewrite <- Hos, <- Hc, <- Hd.
  destruct (String.eqb ext (extension_of (os w) filename)); cbn [andb].
  - destruct (is_conflict_group (group_of recs filename)),
             (is_duplicate_group (group_of recs filename));
      (split; [|split]); try tauto; try (split; discriminate);
      intros infos infos' [H|H] [H'|H']; try discriminate;
      injection H as <-; injection H' as <-; assumption.
  - split; [tauto|]. split; [tauto|].
    intros infos infos' [H|H]; discriminate.
Qed.

End VerdictFacts.

(** ** The three variants side by side *)

Section VariantFacts.
Import Notions.

Lemma group_of_map {A} (g : Info.t -> A) recs filename :
  map g (group_of recs filename)
  = map snd (filter (fun r => String.eqb (fst r) filename)
                    (map (fun r => (fst r, g (snd r))) recs)).
Proof.
  unfold group_of. induction recs as [|[k i] recs IH]; cbn [map filter fst snd];
    [reflexivity|].
  destruct (String.eqb k filename); cbn [map snd]; now rewrite IH.
Qed.

Lemma verdicts_by_hashes infos infos' :
  map Info.hash infos = map Info.hash infos' ->
  is_conflict_group infos = is_conflict_group infos'
  /\ is_duplicate_group infos = is_duplicate_group infos'.
Proof.
  intros E.
  assert (El : List.length infos = List.length infos').
  { rewrite <- (length_map Info.hash infos), E. apply length_map. }
  unfold is_conflict_group, is_duplicate_group, Core.unique_hashes.
  now rewrite E, El.
Qed.

(** two scans whose records agree on the filename and on a view [g] of
    the record that fixes the digest report the same groups, seen
    through [g] *)
Lemma scans_agree {A} (g : Info.t -> A) (h : A -> string) w w' recs recs' res res' :
  (forall info, h (g info) = Info.hash info) ->
  scan w recs res -> scan w' recs' res' -> os w = os w' ->
  map (fun r => (fst r, g (snd r))) recs = map (fun r => (fst r, g (snd r))) recs' ->
  forall ext filename,
    option_map (map g) (conflicts_at res ext filename)
    = option_map (map g) (conflicts_at res' ext filename)
    /\ option_map (map g) (duplicates_at res ext filename)
       = option_map (map g) (duplicates_at res' ext filename).
Proof.
  intros Hh Hscan Hscan' Hos E ext filename.
  assert (Hg : map g (group_of recs filename) = map g (group_of recs' filename)).
  { now rewrite !group_of_map, E. }
  assert (Hhash : map Info.hash (group_of recs filename)
                  = map Info.hash (group_of recs' filename)).
  { assert (Hview : forall l, map Info.hash l = map h (map g l)).
    { intros l. rewrite map_map. apply map_ext. intros info.
      symmetry. apply Hh. }
    now rewrite !Hview, Hg. }
  destruct (verdicts_by_hashes _ _ Hhash) as [Hc Hd].
  rewrite (scan_conflicts_at _ _ _ ext filename Hscan),
          (scan_conflicts_at _ _ _ ext filename Hscan'),
          (scan_duplicates_at _ _ _ ext filename Hscan),
          (scan_duplicates_at _ _ _ ext filename Hscan').
  rewrite <- Hos, <- Hc, <- Hd.
  destruct (String.eqb ext (extension_of (os w) filename)); cbn [andb];
    [|split; reflexivity].
  destruct (is_conflict_group (group_of recs filename)),
           (is_duplicate_group (group_of recs filename));
    cbn [option_map]; rewrite ?Hg; split; reflexivity.
Qed.

Lemma flat_map_of_map {A B C} (f : B -> list C) (g : A -> B) l :
  flat_map f (map g l) = flat_map (fun a => f (g a)) l.
Proof.
  induction l as [|a l IH]; cbn [map flat_map]; [reflexivity | now rewrite IH].
Qed.

Lemma flat_map_ext_In {A B} (f g : A -> list B) l :
  (forall a, In a l -> f a = g a) -> flat_map f l = flat_map g l.
Proof.
  induction l as [|a l IH]; intros H; cbn [flat_map]; [reflexivity|].
  rewrite (H a) by now left. rewrite IH; [reflexivity|].
  intros b Hb. apply H. now right.
Qed.

(** X13.  The two v3 files classify alike: for the same arguments they
    return the same pattern lists, and they report the same groups under
    the same extensions, record by record with the same path and the
    same digest; the records can differ in the resource only. *)
Theorem X13_v3_files_differ_in_the_resource_only
        {St} w directory file_patterns lightmap_exclusion
        (progress_callback : option (@Gui.callback St)) (s : St) :
  let out := fst (Gui.find_collisions w directory file_patterns
                    lightmap_exclusion progress_callback s) in
  let out3 := CheckerV3.find_collisions w directory file_patterns
                lightmap_exclusion in
  let view := fun info => (Info.path info, Info.hash info) in
  snd (fst out3) = snd (fst out)
  /\ snd out3 = snd out
  /\ forall ext filename,
       option_map (map view) (conflicts_at (fst (fst out3)) ext filename)
       = option_map (map view) (conflicts_at (fst (fst out)) ext filename)
       /\ option_map (map view) (duplicates_at (fst (fst out3)) ext filename)
          = option_map (map view) (duplicates_at (fst (fst out)) ext filename).
Proof.
  intros out out3 view.
  split; [|split].
  - unfold out, out3. rewrite find_collisions_unfold.
    unfold CheckerV3.find_collisions, CheckerV3.ALL_MAP_RELATED_FILES.
    now destruct (Core.pattern_lists _ _ _).
  - unfold out, out3. rewrite find_collisions_unfold.
    unfold CheckerV3.find_collisions, CheckerV3.ALL_MAP_RELATED_FILES.
    now destruct (Core.pattern_lists _ _ _).
  - apply (scans_agree view snd w w
             (records w (CheckerV3.collect w directory file_patterns
                           lightmap_exclusion))
             (records w (Gui.collect w directory file_patterns
                           lightmap_exclusion))).
    + reflexivity.
    + apply scan_v3.
    + apply scan_gui.
    + reflexivity.
    + unfold records. rewrite !map_flat_map, !flat_map_concat_map. f_equal.
      apply (collect_v3_same
               (fun file_data =>
                  map (fun r => (fst r, view (snd r)))
                      (option_list (record_of w file_data)))).
      intros path filename_lower resource resource'.
      unfold record_of. cbn [FileData.path FileData.filename_lower FileData.resource].
      destruct (Core.get_file_hash w path); [|reflexivity].
      destruct (Py.truthy (Some s0)); reflexivity.
Qed.

(** X14.  The v2 file and the v3 files reach the same verdicts: called
    with the same patterns, and with the light-map exclusion that the
    ignored patterns of the v2 call stand for, they report the same
    filenames under the same extensions, as conflicts or as duplicates
    alike, with the same digests in the same order. *)
Theorem X14_v2_and_v3_reach_the_same_verdicts
        {St} w directory file_patterns ignored_patterns
        (progress_callback : option (@Gui.callback St)) (s : St) :
  let lightmap_exclusion := Py.contains ignored_patterns "light_ymaps_ignored" in
  let res := fst (fst (fst (Gui.find_collisions w directory file_patterns
                              lightmap_exclusion progress_callback s))) in
  let res2 := fst (fst (CheckerV2.find_collisions w directory
                          (Some file_patterns) (Some ignored_patterns))) in
  forall ext filename,
    option_map (map Info.hash) (conflicts_at res2 ext filename)
    = option_map (map Info.hash) (conflicts_at res ext filename)
    /\ option_map (map Info.hash) (duplicates_at res2 ext filename)
       = option_map (map Info.hash) (duplicates_at res ext filename).
Proof.
  intros lightmap_exclusion res res2.
  apply (scans_agree Info.hash (fun digest => digest) w w
           (records_v2 w
              (CheckerV2.collect w directory (Some file_patterns)
                 (Py.contains (CheckerV2.or_empty (Some ignored_patterns))
                              "light_ymaps_ignored")))
           (records w (Gui.collect w directory file_patterns lightmap_exclusion))).
  - reflexivity.
  - apply scan_v2.
  - apply scan_gui.
  - reflexivity.
  - cbn [CheckerV2.or_empty]. fold lightmap_exclusion.
    rewrite collect_v2_paths. unfold records, records_v2.
    rewrite flat_map_of_map, !map_flat_map.
    apply flat_map_ext_In. intros file_data Hin.
    apply In_gui_collect in Hin.
    destruct Hin as [entry [filename [_ [_ [_ [_ ->]]]]]].
    unfold record_of, record_of_v2, CheckerV2.basename.
    cbn [FileData.path FileData.filename_lower FileData.resource
         CheckerV2.normpath OsPath.file OsPath.text].
    assert (Hlast : last (OsPath.names
                            (OsPath.join (OsPath.mk directory (fst entry)) filename))
                         EmptyString = filename) by apply last_last.
    rewrite Hlast.
    destruct (Core.get_file_hash w _); [|reflexivity].
    destruct (Py.truthy (Some s0)); reflexivity.
Qed.

(** X15.  In the v3 [jim_g_collision_checker.py], with folder names as a
    walk yields them, the resource of a file below a subfolder is the
    first name of its path relative to the scanned folder, and the
    resource of a file right in the scanned folder is the dot that
    [relpath] returns for that folder. *)
Theorem X15_resource_in_the_v3_checker
        w directory file_patterns lightmap_exclusion file_data :
  (forall entry, In entry (os_walk w directory) ->
                 Forall (fun name => plain_name (os w) name = true) (fst entry)) ->
  In file_data (CheckerV3.collect w directory file_patterns lightmap_exclusion) ->
  match OsPath.names (FileData.path file_data) with
  | [] => False
  | [_] => FileData.resource file_data = "."
  | first :: _ :: _ => FileData.resource file_data = first
  end.
Proof.
  intros Hwalk Hin. apply In_v3_collect in Hin.
  destruct Hin as [entry [filename [Hentry [_ ->]]]].
  cbn [FileData.path FileData.resource OsPath.join OsPath.names OsPath.top].
  rewrite v3_resource_name_of by now apply Hwalk.
  destruct (fst entry) as [|first rest]; [reflexivity|].
  destruct rest; reflexivity.
Qed.

(** X16.  In the v2 file, with folder and file names as a walk yields
    them, the resource of a hashed file is the first name of its path
    relative to the scanned folder: the first folder for a file below a
    subfolder, and the name of the file itself for a file right in the
    scanned folder. *)
Theorem X16_resource_in_the_v2_file
        w directory files_to_search ignore_light_ymaps file_path filename info :
  (forall entry, In entry (os_walk w directory) ->
                 Forall (fun name => plain_name (os w) name = true)
                        (fst entry ++ snd entry)) ->
  In file_path (CheckerV2.collect w directory files_to_search ignore_light_ymaps) ->
  record_of_v2 w file_path = Some (filename, info) ->
  hd_error (OsPath.names (OsPath.file file_path)) = Some (Info.resource info).
Proof.
  intros Hwalk Hin Hrec. apply In_v2_collect in Hin.
  destruct Hin as [entry [name [Hentry [Hname [_ [_ ->]]]]]].
  unfold record_of_v2 in Hrec.
  destruct (Core.get_file_hash w _); [|discriminate].
  destruct (Py.truthy (Some s)); [|discriminate].
  injection Hrec as _ <-. cbn [Info.resource].
  assert (Hplain : Forall (fun n => has_char (sep_of (os w)) n = false)
                          (fst entry ++ [name])).
  { specialize (Hwalk entry Hentry). rewrite Forall_app in Hwalk.
    destruct Hwalk as [Hfolder Hfiles]. apply Forall_app. split.
    - eapply Forall_impl; [|exact Hfolder]. intros n H.
      now apply plain_name_spec in H.
    - constructor; [|constructor]. rewrite Forall_forall in Hfiles.
      now apply plain_name_spec, Hfiles. }
  unfold OsPath.relpath, OsPath.join.
  cbn [CheckerV2.normpath OsPath.file OsPath.names OsPath.top].
  destruct (fst entry ++ [name]) as [|first rest] eqn:E.
  - now destruct (fst entry).
  - rewrite split_join; [reflexivity | discriminate | assumption].
Qed.

End VariantFacts.

(** ** The Lua report and [run_checker] *)

Section ReportFacts.
Import Notions.

Lemma flat_map_nil {A B} (f : A -> list B) l :
  (forall a, f a = []) -> flat_map f l = [].
Proof.
  intros H. induction l as [|a l IH]; cbn [flat_map]; [reflexivity|].
  now rewrite H, IH.
Qed.

Lemma gui_collect_no_patterns w directory lightmap_exclusion :
  Gui.collect w directory [] lightmap_exclusion = [].
Proof.
  unfold Gui.collect. apply flat_map_nil. intros entry.
  apply flat_map_nil. intros filename. cbn [existsb].
  now destruct (Core.is_lightmap _ _ _).
Qed.

Lemma v3_collect_no_patterns w directory lightmap_exclusion :
  CheckerV3.collect w directory [] lightmap_exclusion = [].
Proof.
  unfold CheckerV3.collect. apply flat_map_nil. intros entry.
  apply flat_map_nil. intros filename. cbn [existsb].
  now destruct (Core.is_lightmap _ _ _).
Qed.

Lemma sorted_not_nil l : l <> [] -> CheckerV3.sorted l <> [].
Proof.
  destruct l as [|x l]; [congruence|]. intros _ E.
  assert (H : In x (CheckerV3.sorted (x :: l))) by (apply In_sorted; now left).
  rewrite E in H. contradiction.
Qed.

(** X17.  In the v3 [jim_g_collision_checker.py] a run for the Lua format
    gets its report if and only if the scan reported a collision: when
    the scan reports nothing, the report raises the [NameError] of the
    unbound [data], and so it does in every run with no pattern
    selected, for which the scan reports nothing. *)
Theorem X17_v3_checker_lua_run_needs_a_collision w target_dir file_vars :
  let selection := App.selection_v3 file_vars in
  let categorized_results :=
    fst (fst (CheckerV3.find_collisions w target_dir
                (fst selection) (snd selection))) in
  ((exists text, App.lua_report_content_v3 w target_dir file_vars = Ok text)
   <-> categorized_results <> [])
  /\ (categorized_results = [] ->
      App.lua_report_content_v3 w target_dir file_vars
      = Raise (UnboundLocalError "data"))
  /\ (fst selection = [] -> categorized_results = []).
Proof.
  intros selection categorized_results.
  unfold App.lua_report_content_v3. fold selection.
  destruct selection as [selected_patterns lightmap_exclusion] eqn:Es.
  cbn [fst snd] in categorized_results.
  assert (Hrun : forall cr fs ip,
             cr = [] /\ CheckerV3._generate_lua_report w target_dir cr
                          (Gui.total_conflicts cr) (Gui.total_duplicates cr) fs ip
                        = Raise (UnboundLocalError "data")
             \/ cr <> [] /\ exists text,
                  CheckerV3._generate_lua_report w target_dir cr
                    (Gui.total_conflicts cr) (Gui.total_duplicates cr) fs ip
                  = Ok text).
  { intros cr fs ip. destruct cr as [|x cr]; [left; split; reflexivity|].
    right. split; [discriminate|].
    unfold CheckerV3._generate_lua_report.
    assert (Hne : x :: cr <> []) by discriminate.
    pose proof (fold_report_step_data (CheckerV3.sorted (x :: cr))
                  (CheckerV3.header_lines w target_dir fs ip) true None
                  (sorted_not_nil _ Hne)) as Hd.
    destruct (fold_left CheckerV3.report_step (CheckerV3.sorted (x :: cr)) _)
      as [[lines first] data].
    cbn [snd] in Hd. subst data. eauto. }
  subst categorized_results.
  destruct (CheckerV3.find_collisions w target_dir selected_patterns
              lightmap_exclusion) as [[cr fs] ip] eqn:Ef.
  cbn [fst snd].
  split; [|split].
  - destruct (Hrun cr fs ip) as [[-> E]|[Hne E]].
    + rewrite E. split; [intros [text H]; discriminate | congruence].
    + split; auto.
  - intros ->. now destruct (Hrun [] fs ip) as [[_ E]|[Hne _]].
  - intros ->. unfold CheckerV3.find_collisions in Ef.
    rewrite v3_collect_no_patterns in Ef.
    destruct (Core.pattern_lists _ _ _). now injection Ef as <- _ _.
Qed.

(** X18.  In [jim_g_collision_gui.py] a run for the Lua format with no
    pattern selected ends well: the callback is told 5, 100 and 98, and
    the report is the header followed by a summary of zero conflicts and
    zero duplicates. *)
Theorem X18_gui_lua_run_with_nothing_selected w target_dir file_vars exclusion :
  App.selected_patterns file_vars = [] ->
  App.lightmap_exclusion file_vars = Some exclusion ->
  App.lua_report_content_gui w target_dir file_vars record_percentage []
  = Some (LuaReport.Returns
            (Py.join CheckerV3.newline
               (CheckerV3.header_lines w target_dir []
                  (snd (Core.pattern_lists Gui.ALL_MAP_RELATED_FILES [] exclusion))
                  ++ CheckerV3.summary_lines 0 0)),
          [5; 100; 98]%Z).
Proof.
  intros Hsel Hlx. unfold App.lua_report_content_gui. rewrite Hsel, Hlx.
  rewrite find_collisions_unfold, gui_collect_no_patterns.
  destruct exclusion; reflexivity.
Qed.

Lemma contains_app xs ys x :
  Py.contains (xs ++ ys) x = Py.contains xs x || Py.contains ys x.
Proof. apply existsb_app. Qed.

Lemma filter_all {A} (p : A -> bool) l :
  (forall x, In x l -> p x = true) -> filter p l = l.
Proof.
  induction l as [|x l IH]; intros H; cbn [filter]; [reflexivity|].
  rewrite (H x) by now left. rewrite IH; [reflexivity|].
  intros y Hy. apply H. now right.
Qed.

Lemma filter_filter {A} (p q : A -> bool) l :
  filter p (filter q l) = filter (fun x => q x && p x) l.
Proof.
  induction l as [|x l IH]; cbn [filter]; [reflexivity|].
  destruct (q x); cbn [filter andb]; [destruct (p x)|]; now rewrite IH.
Qed.

(** the patterns that the header of a report shows as searched and as
    ignored, from the arguments of [find_collisions] *)
Lemma shown_patterns file_patterns lightmap_exclusion :
  let lists := Core.pattern_lists Gui.ALL_MAP_RELATED_FILES file_patterns
                 lightmap_exclusion in
  Py.contains (snd lists) "light_ymaps_ignored" = lightmap_exclusion
  /\ filter (fun p => negb (String.eqb p "light_ymaps")) (fst lists)
     = filter (fun p => negb (String.eqb p "light_ymaps")) file_patterns
  /\ filter (fun p => negb (String.eqb p "light_ymaps_ignored")) (snd lists)
     = filter (fun p => negb (Py.contains file_patterns p))
              (More.glob_patterns Gui.ALL_MAP_RELATED_FILES).
Proof.
  intros lists.
  set (ignored := filter (fun p => negb (Py.contains file_patterns p)
                                   && negb (String.eqb p "light_ymaps"))
                         (keys Gui.ALL_MAP_RELATED_FILES)).
  assert (Hkeys : forall p, In p ignored -> p <> "light_ymaps_ignored").
  { intros p Hp. apply filter_In in Hp. destruct Hp as [Hp _].
    intros ->. simpl in Hp. repeat destruct Hp as [Hp|Hp]; discriminate || auto. }
  assert (Hno : Py.contains ignored "light_ymaps_ignored" = false).
  { destruct (Py.contains ignored "light_ymaps_ignored") eqn:E; [|reflexivity].
    apply contains_In in E. now apply Hkeys in E. }
  assert (Hid : filter (fun p => negb (String.eqb p "light_ymaps_ignored")) ignored
                = ignored).
  { apply filter_all. intros p Hp. apply negb_true_iff, String.eqb_neq.
    now apply Hkeys. }
  assert (Hglob : ignored
                  = filter (fun p => negb (Py.contains file_patterns p))
                           (More.glob_patterns Gui.ALL_MAP_RELATED_FILES)).
  { unfold More.glob_patterns. rewrite filter_filter. apply filter_ext.
    intros p. apply andb_comm. }
  subst lists. unfold Core.pattern_lists. fold ignored.
  destruct lightmap_exclusion; cbn [fst snd].
  - rewrite contains_app, Hno, filter_app, Hid.
    split; [reflexivity|]. split; [reflexivity|].
    cbn. now rewrite app_nil_r.
  - destruct (Py.contains file_patterns "*.ymap"); cbn [fst snd];
      rewrite Hno, Hid; (split; [reflexivity|]); (split; [|assumption]);
      [|reflexivity].
    rewrite filter_app. cbn. now rewrite app_nil_r.
Qed.

(** X20.  The header of a report made from what [find_collisions]
    returns never shows the marks [light_ymaps] and
    [light_ymaps_ignored].  It shows as searched the selected patterns
    and, whenever the light-map exclusion is off, [*.ymap (including
    lights)], whether [*.ymap] was selected or not; it shows as ignored
    the patterns of the vocabulary that were not selected and, when the
    exclusion is on, [lodlights*.ymap/vw_*.ymap]. *)
Theorem X20_header_of_the_report w directory file_patterns lightmap_exclusion :
  let lists := Core.pattern_lists Gui.ALL_MAP_RELATED_FILES file_patterns
                 lightmap_exclusion in
  let searched :=
    filter (fun p => negb (String.eqb p "light_ymaps")) file_patterns
    ++ (if lightmap_exclusion then [] else ["*.ymap (including lights)"]) in
  let ignored :=
    filter (fun p => negb (Py.contains file_patterns p))
           (More.glob_patterns Gui.ALL_MAP_RELATED_FILES)
    ++ (if lightmap_exclusion then ["lodlights*.ymap/vw_*.ymap"] else []) in
  let header := CheckerV3.header_lines w directory (fst lists) (snd lists) in
  nth 5 header ""
  = ("-- File Patterns Searched: "
       ++ match searched with [] => "NONE" | _ :: _ => Py.join ", " searched end)%string
  /\ nth 6 header ""
     = ("-- File Patterns Ignored: "
          ++ match ignored with [] => "NONE" | _ :: _ => Py.join ", " ignored end)%string.
Proof.
  intros lists searched ignored header.
  destruct (shown_patterns file_patterns lightmap_exclusion) as [Hc [Hs Hi]].
  fold lists in Hc, Hs, Hi.
  subst header. unfold CheckerV3.header_lines. cbn [nth].
  rewrite Hc, Hs, Hi. subst searched ignored.
  destruct lightmap_exclusion; cbn [negb]; rewrite ?app_nil_r; auto.
Qed.

End ReportFacts.

Section ReportLines.
Import Notions.

Lemma report_step_keeps st entry line :
  In line (fst (fst st)) ->
  In line (fst (fst (CheckerV3.report_step st entry))).
Proof.
  destruct st as [[lines first] d], entry as [ext data]. cbn [fst].
  intros H. unfold CheckerV3.report_step.
  destruct (CheckerV3.is_empty (conflicts data)),
           (CheckerV3.is_empty (duplicates data)), first;
    cbn [andb negb fst]; rewrite ?in_app_iff; tauto.
Qed.

Lemma fold_report_step_keeps l : forall st line,
  In line (fst (fst st)) ->
  In line (fst (fst (fold_left CheckerV3.report_step l st))).
Proof.
  induction l as [|entry l IH]; intros st line H; cbn [fold_left];
    [assumption|].
  now apply IH, report_step_keeps.
Qed.

Lemma report_step_adds st ext data :
  conflicts data <> [] \/ duplicates data <> [] ->
  In ("-- --- " ++ ext ++ " Collisions ---")%string
     (fst (fst (CheckerV3.report_step st (ext, data))))
  /\ forall line,
       In line (CheckerV3.group_lines (conflicts data)
                  ++ CheckerV3.group_lines (duplicates data)) ->
       In line (fst (fst (CheckerV3.report_step st (ext, data)))).
Proof.
  destruct st as [[lines first] d]. intros Hne. unfold CheckerV3.report_step.
  destruct (conflicts data) as [|c cs], (duplicates data) as [|x xs];
    cbn [CheckerV3.is_empty andb negb fst].
  - destruct Hne; congruence.
  - split; [|intros line]; rewrite ?in_app_iff; cbn [In]; tauto.
  - split; [|intros line]; rewrite ?in_app_iff; cbn [In]; tauto.
  - split; [|intros line]; rewrite ?in_app_iff; cbn [In]; tauto.
Qed.

Lemma fold_report_step_adds l : forall st ext data,
  In (ext, data) l ->
  conflicts data <> [] \/ duplicates data <> [] ->
  In ("-- --- " ++ ext ++ " Collisions ---")%string
     (fst (fst (fold_left CheckerV3.report_step l st)))
  /\ forall line,
       In line (CheckerV3.group_lines (conflicts data)
                  ++ CheckerV3.group_lines (duplicates data)) ->
       In line (fst (fst (fold_left CheckerV3.report_step l st))).
Proof.
  induction l as [|entry l IH]; intros st ext data Hin Hne; [contradiction|].
  cbn [fold_left]. destruct Hin as [->|Hin]; [|now apply IH].
  destruct (report_step_adds st ext data Hne) as [Hh Hg].
  split; [|intros line Hl]; apply fold_report_step_keeps; auto.
Qed.

Lemma In_group_lines groups filename items :
  In (filename, items) groups ->
  In ("  -- - File: " ++ filename)%string (CheckerV3.group_lines groups)
  /\ forall item,
       In item items ->
       In ("    - Resource: " ++ Py.ljust (Info.resource item) 25
             ++ " Path: " ++ Info.path item)%string
          (CheckerV3.group_lines groups).
Proof.
  intros Hin. unfold CheckerV3.group_lines.
  split; [|intros item Hitem]; apply in_flat_map;
    exists (filename, items); (split; [assumption|]); cbn [fst snd].
  - now left.
  - right. apply in_map_iff. now exists item.
Qed.

Lemma lua_output_lines_eq w directory categorized_results
      total_conflicts total_duplicates files_to_search ignored_patterns :
  LuaReport.lua_output_lines w directory categorized_results
    total_conflicts total_duplicates files_to_search ignored_patterns
  = fst (fst (fold_left CheckerV3.report_step
                (CheckerV3.sorted categorized_results)
                (CheckerV3.header_lines w directory files_to_search
                   ignored_patterns, true, None)))
    ++ CheckerV3.summary_lines total_conflicts total_duplicates.
Proof.
  unfold LuaReport.lua_output_lines.
  now destruct (fold_left CheckerV3.report_step _ _) as [[lines first] data].
Qed.

(** X21.  The Lua report of the v2 file and of [jim_g_collision_gui.py]
    leaves nothing out: for every group of the classification it has the
    line of the extension of its bucket, the line of its filename, and a
    line with the resource and the path of each of its records. *)
Theorem X21_every_group_is_in_the_report
        w directory categorized_results total_conflicts total_duplicates
        files_to_search ignored_patterns ext data filename items :
  In (ext, data) categorized_results ->
  In (filename, items) (conflicts data ++ duplicates data) ->
  let lines :=
    LuaReport.lua_output_lines w directory categorized_results
      total_conflicts total_duplicates files_to_search ignored_patterns in
  In ("-- --- " ++ ext ++ " Collisions ---")%string lines
  /\ In ("  -- - File: " ++ filename)%string lines
  /\ forall item,
       In item items ->
       In ("    - Resource: " ++ Py.ljust (Info.resource item) 25
             ++ " Path: " ++ Info.path item)%string
          lines.
Proof.
  intros Hbucket Hgroup lines. subst lines. rewrite lua_output_lines_eq.
  assert (Hne : conflicts data <> [] \/ duplicates data <> []).
  { apply in_app_or in Hgroup.
    destruct Hgroup as [H|H]; [left | right]; intros E; now rewrite E in H. }
  apply In_sorted in Hbucket.
  destruct (fold_report_step_adds _
              (CheckerV3.header_lines w directory files_to_search
                 ignored_patterns, true, None)
              ext data Hbucket Hne) as [Hh Hg].
  assert (Hlines : In ("  -- - File: " ++ filename)%string
                      (CheckerV3.group_lines (conflicts data)
                         ++ CheckerV3.group_lines (duplicates data))
                   /\ forall item,
                        In item items ->
                        In ("    - Resource: " ++ Py.ljust (Info.resource item) 25
                              ++ " Path: " ++ Info.path item)%string
                           (CheckerV3.group_lines (conflicts data)
                              ++ CheckerV3.group_lines (duplicates data))).
  { apply in_app_or in Hgroup. destruct Hgroup as [H|H];
      destruct (In_group_lines _ _ _ H) as [Hf Hi];
      (split; [|intros item Hitem]); apply in_or_app; auto. }
  destruct Hlines as [Hf Hi].
  split; [|split; [|intros item Hitem]]; apply in_or_app; left; auto.
Qed.

End ReportLines.

(** ** The check boxes *)

Section AppFacts.

Lemma selected_patterns_set_all value file_vars :
  App.selected_patterns (App.set_all_checkboxes value file_vars)
  = if value
    then filter (fun p => negb (String.eqb p "light_ymaps")) (keys file_vars)
    else [].
Proof.
  unfold App.selected_patterns, App.set_all_checkboxes, keys.
  induction file_vars as [|[k v] file_vars IH]; cbn [map filter fst snd].
  - now destruct value.
  - destruct (String.eqb k "light_ymaps") eqn:E; cbn [fst snd]; rewrite E;
      cbn [negb andb]; [assumption|].
    destruct value; cbn [map fst]; now rewrite IH.
Qed.

(** X22.  [set_all_checkboxes] keeps the check boxes and sets each of
    them: after Select All every pattern is selected and the light-map
    exclusion is off, after Deselect All no pattern is selected and the
    exclusion is on; of two calls in a row the second one decides. *)
Theorem X22_select_all_and_deselect_all value file_vars :
  keys (App.set_all_checkboxes value file_vars) = keys file_vars
  /\ App.selected_patterns (App.set_all_checkboxes value file_vars)
     = (if value
        then filter (fun p => negb (String.eqb p "light_ymaps")) (keys file_vars)
        else [])
  /\ App.lightmap_exclusion (App.set_all_checkboxes value file_vars)
     = option_map (fun _ => negb value) (App.lightmap_exclusion file_vars)
  /\ forall value',
       App.set_all_checkboxes value (App.set_all_checkboxes value' file_vars)
       = App.set_all_checkboxes value file_vars.
Proof.
  split; [|split; [apply selected_patterns_set_all | split]].
  - unfold App.set_all_checkboxes, keys. rewrite map_map. apply map_ext.
    intros [k v]. cbn [fst]. now destruct (String.eqb k "light_ymaps").
  - unfold App.lightmap_exclusion, App.set_all_checkboxes.
    induction file_vars as [|[k v] file_vars IH]; cbn [map dget fst snd];
      [reflexivity|].
    rewrite (String.eqb_sym k "light_ymaps").
    destruct (String.eqb "light_ymaps" k) eqn:E; cbn [dget]; rewrite E;
      [reflexivity | assumption].
  - intros value'. unfold App.set_all_checkboxes. rewrite map_map.
    apply map_ext. intros [k v]. cbn [fst].
    destruct (String.eqb k "light_ymaps") eqn:E; cbn [fst]; now rewrite E.
Qed.

Lemma fold_selection_step file_vars : forall selected exclusion,
  NoDup (keys file_vars) ->
  fold_left App.selection_step file_vars (selected, exclusion)
  = ((selected ++ App.selected_patterns file_vars)%list,
     match App.lightmap_exclusion file_vars with
     | Some value => value
     | None => exclusion
     end).
Proof.
  unfold App.selected_patterns, App.lightmap_exclusion.
  induction file_vars as [|[k v] file_vars IH]; intros selected exclusion Hnd;
    cbn [fold_left filter map dget fst snd].
  - now rewrite app_nil_r.
  - inversion Hnd as [|? ? Hk Hnd']; subst.
    unfold App.selection_step at 2. cbn [fst snd].
    rewrite (String.eqb_sym "light_ymaps" k).
    destruct (String.eqb_spec k "light_ymaps") as [->|Hne]; cbn [negb andb].
    + rewrite IH by assumption.
      apply dget_None_keys in Hk. now rewrite Hk.
    + destruct v; rewrite IH by assumption; cbn [map fst];
        [now rewrite <- app_assoc | reflexivity].
Qed.

(** X23.  The two v3 files read the check boxes alike: the loop of the
    v3 [jim_g_collision_checker.py] ends with the selected patterns and
    the light-map exclusion that [jim_g_collision_gui.py] computes. *)
Theorem X23_the_v3_files_read_the_check_boxes_alike file_vars exclusion :
  NoDup (keys file_vars) ->
  App.lightmap_exclusion file_vars = Some exclusion ->
  App.selection_v3 file_vars = (App.selected_patterns file_vars, exclusion).
Proof.
  intros Hnd Hlx. unfold App.selection_v3.
  rewrite fold_selection_step by assumption. now rewrite Hlx.
Qed.

End AppFacts.

(** ** The questions of the v2 file *)

Section CliFacts.

Lemma ask_consumes default_choice inputs : forall yes rest,
  Cli.ask default_choice inputs = Some (yes, rest) ->
  (List.length rest < List.length inputs)%nat.
Proof.
  induction inputs as [|line inputs IH]; intros yes rest;
    cbn [Cli.ask List.length]; [discriminate|].
  destruct (String.eqb _ "1"); [intros [= _ <-]; lia|].
  destruct (String.eqb _ "2"); [intros [= _ <-]; lia|].
  intros H. apply IH in H. lia.
Qed.

(** one question: the answer decides on the pattern, and uses up lines *)
Lemma question_spec search_patterns light_map_ignored inputs pattern description st :
  Cli.question (Some (search_patterns, light_map_ignored, inputs))
               (pattern, description) = Some st ->
  exists default_choice yes rest,
    Cli.ask default_choice inputs = Some (yes, rest)
    /\ st = (if yes && negb (String.eqb pattern "light_ymaps")
             then search_patterns ++ [pattern] else search_patterns,
             if negb yes && String.eqb pattern "light_ymaps"
             then true else light_map_ignored,
             rest).
Proof.
  unfold Cli.question.
  set (default_choice :=
         if Cli.is_substring "Highly Recommended" description
            || Cli.is_substring "Recommended" description
         then "1" else "2").
  destruct (Cli.ask default_choice inputs) as [[yes rest]|] eqn:E; [|discriminate].
  intros H. exists default_choice, yes, rest. split; [exact E|].
  destruct yes, (String.eqb pattern "light_ymaps"); cbn [negb andb] in *;
    now injection H as <-.
Qed.

Lemma fold_question_None items : fold_left Cli.question items None = None.
Proof. induction items as [|item items IH]; [reflexivity | exact IH]. Qed.

Lemma fold_question_step item items st st' :
  fold_left Cli.question (item :: items) (Some st) = Some st' ->
  exists st1, Cli.question (Some st) item = Some st1
              /\ fold_left Cli.question items (Some st1) = Some st'.
Proof.
  cbn [fold_left]. destruct (Cli.question (Some st) item) as [st1|] eqn:E.
  - intros H. now exists st1.
  - now rewrite fold_question_None.
Qed.

Lemma fold_question_consumes items : forall st st',
  fold_left Cli.question items (Some st) = Some st' ->
  (List.length (snd st') + List.length items <= List.length (snd st))%nat.
Proof.
  induction items as [|[pattern description] items IH]; intros st st' H.
  - injection H as <-. simpl. lia.
  - apply fold_question_step in H. destruct H as [st1 [H1 H]].
    apply IH in H. destruct st as [[sp l] inputs].
    apply question_spec in H1.
    destruct H1 as [default_choice [yes [rest [Hask ->]]]].
    apply ask_consumes in Hask. cbn [snd List.length] in *. lia.
Qed.

(** X24.  The questions need a line for each of the eleven entries of
    the vocabulary and one more for the final prompt: with fewer than
    twelve lines to read, [input] runs out and nothing is returned. *)
Theorem X24_the_questions_need_twelve_lines inputs :
  (List.length inputs < 12)%nat ->
  Cli.get_files_to_search_interactively inputs = None.
Proof.
  intros Hlen. unfold Cli.get_files_to_search_interactively.
  destruct (fold_left Cli.question CheckerV2.ALL_MAP_RELATED_FILES
              (Some ([], false, inputs))) as [[[sp l] rest]|] eqn:E;
    [|reflexivity].
  apply fold_question_consumes in E. cbn [snd List.length] in E.
  destruct rest; [reflexivity|].
  cbn [List.length CheckerV2.ALL_MAP_RELATED_FILES] in E. lia.
Qed.

Lemma contains_cons_other xs x p :
  p <> x -> Py.contains (x :: xs) p = Py.contains xs p.
Proof.
  intros Hne. unfold Py.contains. cbn [existsb].
  apply String.eqb_neq in Hne. now rewrite Hne.
Qed.

Lemma contains_false xs p : ~ In p xs -> Py.contains xs p = false.
Proof.
  intros H. destruct (Py.contains xs p) eqn:E; [|reflexivity].
  now apply contains_In in E.
Qed.

(** the patterns chosen by the answers: a selection of the glob
    patterns of the entries, in their order *)
Lemma fold_question_chosen items : forall st st',
  fold_left Cli.question items (Some st) = Some st' ->
  exists chosen,
    fst (fst st') = fst (fst st) ++ chosen
    /\ (forall p, In p chosen -> In p (More.glob_patterns items))
    /\ (NoDup (keys items) ->
        chosen = filter (Py.contains chosen) (More.glob_patterns items)).
Proof.
  unfold More.glob_patterns.
  induction items as [|[pattern description] items IH]; intros st st' H.
  - injection H as <-. exists []. rewrite app_nil_r. repeat split. tauto.
  - apply fold_question_step in H. destruct H as [st1 [H1 H]].
    apply IH in H. destruct H as [chosen [Hst [Hin Hord]]].
    destruct st as [[sp l] inputs].
    apply question_spec in H1.
    destruct H1 as [default_choice [yes [rest [_ ->]]]].
    cbn [fst snd] in Hst. cbn [fst keys map filter].
    destruct (String.eqb_spec pattern "light_ymaps") as [->|Hne];
      cbn [negb].
    + rewrite andb_false_r in Hst. exists chosen.
      split; [assumption|]. split; [assumption|].
      intros Hnd. apply Hord. now inversion Hnd.
    + rewrite andb_true_r in Hst. destruct yes.
      * exists (pattern :: chosen). rewrite Hst, <- app_assoc.
        split; [reflexivity|]. split.
        { intros p [<-|Hp]; [now left | right; now apply Hin]. }
        intros Hnd. inversion Hnd as [|? ? Hk Hnd']; subst.
        cbn [filter].
        assert (Hc : Py.contains (pattern :: chosen) pattern = true)
          by (apply contains_In; now left).
        rewrite Hc. f_equal. rewrite (Hord Hnd') at 1.
        apply filter_ext_in. intros p Hp. symmetry.
        apply contains_cons_other. intros ->. apply Hk.
        apply filter_In in Hp. tauto.
      * exists chosen. split; [assumption|]. split.
        { intros p Hp. right. now apply Hin. }
        intros Hnd. inversion Hnd as [|? ? Hk Hnd']; subst.
        cbn [filter]. rewrite contains_false; [now apply Hord|].
        intros Hp. apply Hin, filter_In in Hp. tauto.
Qed.

Lemma NoDup_v2_keys : NoDup (keys CheckerV2.ALL_MAP_RELATED_FILES).
Proof.
  cbn. repeat (constructor; [simpl; intuition discriminate|]). constructor.
Qed.

(** X25.  Whatever is typed, the answers split the vocabulary: the
    patterns to search for are glob patterns of the vocabulary, in its
    order and without repetition, and the patterns to ignore are its
    other glob patterns, in its order, followed or not by the mark
    [light_ymaps_ignored]; [light_ymaps] itself is in neither list. *)
Theorem X25_the_answers_split_the_vocabulary inputs search_patterns ignored_patterns :
  Cli.get_files_to_search_interactively inputs
  = Some (search_patterns, ignored_patterns) ->
  let vocabulary := More.glob_patterns CheckerV2.ALL_MAP_RELATED_FILES in
  search_patterns = filter (Py.contains search_patterns) vocabulary
  /\ (exists light_map_ignored : bool,
        ignored_patterns
        = filter (fun p => negb (Py.contains search_patterns p)) vocabulary
            ++ (if light_map_ignored then ["light_ymaps_ignored"] else []))
  /\ ~ In "light_ymaps" (search_patterns ++ ignored_patterns).
Proof.
  unfold Cli.get_files_to_search_interactively.
  destruct (fold_left Cli.question CheckerV2.ALL_MAP_RELATED_FILES
              (Some ([], false, inputs))) as [[[sp l] rest]|] eqn:E;
    [|discriminate].
  destruct rest as [|line rest]; [discriminate|].
  set (vocabulary := More.glob_patterns CheckerV2.ALL_MAP_RELATED_FILES).
  set (ignored := filter (fun p => negb (Py.contains sp p)
                                   && negb (String.eqb p "light_ymaps"))
                         (keys CheckerV2.ALL_MAP_RELATED_FILES)).
  assert (Hign : ignored = filter (fun p => negb (Py.contains sp p)) vocabulary).
  { unfold ignored, vocabulary, More.glob_patterns. rewrite filter_filter.
    apply filter_ext. intros p. apply andb_comm. }
  clearbody ignored. subst ignored.
  assert (Hv : ~ In "light_ymaps" vocabulary).
  { unfold vocabulary. cbn. intuition discriminate. }
  assert (Hnd : NoDup (keys CheckerV2.ALL_MAP_RELATED_FILES))
    by apply NoDup_v2_keys.
  apply fold_question_chosen in E. destruct E as [chosen [Hsp [Hin Hord]]].
  cbn [fst app] in Hsp. subst chosen.
  specialize (Hord Hnd). fold vocabulary in Hin, Hord.
  clearbody vocabulary.
  intros H.
  assert (Hs : search_patterns = sp) by congruence. subst search_patterns.
  assert (Hi : ignored_patterns
               = filter (fun p => negb (Py.contains sp p)) vocabulary
                   ++ (if l then ["light_ymaps_ignored"] else [])).
  { destruct l; [congruence|]. rewrite app_nil_r. congruence. }
  clear H.
  split; [assumption|]. split; [now exists l|].
  intros Hl. apply in_app_or in Hl. destruct Hl as [Hl|Hl].
  - now apply Hin in Hl.
  - rewrite Hi in Hl. apply in_app_or in Hl. destruct Hl as [Hl|Hl].
    + apply filter_In in Hl. tauto.
    + destruct l; simpl in Hl; intuition discriminate.
Qed.

Lemma ask_invalid default_choice bad inputs :
  Cli.strip bad <> "" -> Cli.strip bad <> "1" -> Cli.strip bad <> "2" ->
  Cli.ask default_choice (bad :: inputs) = Cli.ask default_choice inputs.
Proof.
  intros H0 H1 H2. cbn [Cli.ask].
  apply String.eqb_neq in H0, H1, H2. now rewrite H0, H1, H2.
Qed.

Lemma ask_insert default_choice bad :
  Cli.strip bad <> "" -> Cli.strip bad <> "1" -> Cli.strip bad <> "2" ->
  forall inputs inputs' yes rest,
    More.with_line_inserted bad inputs inputs' ->
    Cli.ask default_choice inputs = Some (yes, rest) ->
    exists rest',
      Cli.ask default_choice inputs' = Some (yes, rest')
      /\ More.with_line_inserted bad rest rest'.
Proof.
  intros H0 H1 H2 inputs inputs' yes rest [->|[before [after [-> ->]]]] Hask.
  - exists rest. split; [assumption | now left].
  - revert Hask. induction before as [|line before IH]; cbn [app].
    + intros Hask. exists rest. rewrite ask_invalid by assumption.
      split; [assumption | now left].
    + cbn [Cli.ask].
      destruct (String.eqb _ "1").
      { intros [= <- <-]. exists (before ++ bad :: after).
        split; [reflexivity|]. right. now exists before, after. }
      destruct (String.eqb _ "2").
      { intros [= <- <-]. exists (before ++ bad :: after).
        split; [reflexivity|]. right. now exists before, after. }
      exact IH.
Qed.

Lemma question_insert bad item :
  Cli.strip bad <> "" -> Cli.strip bad <> "1" -> Cli.strip bad <> "2" ->
  forall sp l inputs inputs' st1,
    More.with_line_inserted bad inputs inputs' ->
    Cli.question (Some (sp, l, inputs)) item = Some st1 ->
    exists rest',
      Cli.question (Some (sp, l, inputs')) item
      = Some (fst (fst st1), snd (fst st1), rest')
      /\ More.with_line_inserted bad (snd st1) rest'.
Proof.
  intros H0 H1 H2 sp l inputs inputs' st1 Hins. destruct item as [pattern description].
  unfold Cli.question.
  set (default_choice :=
         if Cli.is_substring "Highly Recommended" description
            || Cli.is_substring "Recommended" description
         then "1" else "2").
  destruct (Cli.ask default_choice inputs) as [[yes rest]|] eqn:E; [|discriminate].
  destruct (ask_insert default_choice bad H0 H1 H2 _ _ _ _ Hins E)
    as [rest' [-> Hrest]].
  intros H. exists rest'.
  destruct yes, (negb (String.eqb pattern "light_ymaps"));
    injection H as <-; cbn [fst snd]; auto.
Qed.

Lemma fold_question_insert bad :
  Cli.strip bad <> "" -> Cli.strip bad <> "1" -> Cli.strip bad <> "2" ->
  forall items sp l inputs inputs' st',
    More.with_line_inserted bad inputs inputs' ->
    fold_left Cli.question items (Some (sp, l, inputs)) = Some st' ->
    exists rest',
      fold_left Cli.question items (Some (sp, l, inputs'))
      = Some (fst (fst st'), snd (fst st'), rest')
      /\ More.with_line_inserted bad (snd st') rest'.
Proof.
  intros H0 H1 H2.
  induction items as [|item items IH]; intros sp l inputs inputs' st' Hins H.
  - injection H as <-. exists inputs'. cbn [fold_left fst snd]. auto.
  - apply fold_question_step in H. destruct H as [st1 [Hq H]].
    destruct (question_insert bad item H0 H1 H2 _ _ _ _ _ Hins Hq)
      as [rest1 [Hq' Hins1]].
    cbn [fold_left]. rewrite Hq'. destruct st1 as [[sp1 l1] inputs1].
    cbn [fst snd] in *. now apply (IH sp1 l1 inputs1 rest1).
Qed.

(** X26.  An answer that is not blank and is neither [1] nor [2] only
    has the question asked again: a run gives with such a line put in
    anywhere what it gives without it.  The line is one of plain ASCII
    text, on which [Cli.strip] is the [strip] of Python. *)
Theorem X26_an_invalid_answer_is_asked_again before bad after outcome :
  More.is_ascii bad = true ->
  Cli.strip bad <> "" -> Cli.strip bad <> "1" -> Cli.strip bad <> "2" ->
  Cli.get_files_to_search_interactively (before ++ after) = Some outcome ->
  Cli.get_files_to_search_interactively (before ++ bad :: after) = Some outcome.
Proof.
  intros _ H0 H1 H2. unfold Cli.get_files_to_search_interactively.
  destruct (fold_left Cli.question CheckerV2.ALL_MAP_RELATED_FILES
              (Some ([], false, before ++ after))) as [[[sp l] rest]|] eqn:E;
    [|discriminate].
  destruct (fold_question_insert bad H0 H1 H2 _ _ _ _
              (before ++ bad :: after) _
              (or_intror (ex_intro _ before (ex_intro _ after (conj eq_refl eq_refl))))
              E)
    as [rest' [-> Hins]].
  cbn [fst snd] in *.
  destruct rest as [|line rest]; [discriminate|]. intros H.
  destruct Hins as [->|[b [a [_ ->]]]]; [assumption|].
  destruct b; exact H.
Qed.

End CliFacts.

(** ** The name of the output file *)

Section PathFacts.
Import Notions.

Lemma rfind_from_app c s : forall t i acc,
  OsPath.rfind_from c (s ++ t) i acc
  = OsPath.rfind_from c t (i + Z.of_nat (String.length s))%Z
                      (OsPath.rfind_from c s i acc).
Proof.
  induction s as [|d s IH]; intros t i acc;
    cbn [String.append OsPath.rfind_from String.length].
  - f_equal. simpl. lia.
  - rewrite IH. f_equal. lia.
Qed.

Lemma rfind_from_absent c t : forall i acc,
  has_char c t = false -> OsPath.rfind_from c t i acc = acc.
Proof.
  induction t as [|d t IH]; intros i acc H; cbn [OsPath.rfind_from];
    [reflexivity|].
  cbn [has_char] in H. apply orb_false_elim in H. destruct H as [Hd Ht].
  rewrite Hd. now apply IH.
Qed.

Lemma rfind_from_range c t : forall i acc,
  OsPath.rfind_from c t i acc = acc
  \/ (i <= OsPath.rfind_from c t i acc < i + Z.of_nat (String.length t))%Z.
Proof.
  induction t as [|d t IH]; intros i acc;
    cbn [OsPath.rfind_from String.length]; [now left|].
  destruct (IH (i + 1)%Z (if Ascii.eqb d c then i else acc)) as [E|E].
  - rewrite E. destruct (Ascii.eqb d c); [right; lia | now left].
  - right. lia.
Qed.

Lemma rfind_app c s t :
  OsPath.rfind c (s ++ t)
  = OsPath.rfind_from c t (Z.of_nat (String.length s)) (OsPath.rfind c s).
Proof. unfold OsPath.rfind. now rewrite rfind_from_app. Qed.

Lemma rfind_range c s :
  (-1 <= OsPath.rfind c s < Z.of_nat (String.length s))%Z.
Proof.
  unfold OsPath.rfind.
  destruct (rfind_from_range c s 0 (-1)) as [E|E]; lia.
Qed.

(** the last [c] of [s ++ t], when it lies in [s], is the last [c] of [s] *)
Lemma rfind_in_head c s t :
  (OsPath.rfind c (s ++ t) < Z.of_nat (String.length s))%Z ->
  OsPath.rfind c (s ++ t) = OsPath.rfind c s.
Proof.
  rewrite rfind_app.
  destruct (rfind_from_range c t (Z.of_nat (String.length s)) (OsPath.rfind c s))
    as [E|E]; [now rewrite E | lia].
Qed.

Lemma rfind_new_ext c s f :
  c <> "."%char -> has_char c f = false ->
  OsPath.rfind c (s ++ "." ++ f) = OsPath.rfind c s.
Proof.
  intros Hc Hf. rewrite rfind_app.
  cbn [String.append OsPath.rfind_from].
  assert (E : Ascii.eqb "." c = false).
  { apply Ascii.eqb_neq. congruence. }
  rewrite E. now apply rfind_from_absent.
Qed.

Lemma rfind_dot_new_ext s f :
  has_char "." f = false ->
  OsPath.rfind "." (s ++ "." ++ f) = Z.of_nat (String.length s).
Proof.
  intros Hf. rewrite rfind_app.
  cbn [String.append OsPath.rfind_from Ascii.eqb Bool.eqb].
  now apply rfind_from_absent.
Qed.

Lemma substring_prefix s : forall i m t,
  (i + m <= String.length s)%nat ->
  substring i m (s ++ t) = substring i m s.
Proof.
  induction s as [|c s IH]; intros i m t H; cbn [String.length] in H.
  - assert (i = 0%nat) by lia. assert (m = 0%nat) by lia. subst.
    now destruct t.
  - destruct i, m; cbn [String.append substring]; try reflexivity.
    + f_equal. apply IH. lia.
    + apply IH. lia.
    + apply IH. lia.
Qed.

Lemma length_substring_prefix n : forall s,
  (n <= String.length s)%nat -> String.length (substring 0 n s) = n.
Proof.
  induction n as [|n IH]; intros s H; [now destruct s|].
  destruct s as [|c s]; cbn [String.length substring] in *; [lia|].
  f_equal. apply IH. lia.
Qed.

(** the index that [splitext] takes for the last separator *)
Lemma sepIndex_range o p :
  (-1 <= match altsep_of o with
         | Some altsep => Z.max (OsPath.rfind (sep_of o) p) (OsPath.rfind altsep p)
         | None => OsPath.rfind (sep_of o) p
         end)%Z.
Proof.
  pose proof (rfind_range (sep_of o) p).
  destruct (altsep_of o) as [a|]; [|lia].
  pose proof (rfind_range a p). lia.
Qed.

(** [splitext] after the extension was replaced *)
Lemma splitext_new_ext o p base ext f :
  OsPath.splitext o p = (base, ext) ->
  ext <> EmptyString ->
  has_char "." f = false ->
  has_char "/" f = false ->
  has_char "\" f = false ->
  p = (base ++ ext)%string
  /\ OsPath.splitext o (base ++ "." ++ f) = (base, ("." ++ f)%string).
Proof.
  intros Hsplit Hext Hdot Hslash Hback.
  unfold OsPath.splitext in Hsplit.
  pose proof (sepIndex_range o p) as Hsi.
  pose proof (rfind_range "." p) as Hdi.
  set (si := match altsep_of o with
             | Some altsep => Z.max (OsPath.rfind (sep_of o) p) (OsPath.rfind altsep p)
             | None => OsPath.rfind (sep_of o) p
             end) in *.
  set (di := OsPath.rfind "." p) in *.
  destruct ((si <? di)%Z
            && existsb (fun ch => negb (Ascii.eqb ch "."))
                 (list_ascii_of_string (OsPath.slice p (si + 1) di))) eqn:C;
    [|injection Hsplit as _ <-; congruence].
  apply andb_prop in C. destruct C as [C1 C2]. apply Z.ltb_lt in C1.
  injection Hsplit as Hb He.
  unfold OsPath.slice in Hb, He, C2.
  replace (Z.to_nat (di - 0)) with (Z.to_nat di) in Hb by lia.
  change (Z.to_nat 0) with 0%nat in Hb.
  replace (Z.to_nat (Z.of_nat (String.length p) - di))
    with (String.length p - Z.to_nat di)%nat in He by lia.
  assert (Hlen : (Z.to_nat di <= String.length p)%nat) by lia.
  assert (Hp : p = (base ++ ext)%string).
  { rewrite <- Hb, <- He. now apply substring_split. }
  assert (Hbase : String.length base = Z.to_nat di).
  { rewrite <- Hb. now apply length_substring_prefix. }
  assert (Hdi' : di = Z.of_nat (String.length base)) by lia.
  split; [assumption|].
  assert (Hsep : forall c, c <> "."%char -> has_char c f = false ->
                           (OsPath.rfind c p <= si)%Z ->
                           OsPath.rfind c (base ++ "." ++ f) = OsPath.rfind c p).
  { intros c Hc Hf Hle. rewrite rfind_new_ext by assumption.
    symmetry. rewrite Hp. apply rfind_in_head. rewrite <- Hp. lia. }
  assert (Hsi' : match altsep_of o with
                 | Some altsep =>
                     Z.max (OsPath.rfind (sep_of o) (base ++ "." ++ f))
                           (OsPath.rfind altsep (base ++ "." ++ f))
                 | None => OsPath.rfind (sep_of o) (base ++ "." ++ f)
                 end = si).
  { subst si. destruct o; cbn [altsep_of sep_of] in *.
    - apply Hsep; [discriminate | assumption | lia].
    - rewrite !Hsep; try discriminate; try assumption; lia. }
  unfold OsPath.splitext. rewrite Hsi', (rfind_dot_new_ext base f Hdot), <- Hdi'.
  assert (Hslice : OsPath.slice (base ++ "." ++ f) (si + 1) di
                   = substring (Z.to_nat (si + 1)) (Z.to_nat (di - (si + 1))) p).
  { unfold OsPath.slice. rewrite Hp.
    rewrite !substring_prefix by lia. reflexivity. }
  rewrite Hslice, C2.
  apply Z.ltb_lt in C1. rewrite C1. cbn [andb]. unfold OsPath.slice.
  f_equal.
  - change (Z.to_nat 0) with 0%nat.
    replace (Z.to_nat (di - 0)) with (String.length base) by lia.
    rewrite substring_prefix by lia. apply substring_all.
  - replace (Z.to_nat di) with (String.length base) by lia.
    rewrite substring_skip.
    replace (Z.to_nat (Z.of_nat (String.length (base ++ "." ++ f)) - di))
      with (String.length ("." ++ f)).
    + apply substring_all.
    + rewrite (length_append base). lia.
Qed.

(** X27.  For an output file with the extension [.html] or [.lua], in
    any case of the letters, [update_output_file_name] replaces the
    extension by the chosen format: of two choices in a row the second
    one decides, and choosing the format that the name has already, in
    lower case, changes nothing. *)
Theorem X27_the_last_format_chosen_decides o current_path format_var format_var' :
  In format_var ["html"; "lua"] ->
  In format_var' ["html"; "lua"] ->
  Py.contains [".html"; ".lua"]
              (Py.lower (snd (OsPath.splitext o current_path))) = true ->
  App.update_output_file_name o format_var current_path
  = (fst (OsPath.splitext o current_path) ++ "." ++ format_var)%string
  /\ App.update_output_file_name o format_var'
       (App.update_output_file_name o format_var current_path)
     = App.update_output_file_name o format_var' current_path
  /\ (snd (OsPath.splitext o current_path) = ("." ++ format_var)%string ->
      App.update_output_file_name o format_var current_path = current_path).
Proof.
  intros Hf Hf' Hext.
  destruct (OsPath.splitext o current_path) as [base ext] eqn:E.
  cbn [fst snd] in *.
  assert (Hne : ext <> EmptyString) by (intros ->; discriminate).
  assert (Hupd : forall f, App.update_output_file_name o f current_path
                           = (base ++ "." ++ f)%string).
  { intros f. unfold App.update_output_file_name. rewrite E, Hext. reflexivity. }
  assert (Hall : current_path = (base ++ ext)%string
                 /\ OsPath.splitext o (base ++ "." ++ format_var)
                    = (base, ("." ++ format_var)%string)
                 /\ Py.contains [".html"; ".lua"]
                      (Py.lower ("." ++ format_var)) = true).
  { destruct Hf as [<-|[<-|[]]].
    - destruct (splitext_new_ext o current_path base ext "html" E Hne)
        as [Hp Hs]; try reflexivity.
      repeat split; assumption.
    - destruct (splitext_new_ext o current_path base ext "lua" E Hne)
        as [Hp Hs]; try reflexivity.
      repeat split; assumption. }
  destruct Hall as [Hp [Hsplit Hrec]].
  split; [apply Hupd|]. split.
  - rewrite !Hupd. unfold App.update_output_file_name.
    rewrite Hsplit, Hrec. reflexivity.
  - intros Hsame. rewrite Hupd, Hp. now rewrite Hsame.
Qed.

End PathFacts.

(** ** The further properties on concrete worlds *)

Section MoreInstances.
Import Notions.

Lemma X1_witness :
  let w := More.chunked in
  let path1 := OsPath.mk "resources" ["resA"; "a.ymap"] in
  let path2 := OsPath.mk "resources" ["resB"; "a.ymap"] in
  let reads1 := [list_byte_of_string "on"; list_byte_of_string "e"] in
  let reads2 := [list_byte_of_string "one"] in
  file_read w path1 = Opened reads1 None
  /\ file_read w path2 = Opened reads2 None
  /\ Core.get_file_hash w path1 = Some (md5_hexdigest w (List.concat reads1))
  /\ Core.get_file_hash w path2 = Core.get_file_hash w path1.
Proof.
  intros w path1 path2 reads1 reads2.
  split; [reflexivity|]. split; [reflexivity|].
  apply (X1_hash_independent_of_chunking w path1 path2 reads1 reads2);
    try reflexivity; repeat constructor; discriminate.
Defined.

Lemma X2_witness :
  let w := More.chunked in
  let path := OsPath.mk "resources" ["resC"; "a.ymap"] in
  file_read w path = Opened [list_byte_of_string "on"] (Some OtherOSError)
  /\ Core.get_file_hash w path = None.
Proof.
  intros w path. split; [reflexivity|].
  apply (X2_no_hash_of_a_partial_read w path). right.
  exists [list_byte_of_string "on"], OtherOSError.
  split; [reflexivity|]. repeat constructor. discriminate.
Defined.

Lemma X4_witness :
  let w := Scenario.buildings in
  (forall p, In p ["*.ymap"; "*.ybn"] <-> In p ["*.ybn"; "*.ymap"; "*.ymap"])
  /\ Gui.collect w "resources" ["*.ymap"; "*.ybn"] false
     = Gui.collect w "resources" ["*.ybn"; "*.ymap"; "*.ymap"] false.
Proof.
  intros w.
  assert (H : forall p, In p ["*.ymap"; "*.ybn"]
                        <-> In p ["*.ybn"; "*.ymap"; "*.ymap"])
    by (intros p; simpl; tauto).
  split; [exact H|].
  exact (X4_pattern_order_is_irrelevant w "resources" _ _ false H).
Defined.

Lemma X7_witness :
  let w := Scenario.buildings in
  rounds_like_ieee (float_round w)
  /\ Forall (fun percentage => (5 <= percentage <= 100)%Z)
       (snd (Gui.find_collisions w "resources" ["*.ymap"] false
               (Some record_percentage) [])).
Proof.
  intros w. split; [exact exact_rounds_like_ieee|].
  exact (X7_percentages_within_bounds w "resources" ["*.ymap"] false
           exact_rounds_like_ieee).
Defined.

Lemma X8_witness :
  let w := Scenario.buildings in
  let recs := records w (Gui.collect w "resources" ["*.ymap"] false) in
  let res := fst (fst (fst (Gui.find_collisions w "resources" ["*.ymap"] false
                              (@None (@Gui.callback unit)) tt))) in
  scan w recs res
  /\ keys res = [".YMAP"]
  /\ NoDup (keys res).
Proof.
  intros w recs res.
  assert (Hscan : scan w recs res) by apply scan_gui.
  split; [exact Hscan|]. split; [reflexivity|].
  exact (proj1 (X8_buckets_are_well_formed w recs res Hscan)).
Defined.

Lemma X9_witness :
  let w := Scenario.buildings in
  let recs := records w (Gui.collect w "resources" ["*.ymap"] false) in
  let res := fst (fst (fst (Gui.find_collisions w "resources" ["*.ymap"] false
                              (@None (@Gui.callback unit)) tt))) in
  scan w recs res
  /\ (Gui.total_conflicts res + Gui.total_duplicates res)%nat
     = count_groups (fun infos => (2 <=? List.length infos)%nat)
                    (file_info_dict recs).
Proof.
  intros w recs res.
  assert (Hscan : scan w recs res) by apply scan_gui.
  split; [exact Hscan|].
  exact (X9_every_repeated_name_is_counted_once w recs res Hscan).
Defined.

Lemma X10_witness :
  let w := Scenario.twins in
  let file_list := Gui.collect w "resources" ["*.ydr"] false in
  let res := fst (fst (fst (Gui.find_collisions w "resources" ["*.ydr"] false
                              (@None (@Gui.callback unit)) tt))) in
  (forall file_data1 file_data2,
     In file_data1 file_list -> In file_data2 file_list ->
     FileData.filename_lower file_data1 = "prop.ydr" ->
     FileData.filename_lower file_data2 = "prop.ydr" ->
     file_read w (FileData.path file_data1) = file_read w (FileData.path file_data2))
  /\ (2 <= List.length (group_of (records w file_list) "prop.ydr"))%nat
  /\ (forall ext, conflicts_at res ext "prop.ydr" = None)
  /\ duplicates_at res ".YDR" "prop.ydr"
     = Some (group_of (records w file_list) "prop.ydr").
Proof.
  intros w file_list res.
  assert (Hsame : forall file_data1 file_data2,
             In file_data1 file_list -> In file_data2 file_list ->
             FileData.filename_lower file_data1 = "prop.ydr" ->
             FileData.filename_lower file_data2 = "prop.ydr" ->
             file_read w (FileData.path file_data1)
             = file_read w (FileData.path file_data2))
    by reflexivity.
  assert (Htwo : (2 <= List.length (group_of (records w file_list) "prop.ydr"))%nat)
    by (vm_compute; lia).
  split; [exact Hsame|]. split; [exact Htwo|].
  destruct (X10_same_content_is_never_a_conflict w "resources" ["*.ydr"] false
              (@None (@Gui.callback unit)) tt "prop.ydr" Hsame) as [Hc Hd].
  split; [exact Hc | exact (Hd Htwo)].
Defined.

Lemma X11_witness :
  let w := Scenario.buildings in
  let recs := records w (Gui.collect w "resources" ["*.ymap"] false) in
  let res := fst (fst (fst (Gui.find_collisions w "resources" ["*.ymap"] false
                              (@None (@Gui.callback unit)) tt))) in
  let info r text :=
    {| Info.path := ("res" ++ r ++ "/building.ymap")%string;
       Info.hash := Scenario.toy_md5 (list_byte_of_string text);
       Info.resource := ("res" ++ r)%string |} in
  scan w recs res
  /\ In (info "A" "one") (group_of recs "building.ymap")
  /\ In (info "C" "two") (group_of recs "building.ymap")
  /\ Info.hash (info "A" "one") <> Info.hash (info "C" "two")
  /\ conflicts_at res ".YMAP" "building.ymap" = Some (group_of recs "building.ymap")
  /\ forall ext, duplicates_at res ext "building.ymap" = None.
Proof.
  intros w recs res info.
  assert (Hscan : scan w recs res) by apply scan_gui.
  assert (H1 : In (info "A" "one") (group_of recs "building.ymap"))
    by (vm_compute; auto).
  assert (H2 : In (info "C" "two") (group_of recs "building.ymap"))
    by (vm_compute; auto).
  assert (Hne : Info.hash (info "A" "one") <> Info.hash (info "C" "two"))
    by (vm_compute; discriminate).
  split; [exact Hscan|]. split; [exact H1|]. split; [exact H2|].
  split; [exact Hne|].
  exact (X11_two_digests_make_a_conflict w recs res "building.ymap" _ _
           Hscan H1 H2 Hne).
Defined.

Lemma X12_witness :
  let w := Scenario.buildings in
  let w' := More.buildings_reversed in
  let recs := records w (Gui.collect w "resources" ["*.ymap"] false) in
  let recs' := records w' (Gui.collect w' "resources" ["*.ymap"] false) in
  let res := fst (fst (fst (Gui.find_collisions w "resources" ["*.ymap"] false
                              (@None (@Gui.callback unit)) tt))) in
  let res' := fst (fst (fst (Gui.find_collisions w' "resources" ["*.ymap"] false
                               (@None (@Gui.callback unit)) tt))) in
  scan w recs res /\ scan w' recs' res' /\ os w = os w'
  /\ Permutation recs recs'
  /\ recs <> recs'
  /\ (conflicts_at res ".YMAP" "building.ymap" = None
      <-> conflicts_at res' ".YMAP" "building.ymap" = None).
Proof.
  intros w w' recs recs' res res'.
  assert (Hscan : scan w recs res) by apply scan_gui.
  assert (Hscan' : scan w' recs' res') by apply scan_gui.
  assert (Hperm : Permutation recs recs').
  { replace recs' with (rev recs) by reflexivity. apply Permutation_rev. }
  split; [exact Hscan|]. split; [exact Hscan'|]. split; [reflexivity|].
  split; [exact Hperm|]. split; [vm_compute; discriminate|].
  exact (proj1 (X12_walk_order_changes_no_verdict w w' recs recs' res res'
                  Hscan Hscan' eq_refl Hperm ".YMAP" "building.ymap")).
Defined.

Lemma X15_witness :
  let w := Scenario.rootdir in
  let file_data :=
    {| FileData.path := OsPath.mk "resources" ["a.ymap"];
       FileData.filename_lower := "a.ymap";
       FileData.resource := "." |} in
  (forall entry, In entry (os_walk w "resources") ->
                 Forall (fun name => plain_name (os w) name = true) (fst entry))
  /\ In file_data (CheckerV3.collect w "resources" ["*.ymap"] false)
  /\ FileData.resource file_data = ".".
Proof.
  intros w file_data.
  assert (Hwalk : forall entry,
             In entry (os_walk w "resources") ->
             Forall (fun name => plain_name (os w) name = true) (fst entry)).
  { intros entry [<-|[<-|[]]]; repeat constructor. }
  assert (Hin : In file_data (CheckerV3.collect w "resources" ["*.ymap"] false))
    by (left; reflexivity).
  split; [exact Hwalk|]. split; [exact Hin|].
  exact (X15_resource_in_the_v3_checker w "resources" ["*.ymap"] false file_data
           Hwalk Hin).
Defined.

Lemma X16_witness :
  let w := Scenario.rootdir in
  let file_path := CheckerV2.normpath w (OsPath.mk "resources" ["a.ymap"]) in
  let info :=
    {| Info.path := "resources/a.ymap";
       Info.hash := Scenario.toy_md5 (list_byte_of_string "one");
       Info.resource := "a.ymap" |} in
  (forall entry, In entry (os_walk w "resources") ->
                 Forall (fun name => plain_name (os w) name = true)
                        (fst entry ++ snd entry))
  /\ In file_path (CheckerV2.collect w "resources" (Some ["*.ymap"]) false)
  /\ record_of_v2 w file_path = Some ("a.ymap", info)
  /\ hd_error (OsPath.names (OsPath.file file_path)) = Some (Info.resource info).
Proof.
  intros w file_path info.
  assert (Hwalk : forall entry,
             In entry (os_walk w "resources") ->
             Forall (fun name => plain_name (os w) name = true)
                    (fst entry ++ snd entry)).
  { intros entry [<-|[<-|[]]]; repeat constructor. }
  assert (Hin : In file_path
                   (CheckerV2.collect w "resources" (Some ["*.ymap"]) false))
    by (left; reflexivity).
  assert (Hrec : record_of_v2 w file_path = Some ("a.ymap", info))
    by reflexivity.
  split; [exact Hwalk|]. split; [exact Hin|]. split; [exact Hrec|].
  exact (X16_resource_in_the_v2_file w "resources" (Some ["*.ymap"]) false
           file_path "a.ymap" info Hwalk Hin Hrec).
Defined.

Lemma X17_witness :
  let w := Scenario.buildings in
  let file_vars := App.set_all_checkboxes false App.initial_file_vars in
  App.selection_v3 file_vars = ([], true)
  /\ App.warns_nothing_selected (App.selection_v3 file_vars) = false
  /\ App.lua_report_content_v3 w "resources" file_vars
     = Raise (UnboundLocalError "data").
Proof.
  intros w file_vars. split; [reflexivity|]. split; [reflexivity|].
  destruct (X17_v3_checker_lua_run_needs_a_collision w "resources" file_vars)
    as [_ [Hraise Hnone]].
  apply Hraise, Hnone. reflexivity.
Defined.

Lemma X18_witness :
  let w := Scenario.buildings in
  let file_vars := App.set_all_checkboxes false App.initial_file_vars in
  App.selected_patterns file_vars = []
  /\ App.lightmap_exclusion file_vars = Some true
  /\ option_map snd
       (App.lua_report_content_gui w "resources" file_vars record_percentage [])
     = Some [5; 100; 98]%Z.
Proof.
  intros w file_vars.
  assert (Hsel : App.selected_patterns file_vars = []) by reflexivity.
  assert (Hlx : App.lightmap_exclusion file_vars = Some true) by reflexivity.
  split; [exact Hsel|]. split; [exact Hlx|].
  now rewrite (X18_gui_lua_run_with_nothing_selected w "resources" file_vars true
                 Hsel Hlx).
Defined.

Lemma X21_witness :
  let item r := {| Info.path := (r ++ "/a.ymap")%string;
                   Info.hash := r;
                   Info.resource := r |} in
  let data := {| conflicts := [("a.ymap", [item "resA"; item "resB"])];
                 duplicates := [] |} in
  let lines :=
    LuaReport.lua_output_lines Scenario.buildings "resources" [(".YMAP", data)]
      1 0 ["*.ymap"] [] in
  In (".YMAP", data) [(".YMAP", data)]
  /\ In ("a.ymap", [item "resA"; item "resB"]) (conflicts data ++ duplicates data)
  /\ In "-- --- .YMAP Collisions ---" lines
  /\ In "  -- - File: a.ymap" lines
  /\ In "    - Resource: resB                      Path: resB/a.ymap" lines.
Proof.
  intros item data lines.
  assert (Hb : In (".YMAP", data) [(".YMAP", data)]) by now left.
  assert (Hg : In ("a.ymap", [item "resA"; item "resB"])
                  (conflicts data ++ duplicates data)) by now left.
  split; [exact Hb|]. split; [exact Hg|].
  destruct (X21_every_group_is_in_the_report Scenario.buildings "resources"
              [(".YMAP", data)] 1 0 ["*.ymap"] [] ".YMAP" data "a.ymap"
              [item "resA"; item "resB"] Hb Hg) as [Hh [Hf Hi]].
  split; [exact Hh|]. split; [exact Hf|].
  apply (Hi (item "resB")). right. now left.
Defined.

Lemma X23_witness :
  NoDup (keys App.initial_file_vars)
  /\ App.lightmap_exclusion App.initial_file_vars = Some false
  /\ App.selection_v3 App.initial_file_vars
     = (App.selected_patterns App.initial_file_vars, false).
Proof.
  assert (Hnd : NoDup (keys App.initial_file_vars)).
  { cbn. repeat (constructor; [simpl; intuition discriminate|]). constructor. }
  split; [exact Hnd|]. split; [reflexivity|].
  exact (X23_the_v3_files_read_the_check_boxes_alike App.initial_file_vars false
           Hnd eq_refl).
Defined.

Lemma X24_witness :
  (List.length (repeat EmptyString 11) < 12)%nat
  /\ Cli.get_files_to_search_interactively (repeat EmptyString 11) = None.
Proof.
  assert (H : (List.length (repeat EmptyString 11) < 12)%nat) by (simpl; lia).
  split; [exact H|].
  exact (X24_the_questions_need_twelve_lines _ H).
Defined.

Lemma X25_witness :
  let search_patterns := ["*.ymap"; "*.ybn"; "*.ymt"; "*.ytd"] in
  let ignored_patterns := ["*.ydr"; "*.ydd"; "*.ytyp"; "*.ycd"; "*.ynv"; "*.ypt"] in
  Cli.get_files_to_search_interactively (repeat EmptyString 12)
  = Some (search_patterns, ignored_patterns)
  /\ ~ In "light_ymaps" (search_patterns ++ ignored_patterns).
Proof.
  intros search_patterns ignored_patterns.
  assert (H : Cli.get_files_to_search_interactively (repeat EmptyString 12)
              = Some (search_patterns, ignored_patterns)) by reflexivity.
  split; [exact H|].
  exact (proj2 (proj2 (X25_the_answers_split_the_vocabulary _ _ _ H))).
Defined.

Lemma X26_witness :
  let outcome := (["*.ymap"; "*.ybn"; "*.ymt"; "*.ytd"],
                  ["*.ydr"; "*.ydd"; "*.ytyp"; "*.ycd"; "*.ynv"; "*.ypt"]) in
  More.is_ascii "yes" = true
  /\ Cli.strip "yes" <> ""
  /\ Cli.get_files_to_search_interactively ([""; ""] ++ repeat EmptyString 10)
     = Some outcome
  /\ Cli.get_files_to_search_interactively
       ([""; ""] ++ "yes" :: repeat EmptyString 10)
     = Some outcome.
Proof.
  intros outcome.
  assert (H : Cli.get_files_to_search_interactively
                ([""; ""] ++ repeat EmptyString 10) = Some outcome)
    by reflexivity.
  split; [reflexivity|]. split; [discriminate|]. split; [exact H|].
  apply (X26_an_invalid_answer_is_asked_again [""; ""] "yes"
           (repeat EmptyString 10) outcome);
    [reflexivity | discriminate | discriminate | discriminate | exact H].
Defined.

Lemma X27_witness :
  let current_path := "/home/me/collisions.HTML" in
  In "lua" ["html"; "lua"]
  /\ In "html" ["html"; "lua"]
  /\ Py.contains [".html"; ".lua"]
       (Py.lower (snd (OsPath.splitext Posix current_path))) = true
  /\ App.update_output_file_name Posix "lua" current_path
     = "/home/me/collisions.lua"
  /\ App.update_output_file_name Posix "html"
       (App.update_output_file_name Posix "lua" current_path)
     = App.update_output_file_name Posix "html" current_path.
Proof.
  intros current_path.
  assert (Hl : In "lua" ["html"; "lua"]) by (right; now left).
  assert (Hh : In "html" ["html"; "lua"]) by now left.
  assert (Hext : Py.contains [".html"; ".lua"]
                   (Py.lower (snd (OsPath.splitext Posix current_path))) = true)
    by reflexivity.
  split; [exact Hl|]. split; [exact Hh|]. split; [exact Hext|].
  destruct (X27_the_last_format_chosen_decides Posix current_path "lua" "html"
              Hl Hh Hext) as [Hfirst [Hsecond _]].
  split; [exact Hfirst | exact Hsecond].
Defined.

End MoreInstances.
